(** * QuizMaster: the quiz-submission and grading pipeline of quiz/views.py

    A shallow embedding of the submission parser, the grading engine, the
    attempt finaliser and the grade-distribution helpers of
    [src/quizmaster/quiz/views.py], with the properties the specification
    states about them.

    Python integers are [Z]; Python floats are IEEE-754 binary64 values, taken
    from the Standard Library's executable specification [SpecFloat]; Python
    strings are [string]s that hold their UTF-8 encoding; the database is a record of tables threaded through a state-and-exception
    monad; [transaction.atomic()] restores the state it was entered with when
    its body raises. *)

From Stdlib Require Import ZArith List Bool String Ascii Lia Permutation.
From Stdlib Require Import Floats.SpecFloat.
Import ListNotations.

Local Open Scope string_scope.
Local Open Scope Z_scope.

(** ** Python exceptions

    The exception classes that the modelled code can raise or catch. *)

Inductive exn : Type :=
| ValueError
| JSONDecodeError            (* json.JSONDecodeError, a subclass of ValueError *)
| UnicodeDecodeError         (* a subclass of ValueError *)
| TypeError
| OverflowError
| ZeroDivisionError
| AttributeError
| Http404
| Question_DoesNotExist
| Option_DoesNotExist
| StudentAnswer_MultipleObjectsReturned.

(** [isinstance(e, ValueError)]: the class itself and its subclasses. *)
Definition is_ValueError (e : exn) : bool :=
  match e with
  | ValueError | JSONDecodeError | UnicodeDecodeError => true
  | _ => false
  end.

Definition is_TypeError (e : exn) : bool :=
  match e with TypeError => true | _ => false end.

Definition is_JSONDecodeError (e : exn) : bool :=
  match e with JSONDecodeError => true | _ => false end.

Definition is_DoesNotExist (e : exn) : bool :=
  match e with
  | Question_DoesNotExist | Option_DoesNotExist => true
  | _ => false
  end.

(** The result of evaluating a pure Python expression. *)
Inductive pyresult (A : Type) : Type :=
| Return (a : A)
| Throw (e : exn).
Arguments Return {A} a.
Arguments Throw {A} e.

(** ** Python floats (binary64) *)

Module PyFloat.

Definition prec : Z := 53.
Definition emax : Z := 1024.

Definition float : Type := spec_float.

(** An integer as an unrounded mantissa with exponent 0. *)
Definition exact (n : Z) : float :=
  match n with
  | Z0 => S754_zero false
  | Zpos p => S754_finite false p 0
  | Zneg p => S754_finite true p 0
  end.

(** [float(n)], when it does not overflow. *)
Definition of_int (n : Z) : float := binary_normalize prec emax n 0 false.

(** [x * y] on floats. *)
Definition mul (x y : float) : float := SFmul prec emax x y.

(** [a / b] on integers: the correctly rounded quotient; ZeroDivisionError
    for a zero divisor, OverflowError when the quotient exceeds the range
    of a float. *)
Definition truediv (a b : Z) : pyresult float :=
  if b =? 0 then Throw ZeroDivisionError
  else match SFdiv prec emax (exact a) (exact b) with
       | S754_infinity _ => Throw OverflowError
       | q => Return q
       end.

(** [int(x)]: truncation toward zero. *)
Definition trunc (x : float) : pyresult Z :=
  match x with
  | S754_zero _ => Return 0
  | S754_nan => Throw ValueError
  | S754_infinity _ => Throw OverflowError
  | S754_finite s m e =>
      let a := if 0 <=? e then Z.pos m * 2 ^ e else Z.pos m / 2 ^ (- e) in
      Return (if s then - a else a)
  end.

(** Comparison of an integer with a float is exact in Python: no
    conversion of the integer to a float takes place.  [cmp_int n x]
    compares [n] with [x]; [None] when [x] is a NaN. *)
Definition cmp_int (n : Z) (x : float) : option comparison :=
  match x with
  | S754_nan => None
  | S754_infinity s => Some (if s then Gt else Lt)
  | S754_zero _ => Some (n ?= 0)
  | S754_finite s m e =>
      let v := if s then Z.neg m else Z.pos m in
      Some (if 0 <=? e then n ?= v * 2 ^ e else n * 2 ^ (- e) ?= v)
  end.

(** [n <= x] and [x <= n]. *)
Definition int_le (n : Z) (x : float) : bool :=
  match cmp_int n x with Some (Lt | Eq) => true | _ => false end.

Definition le_int (x : float) (n : Z) : bool :=
  match cmp_int n x with Some (Gt | Eq) => true | _ => false end.

(** Round half to even of [a / 2 ^ k] for [0 <= a]. *)
Definition div_pow2_half_even (a k : Z) : Z :=
  let d := 2 ^ k in
  let q := a / d in
  let r := a mod d in
  match 2 * r ?= d with
  | Lt => q
  | Gt => q + 1
  | Eq => if Z.even q then q else q + 1
  end.

(** [round(x, 2)]: the decimal with two fractional digits nearest to the
    exact value of [x] (ties to even), converted back to the nearest
    float. *)
Definition round2 (x : float) : float :=
  match x with
  | S754_finite s m e =>
      let n := if 0 <=? e then 100 * Z.pos m * 2 ^ e
               else div_pow2_half_even (100 * Z.pos m) (- e) in
      match SFdiv prec emax (exact n) (exact 100) with
      | S754_finite _ m' e' => S754_finite s m' e'
      | S754_zero _ => S754_zero s
      | y => y
      end
  | _ => x
  end.

End PyFloat.

(** ** Python numbers: [int] and [float] *)

Inductive number : Type :=
| Int (n : Z)
| Float (x : PyFloat.float).

(** [lo <= p <= hi] for integer bounds, as a chained comparison. *)
Definition between (lo : Z) (p : number) (hi : Z) : bool :=
  match p with
  | Int n => (lo <=? n) && (n <=? hi)
  | Float x => PyFloat.int_le lo x && PyFloat.le_int x hi
  end.

(** [x * n] for a float [x] and an integer [n]. *)
Definition float_mul_int (x : PyFloat.float) (n : Z) : number :=
  Float (PyFloat.mul x (PyFloat.of_int n)).

(** [round(p, 2)]. *)
Definition py_round2 (p : number) : number :=
  match p with
  | Int n => Int n
  | Float x => Float (PyFloat.round2 x)
  end.

(** ** Python objects produced by [json.loads]

    A decoded dictionary is given by its items in insertion order; its keys
    are strings. *)

#[warnings="-register-all"]
Inductive pyobj : Type :=
| PNone
| PBool (b : bool)
| PInt (n : Z)
| PFloat (x : PyFloat.float)
| PStr (s : string)
| PList (l : list pyobj)
| PDict (items : list (string * pyobj)).

(** [d.get(key, default)] on the items of a dictionary. *)
Fixpoint dict_get (items : list (string * pyobj)) (key : string)
  (default : pyobj) : pyobj :=
  match items with
  | [] => default
  | (k, v) :: rest => if String.eqb k key then v else dict_get rest key default
  end.

(** [obj.get(key, default)]: only a dictionary has the method. *)
Definition py_get (obj : pyobj) (key : string) (default : pyobj)
  : pyresult pyobj :=
  match obj with
  | PDict items => Return (dict_get items key default)
  | _ => Throw AttributeError
  end.

(** *** Text

    A [string] holds a Python string in UTF-8.  [utf8_chars] splits it
    into its characters, each with its code point and its bytes; bytes
    that do not decode (no Python string has them) get the code point -1. *)

Definition byte_value (c : ascii) : Z := Z.of_nat (nat_of_ascii c).

Definition is_continuation (c : ascii) : bool :=
  (128 <=? byte_value c) && (byte_value c <? 192).

Fixpoint utf8_chars (s : list ascii) : list (Z * list ascii) :=
  match s with
  | [] => []
  | b0 :: rest =>
      let n0 := byte_value b0 in
      let undecoded := (-1, [b0]) :: utf8_chars rest in
      if n0 <? 128 then (n0, [b0]) :: utf8_chars rest
      else if n0 <? 192 then undecoded
      else if n0 <? 224 then
        match rest with
        | b1 :: rest1 =>
            if is_continuation b1
            then ((n0 - 192) * 64 + (byte_value b1 - 128), [b0; b1])
                 :: utf8_chars rest1
            else undecoded
        | _ => undecoded
        end
      else if n0 <? 240 then
        match rest with
        | b1 :: b2 :: rest2 =>
            if is_continuation b1 && is_continuation b2
            then ((n0 - 224) * 4096 + (byte_value b1 - 128) * 64
                  + (byte_value b2 - 128), [b0; b1; b2])
                 :: utf8_chars rest2
            else undecoded
        | _ => undecoded
        end
      else
        match rest with
        | b1 :: b2 :: b3 :: rest3 =>
            if is_continuation b1 && is_continuation b2 && is_continuation b3
            then ((n0 - 240) * 262144 + (byte_value b1 - 128) * 4096
                  + (byte_value b2 - 128) * 64 + (byte_value b3 - 128),
                  [b0; b1; b2; b3])
                 :: utf8_chars rest3
            else undecoded
        | _ => undecoded
        end
  end.

(** The characters beyond ASCII that Python takes for whitespace
    ([Py_UNICODE_ISSPACE]). *)
Definition unicode_space (cp : Z) : bool :=
  (cp =? 133) || (cp =? 160) || (cp =? 5760)
  || ((8192 <=? cp) && (cp <=? 8202))
  || (cp =? 8232) || (cp =? 8233) || (cp =? 8239) || (cp =? 8287)
  || (cp =? 12288).

(** The code points of the digit zero of each script with decimal digits
    (general category Nd, Unicode 14.0 as in CPython 3.11); the nine that
    follow each are its digits one to nine. *)
Definition decimal_zeros : list Z :=
  [48; 1632; 1776; 1984; 2406; 2534; 2662; 2790; 2918; 3046; 3174; 3302;
   3430; 3558; 3664; 3792; 3872; 4160; 4240; 6112; 6160; 6470; 6608; 6784;
   6800; 6992; 7088; 7232; 7248; 42528; 43216; 43264; 43472; 43504; 43600;
   44016; 65296; 66720; 68912; 69734; 69872; 69942; 70096; 70384; 70736;
   70864; 71248; 71360; 71472; 71904; 72016; 72784; 73040; 73120; 92768;
   92864; 93008; 120782; 120792; 120802; 120812; 120822; 123200; 123632;
   125264; 130032].

(** [Py_UNICODE_TODECIMAL] *)
Definition unicode_decimal (cp : Z) : option Z :=
  option_map (fun zero => cp - zero)
    (find (fun zero => (zero <=? cp) && (cp <=? zero + 9)) decimal_zeros).

(** [len(obj)]. *)
Definition py_len (obj : pyobj) : pyresult Z :=
  match obj with
  | PStr s =>
      Return (Z.of_nat (List.length (utf8_chars (list_ascii_of_string s))))
  | PList l => Return (Z.of_nat (List.length l))
  | PDict items => Return (Z.of_nat (List.length items))
  | PNone | PBool _ | PInt _ | PFloat _ => Throw TypeError
  end.

(** [obj.items()]. *)
Definition py_items (obj : pyobj) : pyresult (list (string * pyobj)) :=
  match obj with
  | PDict items => Return items
  | _ => Throw AttributeError
  end.

(** *** [int(s)] for a string

    Surrounding whitespace is stripped; then an optional sign and a
    non-empty run of decimal digits, in which single underscores may
    separate digits.  Anything else is a ValueError.  A string that is not
    ASCII is first rewritten ([_PyUnicode_TransformDecimalAndSpaceToASCII]):
    a space of another script becomes [" "], a decimal digit of another
    script its ASCII digit, any other character beyond ASCII ["?"]. *)

Definition to_ascii_decimal_and_space (s : list ascii) : list ascii :=
  map (fun c =>
         let cp := fst c in
         if (0 <=? cp) && (cp <? 127) then ascii_of_nat (Z.to_nat cp)
         else if unicode_space cp then " "%char
         else match unicode_decimal cp with
              | Some d => ascii_of_nat (Z.to_nat (48 + d))
              | None => "?"%char
              end)
      (utf8_chars s).

Definition is_space (c : ascii) : bool :=
  let n := Z.of_nat (nat_of_ascii c) in
  ((9 <=? n) && (n <=? 13)) || (n =? 32).

Definition digit_value (c : ascii) : option Z :=
  let n := Z.of_nat (nat_of_ascii c) in
  if (48 <=? n) && (n <=? 57) then Some (n - 48) else None.

Fixpoint lstrip (s : list ascii) : list ascii :=
  match s with
  | c :: rest => if is_space c then lstrip rest else s
  | [] => []
  end.

Definition strip (s : list ascii) : list ascii :=
  rev (lstrip (rev (lstrip s))).

(** [parse_digits acc after_digit s]: [after_digit] tells whether the
    previous character was a digit. *)
Fixpoint parse_digits (acc : Z) (after_digit : bool) (s : list ascii)
  : option Z :=
  match s with
  | [] => if after_digit then Some acc else None
  | c :: rest =>
      match digit_value c with
      | Some d => parse_digits (10 * acc + d) true rest
      | None =>
          if Ascii.eqb c "_"%char && after_digit
          then parse_digits acc false rest
          else None
      end
  end.

Definition parse_int (s : list ascii) : option Z :=
  match strip s with
  | "-"%char :: rest => option_map Z.opp (parse_digits 0 false rest)
  | "+"%char :: rest => parse_digits 0 false rest
  | body => parse_digits 0 false body
  end.

Definition count_digits (s : list ascii) : Z :=
  Z.of_nat
    (List.length
       (filter (fun c => match digit_value c with
                         | Some _ => true
                         | None => false
                         end) s)).

(** A string of more than 4300 digits is refused
    ([sys.int_info.default_max_str_digits]). *)
Definition int_of_str (s : string) : pyresult Z :=
  let chars := to_ascii_decimal_and_space (list_ascii_of_string s) in
  match parse_int chars with
  | Some n => if count_digits chars <=? 4300 then Return n else Throw ValueError
  | None => Throw ValueError
  end.

(** [int(obj)]. *)
Definition py_int (obj : pyobj) : pyresult Z :=
  match obj with
  | PNone => Throw TypeError
  | PBool b => Return (if b then 1 else 0)
  | PInt n => Return n
  | PFloat x => PyFloat.trunc x
  | PStr s => int_of_str s
  | PList _ | PDict _ => Throw TypeError
  end.

(** ** The relational schema

    The model classes live in [quiz/models.py], which the views import but
    which is not among the sources at hand.  Each record below carries the
    fields that the views read or write; a foreign key is the primary key of
    the row it refers to, and a nullable column is an [option].  A row holds
    the Python values that the views assign to the attributes of the object
    they save. *)

(** Modelled from the spec: the [Quiz] model (missing [quiz/models.py]),
    owned by the teacher who created it, with [total_marks] and the
    absolute pass threshold [passing_marks]. *)
Module Quiz.
Record t : Type := mk
  { id : Z;
    created_by : Z;           (* Teacher *)
    total_marks : Z;
    passing_marks : Z }.
End Quiz.

(** Modelled from the spec: the [Question] model (missing
    [quiz/models.py]): it belongs to one quiz and is worth [marks]. *)
Module Question.
Record t : Type := mk
  { id : Z;
    quiz : Z;
    marks : Z }.
End Question.

(** Modelled from the spec: the [Option] model (missing [quiz/models.py]):
    it belongs to one question and is correct or not. *)
Module Option.
Record t : Type := mk
  { id : Z;
    question : Z;
    is_correct : bool }.
End Option.

(** Modelled from the spec: the status of an attempt, in progress or
    completed (the constants are those of the views). *)
Inductive attempt_status : Type :=
| ATTEMPT_STATUS_IN_PROGRESS
| ATTEMPT_STATUS_COMPLETED.

Definition attempt_status_eqb (a b : attempt_status) : bool :=
  match a, b with
  | ATTEMPT_STATUS_IN_PROGRESS, ATTEMPT_STATUS_IN_PROGRESS
  | ATTEMPT_STATUS_COMPLETED, ATTEMPT_STATUS_COMPLETED => true
  | _, _ => false
  end.

(** Modelled from the spec: the [QuizAttempt] model (missing
    [quiz/models.py]), one student's run through one quiz, with the
    attributes that [finalize_attempt] assigns. *)
Module QuizAttempt.
Record t : Type := mk
  { id : Z;
    student : Z;              (* User *)
    quiz : Z;
    status : attempt_status;
    score : option Z;
    max_score : Z;
    total_marks : Z;
    correct_answers : Z;
    incorrect_answers : Z;
    end_time : option Z;
    time_spent : Z;
    percentage : option number;
    passed : bool }.
End QuizAttempt.

(** Modelled from the spec: the [StudentAnswer] model (missing
    [quiz/models.py]): the option selected for a question within an attempt,
    with the cached [is_correct]. *)
Module StudentAnswer.
Record t : Type := mk
  { attempt : Z;
    question : Z;
    selected_option : Z;
    is_correct : bool }.
End StudentAnswer.

(** The database: one table per model. *)
Record database : Type := mkdb
  { quizzes : list Quiz.t;
    questions : list Question.t;
    options : list Option.t;
    attempts : list QuizAttempt.t;
    student_answers : list StudentAnswer.t }.

Definition set_attempts (db : database) (l : list QuizAttempt.t) : database :=
  {| quizzes := quizzes db; questions := questions db; options := options db;
     attempts := l; student_answers := student_answers db |}.

Definition set_student_answers (db : database) (l : list StudentAnswer.t)
  : database :=
  {| quizzes := quizzes db; questions := questions db; options := options db;
     attempts := attempts db; student_answers := l |}.

(** ** Code that runs against the database

    A computation takes the database and either returns a value or raises;
    both carry the database as the computation left it. *)

Inductive outcome (A : Type) : Type :=
| Ok (a : A) (db : database)
| Raise (e : exn) (db : database).
Arguments Ok {A} a db.
Arguments Raise {A} e db.

Definition M (A : Type) : Type := database -> outcome A.

Definition ret {A} (a : A) : M A := fun db => Ok a db.

Definition raise {A} (e : exn) : M A := fun db => Raise e db.

Definition bind {A B} (m : M A) (k : A -> M B) : M B :=
  fun db =>
    match m db with
    | Ok a db' => k a db'
    | Raise e db' => Raise e db'
    end.

Definition lift {A} (r : pyresult A) : M A :=
  match r with
  | Return a => ret a
  | Throw e => raise e
  end.

Declare Scope py_scope.
Delimit Scope py_scope with py.
Notation "x <- m ;; k" := (bind m (fun x => k))
  (at level 100, m at next level, right associativity) : py_scope.
Notation "m ;;; k" := (bind m (fun _ => k))
  (at level 100, right associativity) : py_scope.
Local Open Scope py_scope.

(** [try: body except C1: h1 except C2: h2 ...]: the first clause whose
    class test accepts the exception handles it. *)
Fixpoint select_clause {A} (clauses : list ((exn -> bool) * (exn -> M A)))
  (e : exn) : option (M A) :=
  match clauses with
  | [] => None
  | (accepts, handler) :: rest =>
      if accepts e then Some (handler e) else select_clause rest e
  end.

Definition try_except {A} (body : M A)
  (clauses : list ((exn -> bool) * (exn -> M A))) : M A :=
  fun db =>
    match body db with
    | Ok a db' => Ok a db'
    | Raise e db' =>
        match select_clause clauses e with
        | Some handler => handler db'
        | None => Raise e db'
        end
    end.

(** [with transaction.atomic(): body]: when the body raises, every write it
    made is rolled back and the exception propagates. *)
Definition atomic {A} (body : M A) : M A :=
  fun db =>
    match body db with
    | Ok a db' => Ok a db'
    | Raise e _ => Raise e db
    end.

(** *** Managers *)

(** The integer columns of the database hold signed 64-bit integers
    (SQLite, the database of a Django project unless configured
    otherwise); binding an integer out of that range to a statement raises
    OverflowError. *)
Definition fits_column (n : Z) : bool := (- 2 ^ 63 <=? n) && (n <? 2 ^ 63).

(** [get_object_or_404(Quiz, id=quiz_id)]. *)
Definition get_object_or_404_Quiz (quiz_id : Z) : M Quiz.t :=
  fun db =>
    match find (fun q => Quiz.id q =? quiz_id) (quizzes db) with
    | Some q => Ok q db
    | None => Raise Http404 db
    end.

(** [Question.objects.get(id=id, quiz=quiz)]. *)
Definition Question_objects_get (id : Z) (quiz : Quiz.t) : M Question.t :=
  fun db =>
    match find (fun q => (Question.id q =? id)
                         && (Question.quiz q =? Quiz.id quiz))
               (questions db) with
    | Some q => Ok q db
    | None => Raise Question_DoesNotExist db
    end.

(** [Option.objects.get(id=id, question=question)]. *)
Definition Option_objects_get (id : Z) (question : Question.t) : M Option.t :=
  fun db =>
    match find (fun o => (Option.id o =? id)
                         && (Option.question o =? Question.id question))
               (options db) with
    | Some o => Ok o db
    | None => Raise Option_DoesNotExist db
    end.

(** The lookup of [update_or_create(attempt=..., question=...)]. *)
Definition answers_to (attempt question : Z) (r : StudentAnswer.t) : bool :=
  (StudentAnswer.attempt r =? attempt) && (StudentAnswer.question r =? question).

(** [StudentAnswer.objects.update_or_create(attempt=attempt,
    question=question, defaults={selected_option, is_correct})]: no matching
    row, a row is created; one, its defaults are overwritten; several,
    MultipleObjectsReturned. *)
Definition StudentAnswer_objects_update_or_create
  (attempt : QuizAttempt.t) (question : Question.t)
  (selected_option : Option.t) (is_correct : bool) : M unit :=
  fun db =>
    let a := QuizAttempt.id attempt in
    let q := Question.id question in
    let row := StudentAnswer.mk a q (Option.id selected_option) is_correct in
    match filter (answers_to a q) (student_answers db) with
    | [] => Ok tt (set_student_answers db (student_answers db ++ [row]))
    | [_] =>
        Ok tt (set_student_answers db
                 (map (fun r => if answers_to a q r then row else r)
                      (student_answers db)))
    | _ :: _ :: _ => Raise StudentAnswer_MultipleObjectsReturned db
    end.

(** The integer columns of an attempt, its keys apart. *)
Definition integer_columns (attempt : QuizAttempt.t) : list Z :=
  match QuizAttempt.score attempt with
  | Some score => [score]
  | None => []
  end
  ++ [QuizAttempt.max_score attempt; QuizAttempt.total_marks attempt;
      QuizAttempt.correct_answers attempt;
      QuizAttempt.incorrect_answers attempt; QuizAttempt.time_spent attempt].

(** [attempt.save()]: the row with the primary key of [attempt] is
    overwritten; were there none, the row would be inserted.  The save
    raises OverflowError, and writes nothing, when one of the integers
    does not fit its column. *)
Definition QuizAttempt_save (attempt : QuizAttempt.t) : M unit :=
  fun db =>
    let same r := QuizAttempt.id r =? QuizAttempt.id attempt in
    if negb (forallb fits_column (integer_columns attempt))
    then Raise OverflowError db
    else if existsb same (attempts db)
    then Ok tt (set_attempts db
                  (map (fun r => if same r then attempt else r) (attempts db)))
    else Ok tt (set_attempts db (attempts db ++ [attempt])).

(** [queryset.first()] of an unordered queryset: the row with the least
    primary key. *)
Fixpoint first_by_pk (rows : list QuizAttempt.t) : option QuizAttempt.t :=
  match rows with
  | [] => None
  | r :: rest =>
      match first_by_pk rest with
      | None => Some r
      | Some r' =>
          if QuizAttempt.id r <=? QuizAttempt.id r' then Some r else Some r'
      end
  end.

(** ** The submit endpoint *)

(** The request as [submit_quiz] sees it, once its decorators have let it
    through (a logged-in user, the POST method, a valid CSRF token): the
    authenticated user, and the outcome of [json.loads(request.body)] (the
    decoder is library code and is not re-implemented). *)
Record HttpRequest : Type := mkreq
  { user : Z;
    json_loads_body : pyresult pyobj }.

(** The dictionary that [parse_submission_data] returns. *)
Record submission_data : Type := mkdata
  { answers : pyobj;
    time_spent : pyobj }.

(** The dictionary that [process_single_answer] returns. *)
Record answer_result : Type := mkans
  { ans_score : Z;
    ans_max_score : Z;
    ans_correct : bool }.

(** The running totals of the grading loop. *)
Record totals : Type := mktot
  { total_score : Z;
    max_score : Z;
    correct_count : Z;
    incorrect_count : Z }.

(** The body of a JSON response. *)
Inductive error_text : Type :=
| Invalid_request
| Quiz_attempt_not_found
| An_error_occurred (e : exn).   (* f'An error occurred: {str(e)}' *)

Inductive response_data : Type :=
| Submitted (attempt_id score max_score : Z) (percentage : number)
    (passed : bool) (message : string)
| Failed (error : error_text).

Definition success (d : response_data) : bool :=
  match d with
  | Submitted _ _ _ _ _ _ => true
  | Failed _ => false
  end.

Record JsonResponse : Type := mkresp
  { data : response_data;
    status : Z }.

Section Views.

(** The reading of [timezone.now()] during the request. *)
Variable now : Z.

Definition parse_submission_data (request : HttpRequest)
  : M (option submission_data) :=
  try_except
    (data <- lift (json_loads_body request) ;;
     a <- lift (py_get data "answers" (PDict [])) ;;
     t <- lift (py_get data "time_spent" (PInt 0)) ;;
     ret (Some (mkdata a t)))
    [(is_JSONDecodeError, fun _ => ret None)].

Definition get_quiz_attempt (user : Z) (quiz : Quiz.t)
  : M (option QuizAttempt.t) :=
  fun db =>
    Ok (first_by_pk
          (filter (fun a =>
                     (QuizAttempt.student a =? user)
                     && (QuizAttempt.quiz a =? Quiz.id quiz)
                     && attempt_status_eqb (QuizAttempt.status a)
                          ATTEMPT_STATUS_IN_PROGRESS)
                  (attempts db)))
       db.

Definition process_single_answer (attempt : QuizAttempt.t) (quiz : Quiz.t)
  (question_id_str : string) (option_id : pyobj) : M answer_result :=
  qid <- lift (py_int (PStr question_id_str)) ;;
  question <- Question_objects_get qid quiz ;;
  oid <- lift (py_int option_id) ;;
  selected_option <- Option_objects_get oid question ;;
  StudentAnswer_objects_update_or_create attempt question selected_option
    (Option.is_correct selected_option) ;;;
  ret {| ans_score := if Option.is_correct selected_option
                      then Question.marks question else 0;
         ans_max_score := Question.marks question;
         ans_correct := Option.is_correct selected_option |}.

Definition finalize_attempt (attempt : QuizAttempt.t) (quiz : Quiz.t)
  (total_score max_score correct_count incorrect_count : Z)
  (time_spent : pyobj) : M response_data :=
  seconds <- lift (py_int time_spent) ;;
  verdict <-
    (if max_score >? 0
     then q <- lift (PyFloat.truediv total_score max_score) ;;
          ret (float_mul_int q 100, total_score >=? Quiz.passing_marks quiz)
     else ret (Int 0, false)) ;;
  let attempt' :=
    {| QuizAttempt.id := QuizAttempt.id attempt;
       QuizAttempt.student := QuizAttempt.student attempt;
       QuizAttempt.quiz := QuizAttempt.quiz attempt;
       QuizAttempt.status := ATTEMPT_STATUS_COMPLETED;
       QuizAttempt.score := Some total_score;
       QuizAttempt.max_score := max_score;
       QuizAttempt.total_marks := max_score;
       QuizAttempt.correct_answers := correct_count;
       QuizAttempt.incorrect_answers := incorrect_count;
       QuizAttempt.end_time := Some now;
       QuizAttempt.time_spent := seconds;
       QuizAttempt.percentage := Some (fst verdict);
       QuizAttempt.passed := snd verdict |} in
  QuizAttempt_save attempt' ;;;
  ret (Submitted (QuizAttempt.id attempt') total_score max_score
         (py_round2 (fst verdict)) (snd verdict)
         "Quiz submitted successfully!").

(** One iteration of [for question_id_str, option_id in answers.items()]. *)
Definition grade_entry (attempt : QuizAttempt.t) (quiz : Quiz.t)
  (acc : totals) (entry : string * pyobj) : M totals :=
  try_except
    (result <- process_single_answer attempt quiz (fst entry) (snd entry) ;;
     ret {| total_score := total_score acc + ans_score result;
            max_score := max_score acc + ans_max_score result;
            correct_count :=
              if ans_correct result then correct_count acc + 1
              else correct_count acc;
            incorrect_count :=
              if ans_correct result then incorrect_count acc
              else incorrect_count acc + 1 |})
    [(fun e => is_ValueError e || is_TypeError e, fun _ => ret acc);
     (is_DoesNotExist, fun _ => ret acc)].

Fixpoint grade_entries (attempt : QuizAttempt.t) (quiz : Quiz.t)
  (acc : totals) (entries : list (string * pyobj)) : M totals :=
  match entries with
  | [] => ret acc
  | entry :: rest =>
      acc' <- grade_entry attempt quiz acc entry ;;
      grade_entries attempt quiz acc' rest
  end.

(** The statements under [with transaction.atomic():]. *)
Definition process_quiz_submission_block (attempt : QuizAttempt.t)
  (quiz : Quiz.t) (answers time_spent : pyobj) : M response_data :=
  entries <- lift (py_items answers) ;;
  t <- grade_entries attempt quiz (mktot 0 0 0 0) entries ;;
  finalize_attempt attempt quiz (total_score t) (max_score t)
    (correct_count t) (incorrect_count t) time_spent.

Definition process_quiz_submission (attempt : QuizAttempt.t) (quiz : Quiz.t)
  (data : submission_data) : M response_data :=
  let answers := answers data in
  let time_spent := time_spent data in
  lift (py_len answers) ;;;      (* logged: len(answers) *)
  atomic (process_quiz_submission_block attempt quiz answers time_spent).

(** What [submit_quiz] does inside its [try]. *)
Definition submit_quiz_try (request : HttpRequest) (quiz_id : Z)
  : M JsonResponse :=
  data <- parse_submission_data request ;;
  match data with
  | None => ret (mkresp (Failed Invalid_request) 400)
  | Some data =>
      quiz <- get_object_or_404_Quiz quiz_id ;;
      attempt <- get_quiz_attempt (user request) quiz ;;
      match attempt with
      | None => ret (mkresp (Failed Quiz_attempt_not_found) 400)
      | Some attempt =>
          result <- process_quiz_submission attempt quiz data ;;
          ret (mkresp result 200)
      end
  end.

(** [submit_quiz]: the response, and the database after the request. *)
Definition submit_quiz (request : HttpRequest) (quiz_id : Z) (db : database)
  : JsonResponse * database :=
  match submit_quiz_try request quiz_id db with
  | Ok response db' => (response, db')
  | Raise e db' => (mkresp (Failed (An_error_occurred e)) 500, db')
  end.

End Views.

(** ** Grade distributions

    The three helpers of the dashboards.  Each builds its own list of
    [grade_ranges] dictionaries, walks the selected percentages, and bumps
    the count of the first range that contains a percentage. *)

Module GradeRange.
Record t : Type := mk
  { label : string;
    count : Z;
    min : Z;
    max : Z }.

Definition bump (r : t) : t :=
  {| label := label r; count := count r + 1; min := min r; max := max r |}.

(** [{'label': r['label'], 'count': r['count']}] *)
Definition summary (r : t) : string * Z := (label r, count r).
End GradeRange.

Definition is_completed (a : QuizAttempt.t) : bool :=
  attempt_status_eqb (QuizAttempt.status a) ATTEMPT_STATUS_COMPLETED.

(** [QuizAttempt.objects.filter(quiz__created_by=teacher,
    status=ATTEMPT_STATUS_COMPLETED).values_list('percentage', flat=True)] *)
Definition teacher_percentages (db : database) (teacher : Z)
  : list (option number) :=
  map QuizAttempt.percentage
    (filter (fun a =>
               existsb (fun q => (Quiz.id q =? QuizAttempt.quiz a)
                                 && (Quiz.created_by q =? teacher))
                       (quizzes db)
               && is_completed a)
            (attempts db)).

(** [QuizAttempt.objects.filter(student=user,
    status=ATTEMPT_STATUS_COMPLETED).values_list('percentage', flat=True)] *)
Definition student_percentages (db : database) (user : Z)
  : list (option number) :=
  map QuizAttempt.percentage
    (filter (fun a => (QuizAttempt.student a =? user) && is_completed a)
            (attempts db)).

(** *** [calculate_grade_distribution] (teacher-wide) *)

Fixpoint teacher_count_percentage (percentage : number)
  (grade_ranges : list GradeRange.t) : list GradeRange.t :=
  match grade_ranges with
  | [] => []
  | grade_range :: rest =>
      if between (GradeRange.min grade_range) percentage
           (GradeRange.max grade_range)
      then GradeRange.bump grade_range :: rest          (* break *)
      else grade_range :: teacher_count_percentage percentage rest
  end.

Definition calculate_grade_distribution (db : database) (teacher : Z)
  : list (string * Z) :=
  let all_attempts := teacher_percentages db teacher in
  let grade_ranges :=
    [ GradeRange.mk "90-100" 0 90 100;
      GradeRange.mk "80-89" 0 80 89;
      GradeRange.mk "70-79" 0 70 79;
      GradeRange.mk "60-69" 0 60 69;
      GradeRange.mk "50-59" 0 50 59;
      GradeRange.mk "0-49" 0 0 49 ] in
  map GradeRange.summary
    (fold_left
       (fun grade_ranges percentage =>
          match percentage with
          | None => grade_ranges                        (* continue *)
          | Some percentage =>
              teacher_count_percentage percentage grade_ranges
          end)
       all_attempts grade_ranges).

(** *** [calculate_student_grade_distribution] (student-wide) *)

Fixpoint student_count_percentage (percentage : number)
  (grade_ranges : list GradeRange.t) : list GradeRange.t :=
  match grade_ranges with
  | [] => []
  | grade_range :: rest =>
      if between (GradeRange.min grade_range) percentage
           (GradeRange.max grade_range)
      then GradeRange.bump grade_range :: rest
      else grade_range :: student_count_percentage percentage rest
  end.

Definition calculate_student_grade_distribution (db : database) (user : Z)
  : list (string * Z) :=
  let student_attempts := student_percentages db user in
  let grade_ranges :=
    [ GradeRange.mk "90-100" 0 90 100;
      GradeRange.mk "80-89" 0 80 89;
      GradeRange.mk "70-79" 0 70 79;
      GradeRange.mk "60-69" 0 60 69;
      GradeRange.mk "50-59" 0 50 59;
      GradeRange.mk "0-49" 0 0 49 ] in
  map GradeRange.summary
    (fold_left
       (fun grade_ranges percentage =>
          match percentage with
          | None => grade_ranges
          | Some percentage =>
              student_count_percentage percentage grade_ranges
          end)
       student_attempts grade_ranges).

(** *** [calculate_quiz_specific_grade_distribution] (one quiz)

    The caller passes the queryset; [view_quiz_results] passes the completed
    attempts of the quiz. *)

Fixpoint quiz_count_percentage (percentage : number)
  (grade_ranges : list GradeRange.t) : list GradeRange.t :=
  match grade_ranges with
  | [] => []
  | grade_range :: rest =>
      if between (GradeRange.min grade_range) percentage
           (GradeRange.max grade_range)
      then GradeRange.bump grade_range :: rest
      else grade_range :: quiz_count_percentage percentage rest
  end.

Definition calculate_quiz_specific_grade_distribution
  (attempts : list QuizAttempt.t) : list (string * Z) :=
  let percentages := map QuizAttempt.percentage attempts in
  let grade_ranges :=
    [ GradeRange.mk "90-100" 0 90 100;
      GradeRange.mk "80-89" 0 80 89;
      GradeRange.mk "70-79" 0 70 79;
      GradeRange.mk "60-69" 0 60 69;
      GradeRange.mk "50-59" 0 50 59;
      GradeRange.mk "0-49" 0 0 49 ] in
  map GradeRange.summary
    (fold_left
       (fun grade_ranges percentage =>
          match percentage with
          | None => grade_ranges
          | Some percentage =>
              quiz_count_percentage percentage grade_ranges
          end)
       percentages grade_ranges).

(** The queryset that [view_quiz_results] passes on (it also orders the
    rows by [-end_time], which the counts do not depend on). *)
Definition quiz_completed_attempts (db : database) (quiz : Quiz.t)
  : list QuizAttempt.t :=
  filter (fun a => (QuizAttempt.quiz a =? Quiz.id quiz) && is_completed a)
         (attempts db).

(** ** Notions used by the statements *)

(** The row of an attempt, by primary key. *)
Definition attempt_row (db : database) (id : Z) : option QuizAttempt.t :=
  find (fun r => QuizAttempt.id r =? id) (attempts db).

(** The answers recorded for a question within an attempt. *)
Definition recorded_answers (db : database) (attempt question : Z)
  : list StudentAnswer.t :=
  filter (answers_to attempt question) (student_answers db).

(** At most one StudentAnswer per (attempt, question). *)
Definition unique_answers (db : database) : Prop :=
  forall attempt question,
    (List.length (recorded_answers db attempt question) <= 1)%nat.

(** A sequence of requests to the submit endpoint, each with the clock
    reading and the quiz of its URL. *)
Definition run_submissions (requests : list (Z * HttpRequest * Z))
  (db : database) : database :=
  fold_left
    (fun db r =>
       match r with
       | (now, request, quiz_id) => snd (submit_quiz now request quiz_id db)
       end)
    requests db.

(** Whether the body decoded to a mapping. *)
Definition is_mapping (body : pyresult pyobj) : bool :=
  match body with
  | Return (PDict _) => true
  | _ => false
  end.

(** The exceptions that the grading loop tolerates for one entry. *)
Definition tolerated (e : exn) : bool :=
  is_ValueError e || is_TypeError e || is_DoesNotExist e.

(** What an entry of the answers mapping resolves to: the lookups of
    [process_single_answer], without its write. *)
Definition resolve_entry (db : database) (quiz : Quiz.t)
  (entry : string * pyobj) : pyresult (Question.t * Option.t) :=
  match py_int (PStr (fst entry)) with
  | Throw e => Throw e
  | Return qid =>
      match find (fun q => (Question.id q =? qid)
                           && (Question.quiz q =? Quiz.id quiz))
                 (questions db) with
      | None => Throw Question_DoesNotExist
      | Some question =>
          match py_int (snd entry) with
          | Throw e => Throw e
          | Return oid =>
              match find (fun o => (Option.id o =? oid)
                                   && (Option.question o =? Question.id question))
                         (options db) with
              | None => Throw Option_DoesNotExist
              | Some option => Return (question, option)
              end
          end
      end
  end.

(** The marks an entry adds to the maximum and to the score. *)
Definition entry_max_score (db : database) (quiz : Quiz.t)
  (entry : string * pyobj) : Z :=
  match resolve_entry db quiz entry with
  | Return (question, _) => Question.marks question
  | Throw _ => 0
  end.

Definition entry_score (db : database) (quiz : Quiz.t)
  (entry : string * pyobj) : Z :=
  match resolve_entry db quiz entry with
  | Return (question, option) =>
      if Option.is_correct option then Question.marks question else 0
  | Throw _ => 0
  end.

Definition sum (l : list Z) : Z := fold_right Z.add 0 l.

(** The totals after an entry that resolved to [question] and [option]. *)
Definition credit (acc : totals) (question : Question.t) (option : Option.t)
  : totals :=
  {| total_score :=
       total_score acc
       + (if Option.is_correct option then Question.marks question else 0);
     max_score := max_score acc + Question.marks question;
     correct_count :=
       if Option.is_correct option then correct_count acc + 1
       else correct_count acc;
     incorrect_count :=
       if Option.is_correct option then incorrect_count acc
       else incorrect_count acc + 1 |}.

(** The StudentAnswer that records [option] for [question] in [attempt]. *)
Definition answer_row (attempt : QuizAttempt.t) (question : Question.t)
  (option : Option.t) : StudentAnswer.t :=
  StudentAnswer.mk (QuizAttempt.id attempt) (Question.id question)
    (Option.id option) (Option.is_correct option).

(** The question with primary key [question] and the option chosen for it
    by the last entry of the mapping that resolves to that question, if
    any. *)
Fixpoint last_choice (db : database) (quiz : Quiz.t)
  (entries : list (string * pyobj)) (question : Z)
  : option (Question.t * Option.t) :=
  match entries with
  | [] => None
  | entry :: rest =>
      match last_choice db quiz rest question with
      | Some choice => Some choice
      | None =>
          match resolve_entry db quiz entry with
          | Return (q, o) =>
              if Question.id q =? question then Some (q, o) else None
          | Throw _ => None
          end
      end
  end.

(** The questions of a quiz that some entry of the mapping resolves to,
    each listed once, and the sum of their marks. *)
Definition answered_questions (db : database) (quiz : Quiz.t)
  (entries : list (string * pyobj)) : list Question.t :=
  filter (fun q =>
            (Question.quiz q =? Quiz.id quiz)
            && existsb (fun entry =>
                          match resolve_entry db quiz entry with
                          | Return (question, _) =>
                              Question.id question =? Question.id q
                          | Throw _ => false
                          end)
                       entries)
         (questions db).

Definition answered_marks (db : database) (quiz : Quiz.t)
  (entries : list (string * pyobj)) : Z :=
  sum (map Question.marks (answered_questions db quiz entries)).

(** The questions that the entries resolve to, one per resolving entry, in
    the order of the entries. *)
Definition resolved_questions (db : database) (quiz : Quiz.t)
  (entries : list (string * pyobj)) : list Question.t :=
  flat_map (fun entry =>
              match resolve_entry db quiz entry with
              | Return (question, _) => [question]
              | Throw _ => []
              end)
           entries.

(** *** The grade buckets, as the specification words them

    Six fixed ranges, checked from the highest down; the first range that
    contains a percentage takes it; a null percentage is not counted. *)

Definition bucket_index (p : number) : option nat :=
  if between 90 p 100 then Some 0%nat
  else if between 80 p 89 then Some 1%nat
  else if between 70 p 79 then Some 2%nat
  else if between 60 p 69 then Some 3%nat
  else if between 50 p 59 then Some 4%nat
  else if between 0 p 49 then Some 5%nat
  else None.

Definition falls_in (i : nat) (p : option number) : bool :=
  match p with
  | Some p =>
      match bucket_index p with
      | Some j => Nat.eqb i j
      | None => false
      end
  | None => false
  end.

Definition members (i : nat) (percentages : list (option number)) : Z :=
  Z.of_nat (List.length (filter (falls_in i) percentages)).

Definition bucket_counts (percentages : list (option number))
  : list (string * Z) :=
  [ ("90-100", members 0 percentages);
    ("80-89", members 1 percentages);
    ("70-79", members 2 percentages);
    ("60-69", members 3 percentages);
    ("50-59", members 4 percentages);
    ("0-49", members 5 percentages) ].

(** The value of an integer percentage as a float. *)
Definition whole (n : Z) : number := Float (PyFloat.of_int n).

(** The bucket whose range contains the integer [n], for [0 <= n <= 100]. *)
Definition bucket_of_whole (n : Z) : nat :=
  if 90 <=? n then 0 else if 80 <=? n then 1 else if 70 <=? n then 2
  else if 60 <=? n then 3 else if 50 <=? n then 4 else 5.

(** ** A small school

    Quiz 1 is the quiz of the specification's scenarios: two questions of
    five marks each, six marks to pass.  Quiz 2 has a question of nine marks
    and one of four. Student 42 has an attempt in progress on each. *)

Module School.

Definition quiz1 : Quiz.t := Quiz.mk 1 7 10 6.
Definition quiz2 : Quiz.t := Quiz.mk 2 7 13 7.

Definition question1 : Question.t := Question.mk 1 1 5.
Definition question2 : Question.t := Question.mk 2 1 5.
Definition question3 : Question.t := Question.mk 3 2 9.
Definition question4 : Question.t := Question.mk 4 2 4.

(** Options 10, 20, 30, 40 are the correct ones. *)
Definition all_options : list Option.t :=
  [ Option.mk 10 1 true; Option.mk 11 1 false;
    Option.mk 20 2 true; Option.mk 21 2 false;
    Option.mk 30 3 true; Option.mk 31 3 false;
    Option.mk 40 4 true; Option.mk 41 4 false ].

Definition fresh_attempt (id quiz : Z) : QuizAttempt.t :=
  {| QuizAttempt.id := id;
     QuizAttempt.student := 42;
     QuizAttempt.quiz := quiz;
     QuizAttempt.status := ATTEMPT_STATUS_IN_PROGRESS;
     QuizAttempt.score := None;
     QuizAttempt.max_score := 0;
     QuizAttempt.total_marks := 0;
     QuizAttempt.correct_answers := 0;
     QuizAttempt.incorrect_answers := 0;
     QuizAttempt.end_time := None;
     QuizAttempt.time_spent := 0;
     QuizAttempt.percentage := None;
     QuizAttempt.passed := false |}.

Definition attempt1 : QuizAttempt.t := fresh_attempt 100 1.
Definition attempt2 : QuizAttempt.t := fresh_attempt 101 2.

Definition db0 : database :=
  {| quizzes := [quiz1; quiz2];
     questions := [question1; question2; question3; question4];
     options := all_options;
     attempts := [attempt1; attempt2];
     student_answers := [] |}.

(** A request of student 42 with the given decoded body. *)
Definition post (body : pyobj) : HttpRequest :=
  {| user := 42; json_loads_body := Return body |}.

(** [{"answers": {...}, "time_spent": 30}] *)
Definition body_of (entries : list (string * pyobj)) : pyobj :=
  PDict [("answers", PDict entries); ("time_spent", PInt 30)].

(** The float 50.0, 100.0 and 69.23076923076923 (= 9 / 13 * 100). *)
Definition f50 : PyFloat.float := S754_finite false 7036874417766400 (-47).
Definition f100 : PyFloat.float := S754_finite false 7036874417766400 (-46).
Definition f69_23 : PyFloat.float :=
  S754_finite false 4871682289222892 (-46).

(** The float infinity, which [json.loads] returns for [1e999]. *)
Definition inf : PyFloat.float := S754_infinity false.

(** Question 1 answered correctly and question 2 incorrectly. *)
Definition one_right_one_wrong : HttpRequest :=
  post (body_of [("1", PStr "10"); ("2", PStr "21")]).

(** Both questions of quiz 1 answered correctly. *)
Definition both_right : HttpRequest :=
  post (body_of [("1", PStr "10"); ("2", PStr "20")]).

(** On quiz 2: the nine-mark question right, the four-mark one wrong. *)
Definition nine_of_thirteen : HttpRequest :=
  post (body_of [("3", PStr "30"); ("4", PStr "41")]).

(** [{"answers": {"1": "10"}, "time_spent": -5}] *)
Definition negative_time : HttpRequest :=
  post (PDict [("answers", PDict [("1", PStr "10")]);
               ("time_spent", PInt (-5))]).

(** [{"answers": {"1": "10", "2": 1e999}, "time_spent": 30}]: the second
    option identifier is the float infinity. *)
Definition infinite_option : HttpRequest :=
  post (body_of [("1", PStr "10"); ("2", PFloat inf)]).

(** [{"answers": {"1": "10", "01": "10"}, "time_spent": 30}]: two keys
    that both read as question 1. *)
Definition alias_entries : list (string * pyobj) :=
  [("1", PStr "10"); ("01", PStr "10")].

Definition alias_keys : HttpRequest := post (body_of alias_entries).

(** [{"time_spent": "abc"}]: no answers, and an elapsed time that is not
    a number. *)
Definition no_answers_bad_time : HttpRequest :=
  post (PDict [("time_spent", PStr "abc")]).

(** [{}] *)
Definition empty_object : HttpRequest := post (PDict []).

(** [{"answers": {"1": "10", " 1": "11"}, "time_spent": 30}]: question 1
    answered twice, the second time with option 11. *)
Definition answered_twice : HttpRequest :=
  post (body_of [("1", PStr "10"); (" 1", PStr "11")]).

(** A database in which attempt 100 already holds an answer to question 1
    (option 11). *)
Definition db_answered : database :=
  set_student_answers db0 [StudentAnswer.mk 100 1 11 false].

(** The database after [one_right_one_wrong], and after
    [nine_of_thirteen], submitted at time 1000. *)
Definition db_half : database :=
  Eval vm_compute in snd (submit_quiz 1000 one_right_one_wrong 1 db0).

Definition db_gap : database :=
  Eval vm_compute in snd (submit_quiz 1000 nine_of_thirteen 2 db0).

End School.

(** ** Further helpers of the views

    The remaining helpers that work on values and tables alone: the
    validation of a quiz form, the statistics of the result pages, the
    creation of questions and options from a posted form, and the result
    page of an attempt. *)

(** *** More of Python *)

Definition pybind {A B} (r : pyresult A) (k : A -> pyresult B) : pyresult B :=
  match r with
  | Return a => k a
  | Throw e => Throw e
  end.

(** [s.strip()]: the characters that [str.isspace] accepts are removed
    from both ends. *)
Definition py_isspace (cp : Z) : bool :=
  ((9 <=? cp) && (cp <=? 13)) || ((28 <=? cp) && (cp <=? 32))
  || unicode_space cp.

Fixpoint py_lstrip (s : list (Z * list ascii)) : list (Z * list ascii) :=
  match s with
  | c :: rest => if py_isspace (fst c) then py_lstrip rest else s
  | [] => []
  end.

Definition py_strip (s : string) : string :=
  string_of_list_ascii
    (List.concat
       (map snd
          (rev (py_lstrip
                  (rev (py_lstrip (utf8_chars (list_ascii_of_string s)))))))).

(** The truth value of a string: it is not empty. *)
Definition truthy (s : string) : bool :=
  match s with
  | EmptyString => false
  | String _ _ => true
  end.

(** [round(x, ndigits)] for [0 <= ndigits]: the decimal with [ndigits]
    fractional digits nearest to the exact value of [x] (ties to even),
    converted back to the nearest float. *)
Definition float_round (x : PyFloat.float) (ndigits : Z) : PyFloat.float :=
  match x with
  | S754_finite s m e =>
      let n := if 0 <=? e then 10 ^ ndigits * Z.pos m * 2 ^ e
               else PyFloat.div_pow2_half_even (10 ^ ndigits * Z.pos m) (- e) in
      match SFdiv PyFloat.prec PyFloat.emax
              (PyFloat.exact n) (PyFloat.exact (10 ^ ndigits)) with
      | S754_finite _ m' e' => S754_finite s m' e'
      | S754_zero _ => S754_zero s
      | y => y
      end
  | _ => x
  end.

(** [max(l)] and [min(l)] of a list of integers; ValueError when empty. *)
Definition py_max (l : list Z) : pyresult Z :=
  match l with
  | [] => Throw ValueError
  | x :: rest => Return (fold_left Z.max rest x)
  end.

Definition py_min (l : list Z) : pyresult Z :=
  match l with
  | [] => Throw ValueError
  | x :: rest => Return (fold_left Z.min rest x)
  end.

(** *** [validate_quiz_data]

    The five arguments are the stripped strings of the posted form.  The
    result is the triple (is_valid, validated_data, error). *)

Record validated_data : Type := mkvalid
  { valid_total_marks : Z;
    valid_time_limit : Z }.

Definition validate_quiz_data
  (title category difficulty total_marks time_limit : string)
  : bool * option validated_data * option string :=
  if negb (forallb truthy [title; category; difficulty; total_marks; time_limit])
  then (false, None, Some "Please fill in all required fields.")
  else
    match
      pybind (int_of_str total_marks) (fun total_marks_int =>
      pybind (int_of_str time_limit) (fun time_limit_int =>
      if (total_marks_int <=? 0) || (time_limit_int <=? 0)
      then Return (false, None,
                   Some "Total marks and time limit must be positive numbers.")
      else Return (true, Some (mkvalid total_marks_int time_limit_int), None)))
    with
    | Return result => result
    | Throw _ =>   (* except ValueError: all that int() raises on a string *)
        (false, None,
         Some "Total marks and time limit must be valid numbers.")
    end.

(** *** [calculate_attempt_stats] and [calculate_student_performance_stats] *)

(** [[attempt.score for attempt in attempts if attempt.score is not None]] *)
Definition scores_of (attempts : list QuizAttempt.t) : list Z :=
  flat_map (fun attempt =>
              match QuizAttempt.score attempt with
              | Some score => [score]
              | None => []
              end)
           attempts.

(** [round(sum(scores) / len(scores), 2) if scores else 0] *)
Definition average_of (scores : list Z) : pyresult number :=
  match scores with
  | [] => Return (Int 0)
  | _ :: _ =>
      pybind (PyFloat.truediv (sum scores) (Z.of_nat (List.length scores)))
        (fun q => Return (Float (PyFloat.round2 q)))
  end.

(** [max(scores) if scores else 0] and [min(scores) if scores else 0] *)
Definition best_of (scores : list Z) : pyresult Z :=
  match scores with
  | [] => Return 0
  | _ :: _ => py_max scores
  end.

Definition worst_of (scores : list Z) : pyresult Z :=
  match scores with
  | [] => Return 0
  | _ :: _ => py_min scores
  end.

Module AttemptStats.
Record t : Type := mk
  { avg_score : number;
    max_score : Z;
    min_score : Z }.
End AttemptStats.

Definition calculate_attempt_stats (attempts : list QuizAttempt.t)
  : pyresult AttemptStats.t :=
  match attempts with
  | [] => Return (AttemptStats.mk (Int 0) 0 0)       (* not attempts.exists() *)
  | _ :: _ =>
      let scores := scores_of attempts in
      pybind (average_of scores) (fun avg_score =>
      pybind (best_of scores) (fun max_score =>
      pybind (worst_of scores) (fun min_score =>
      Return (AttemptStats.mk avg_score max_score min_score))))
  end.

Module PerformanceStats.
Record t : Type := mk
  { total_quizzes : Z;
    passed_quizzes : Z;
    failed_quizzes : Z;
    avg_score : number;
    best_score : Z;
    worst_score : Z;
    pass_rate : number }.
End PerformanceStats.

(** [QuizAttempt.objects.filter(student=user,
    status=ATTEMPT_STATUS_COMPLETED)] *)
Definition student_completed_attempts (db : database) (user : Z)
  : list QuizAttempt.t :=
  filter (fun a => (QuizAttempt.student a =? user) && is_completed a)
         (attempts db).

(** [queryset.count()] *)
Definition count {A} (rows : list A) : Z := Z.of_nat (List.length rows).

Definition calculate_student_performance_stats (db : database) (user : Z)
  : pyresult PerformanceStats.t :=
  let completed_attempts := student_completed_attempts db user in
  match completed_attempts with
  | [] => Return (PerformanceStats.mk 0 0 0 (Int 0) 0 0 (Int 0))
  | _ :: _ =>
      let scores := scores_of completed_attempts in
      let passed_count :=
        count (filter (fun a => Bool.eqb (QuizAttempt.passed a) true)
                      completed_attempts) in
      let failed_count :=
        count (filter (fun a => Bool.eqb (QuizAttempt.passed a) false)
                      completed_attempts) in
      let total_count := count completed_attempts in
      pybind (average_of scores) (fun avg_score =>
      pybind (best_of scores) (fun best_score =>
      pybind (worst_of scores) (fun worst_score =>
      pybind (if total_count >? 0
              then pybind (PyFloat.truediv passed_count total_count)
                     (fun q =>
                        Return (Float (float_round
                                         (PyFloat.mul q (PyFloat.of_int 100))
                                         1)))
              else Return (Int 0)) (fun pass_rate =>
      Return (PerformanceStats.mk total_count passed_count failed_count
                avg_score best_score worst_score pass_rate)))))
  end.

(** *** [extract_question_data] and [create_questions_and_options] *)

(** The posted form: a QueryDict, given by its keys and the list of values
    posted under each key. *)
Definition QueryDict : Type := list (string * list string).

(** [post_data.getlist(key)] *)
Fixpoint getlist (post_data : QueryDict) (key : string) : list string :=
  match post_data with
  | [] => []
  | (k, values) :: rest =>
      if String.eqb k key then values else getlist rest key
  end.

(** [post_data.get(key, default)]: the last value posted under the key;
    the default when there is none. *)
Definition post_get (post_data : QueryDict) (key default : string) : string :=
  last (getlist post_data key) default.

(** [f'questions[{q_num}][{field}]'] *)
Definition question_key (q_num field : string) : string :=
  "questions[" ++ q_num ++ "][" ++ field ++ "]".

(** The dictionary that [extract_question_data] builds. *)
Module QuestionData.
Record t : Type := mk
  { text : string;
    type : string;
    marks : string;
    explanation : string;
    correct : string;
    options : list string }.
End QuestionData.

(** [any(opt.strip() for opt in options)] *)
Definition any_option_text (options : list string) : bool :=
  existsb (fun opt => truthy (py_strip opt)) options.

(** No statement of the function can raise on a form of strings, so its
    [except Exception] branch is never taken. *)
Definition extract_question_data (post_data : QueryDict) (q_num : string)
  : option QuestionData.t :=
  let question_text := py_strip (post_get post_data (question_key q_num "text") "") in
  if negb (truthy question_text) then None
  else
    let question_data :=
      {| QuestionData.text := question_text;
         QuestionData.type :=
           post_get post_data (question_key q_num "type") "multiple_choice";
         QuestionData.marks :=
           post_get post_data (question_key q_num "marks") "1";
         QuestionData.explanation :=
           py_strip (post_get post_data (question_key q_num "explanation") "");
         QuestionData.correct :=
           post_get post_data (question_key q_num "correct") "0";
         QuestionData.options :=
           getlist post_data (question_key q_num "options" ++ "[]") |} in
    match QuestionData.options question_data with
    | [] => None
    | _ :: _ =>
        if any_option_text (QuestionData.options question_data)
        then Some question_data
        else None
    end.

Definition set_questions (db : database) (l : list Question.t) : database :=
  {| quizzes := quizzes db; questions := l; options := options db;
     attempts := attempts db; student_answers := student_answers db |}.

Definition set_options (db : database) (l : list Option.t) : database :=
  {| quizzes := quizzes db; questions := questions db; options := l;
     attempts := attempts db; student_answers := student_answers db |}.

(** The primary key that the database gives to a new row: one more than
    the greatest key of the table. *)
Definition next_pk (pks : list Z) : Z := 1 + fold_right Z.max 0 pks.

(** [Question.objects.create(quiz=quiz, ..., marks=marks, ...)], on the
    columns that the records carry (the texts, the type, the explanation
    and the order of a question are not among them).  The insertion
    raises OverflowError, and writes nothing, when the marks do not fit
    their column. *)
Definition Question_objects_create (quiz : Quiz.t) (marks : Z) : M Question.t :=
  fun db =>
    let question :=
      Question.mk (next_pk (map Question.id (questions db))) (Quiz.id quiz)
        marks in
    if negb (fits_column marks) then Raise OverflowError db
    else Ok question (set_questions db (questions db ++ [question])).

(** [Option.objects.create(question=question, ..., is_correct=is_correct)] *)
Definition Option_objects_create (question : Question.t) (is_correct : bool)
  : M Option.t :=
  fun db =>
    let option :=
      Option.mk (next_pk (map Option.id (options db))) (Question.id question)
        is_correct in
    Ok option (set_options db (options db ++ [option])).

(** [for idx, option_text in enumerate(q_data['options'])], from [idx] on. *)
Fixpoint create_options (question : Question.t) (correct_index idx : Z)
  (options : list string) : M unit :=
  match options with
  | [] => ret tt
  | option_text :: rest =>
      (if truthy (py_strip option_text)
       then Option_objects_create question (idx =? correct_index) ;;; ret tt
       else ret tt) ;;;
      create_options question correct_index (idx + 1) rest
  end.

(** [for order, q_data in enumerate(questions_data, start=order)] *)
Fixpoint create_questions_from (quiz : Quiz.t) (order : Z)
  (questions_data : list QuestionData.t) : M unit :=
  match questions_data with
  | [] => ret tt
  | q_data :: rest =>
      marks <- lift (int_of_str (QuestionData.marks q_data)) ;;
      question <- Question_objects_create quiz marks ;;
      correct_index <- lift (int_of_str (QuestionData.correct q_data)) ;;
      create_options question correct_index 0 (QuestionData.options q_data) ;;;
      create_questions_from quiz (order + 1) rest
  end.

Definition create_questions_and_options (quiz : Quiz.t)
  (questions_data : list QuestionData.t) : M unit :=
  create_questions_from quiz 1 questions_data.

(** *** [quiz_result]

    The context that the view hands to its template; Http404 when the
    attempt is not one of the user's. *)

Module ResultContext.
Record t : Type := mk
  { attempt : QuizAttempt.t;
    answers : list StudentAnswer.t;
    quiz : option Quiz.t;          (* attempt.quiz *)
    total_questions : Z;
    correct_answers : Z }.
End ResultContext.

Definition quiz_result (request : HttpRequest) (attempt_id : Z)
  : M ResultContext.t :=
  fun db =>
    match find (fun a => (QuizAttempt.id a =? attempt_id)
                         && (QuizAttempt.student a =? user request))
               (attempts db) with
    | None => Raise Http404 db
    | Some attempt =>
        let answers :=
          filter (fun r => StudentAnswer.attempt r =? QuizAttempt.id attempt)
                 (student_answers db) in
        let total_questions := count answers in
        let correct_answers :=
          count (filter (fun r => Bool.eqb (StudentAnswer.is_correct r) true)
                        answers) in
        Ok {| ResultContext.attempt := attempt;
              ResultContext.answers := answers;
              ResultContext.quiz :=
                find (fun q => Quiz.id q =? QuizAttempt.quiz attempt)
                     (quizzes db);
              ResultContext.total_questions := total_questions;
              ResultContext.correct_answers := correct_answers |} db
    end.

(** *** Notions used by the further statements *)

(** The attempts in progress of a user on a quiz. *)
Definition in_progress_attempts (db : database) (user quiz_id : Z)
  : list QuizAttempt.t :=
  filter (fun a =>
            (QuizAttempt.student a =? user)
            && (QuizAttempt.quiz a =? quiz_id)
            && attempt_status_eqb (QuizAttempt.status a)
                 ATTEMPT_STATUS_IN_PROGRESS)
         (attempts db).

(** The StudentAnswers of an attempt. *)
Definition attempt_answers (db : database) (attempt : Z)
  : list StudentAnswer.t :=
  filter (fun r => StudentAnswer.attempt r =? attempt) (student_answers db).

(** The question and option that each resolving entry resolves to. *)
Definition resolved_pairs (db : database) (quiz : Quiz.t)
  (entries : list (string * pyobj)) : list (Question.t * Option.t) :=
  flat_map (fun entry =>
              match resolve_entry db quiz entry with
              | Return choice => [choice]
              | Throw _ => []
              end)
           entries.

(** What a resolved entry adds to each of the four totals. *)
Definition choice_score (c : Question.t * Option.t) : Z :=
  if Option.is_correct (snd c) then Question.marks (fst c) else 0.

Definition choice_max_score (c : Question.t * Option.t) : Z :=
  Question.marks (fst c).

Definition choice_correct (c : Question.t * Option.t) : Z :=
  if Option.is_correct (snd c) then 1 else 0.

Definition choice_incorrect (c : Question.t * Option.t) : Z :=
  if Option.is_correct (snd c) then 0 else 1.

(** An entry that the loop grades or skips: it resolves, or its resolution
    raises an exception that the loop tolerates. *)
Definition gradable (db : database) (quiz : Quiz.t) (entry : string * pyobj)
  : bool :=
  match resolve_entry db quiz entry with
  | Return _ => true
  | Throw e => tolerated e
  end.

(** A request of [user] whose body is
    [{"answers": {...entries...}, "time_spent": time_spent}]. *)
Definition submission (user : Z) (entries : list (string * pyobj))
  (time_spent : pyobj) : HttpRequest :=
  {| user := user;
     json_loads_body :=
       Return (PDict [("answers", PDict entries); ("time_spent", time_spent)]) |}.

(** Whether every question has non-negative marks. *)
Definition marks_non_negative (db : database) : bool :=
  forallb (fun q => 0 <=? Question.marks q) (questions db).

(** A StudentAnswer is well-formed for a quiz: its question is a question
    of the quiz, its option is an option of that question, and its
    [is_correct] is that of the option. *)
Definition well_formed_answer (db : database) (quiz_id : Z)
  (r : StudentAnswer.t) : Prop :=
  exists question option,
    In question (questions db)
    /\ Question.quiz question = quiz_id
    /\ Question.id question = StudentAnswer.question r
    /\ In option (options db)
    /\ Option.question option = Question.id question
    /\ Option.id option = StudentAnswer.selected_option r
    /\ Option.is_correct option = StudentAnswer.is_correct r.

(** Referential integrity of the options: each belongs to a question of
    the table. *)
Definition options_reference_questions (db : database) : bool :=
  forallb (fun o =>
             existsb (fun q => Question.id q =? Option.question o)
                     (questions db))
          (options db).

(** The options of a question, and the correct ones among them. *)
Definition options_of (db : database) (question : Z) : list Option.t :=
  filter (fun o => Option.question o =? question) (options db).

Definition correct_options_of (db : database) (question : Z) : list Option.t :=
  filter Option.is_correct (options_of db question).

(** The number of options that creation keeps, and whether the option
    marked correct is one of them. *)
Definition kept_options (q_data : QuestionData.t) : list string :=
  filter (fun opt => truthy (py_strip opt)) (QuestionData.options q_data).

Definition correct_option_kept (q_data : QuestionData.t) (correct_index : Z)
  : bool :=
  (0 <=? correct_index)
  && truthy (py_strip (nth (Z.to_nat correct_index)
                           (QuestionData.options q_data) "")).

(** Whether a response reports the grading of the attempt [id]. *)
Definition submitted_for (id : Z) (d : response_data) : bool :=
  match d with
  | Submitted attempt_id _ _ _ _ _ => attempt_id =? id
  | Failed _ => false
  end.

(** The number of percentages that some bucket takes. *)
Definition counted (percentages : list (option number)) : Z :=
  count (filter (fun p => match p with
                          | Some p =>
                              match bucket_index p with
                              | Some _ => true
                              | None => false
                              end
                          | None => false
                          end)
                percentages).

(** What creation makes of one question of the form: a question of the
    quiz with the marks that [int] reads, one option for each option text
    that is not blank, and as its only correct option the one at the
    index that [int] reads, when that option was kept. *)
Definition created_from (db : database) (quiz : Quiz.t)
  (question : Question.t) (q_data : QuestionData.t) : Prop :=
  Question.quiz question = Quiz.id quiz
  /\ int_of_str (QuestionData.marks q_data) = Return (Question.marks question)
  /\ count (options_of db (Question.id question))
     = count (kept_options q_data)
  /\ exists correct_index,
       int_of_str (QuestionData.correct q_data) = Return correct_index
       /\ count (correct_options_of db (Question.id question))
          = if correct_option_kept q_data correct_index then 1 else 0.



(** The school after both attempts of the student were graded: the first
    with one answer right and one wrong, the second with nine marks of
    thirteen. *)
Definition db_graded : database :=
  Eval vm_compute in
    snd (submit_quiz 1000 School.nine_of_thirteen 2 School.db_half).

(** A posted form with two questions; the second marks as correct an
    option that is blank. *)
Definition example_form : QueryDict :=
  [ ("title", ["Algebra"]);
    ("questions[1][text]", [" 2 + 2 = ? "]);
    ("questions[1][marks]", ["5"]);
    ("questions[1][correct]", ["1"]);
    ("questions[1][options][]", ["3"; "4"; "5"; ""]);
    ("questions[2][text]", ["3 * 3 = ?"]);
    ("questions[2][correct]", ["0"]);
    ("questions[2][options][]", ["  "; "9"; "6"]);
    ("questions[3][text]", ["   "]);
    ("questions[3][options][]", ["a"; "b"]);
    ("questions[4][text]", ["No options"]);
    ("questions[4][options][]", [""; " "]) ].

(** The questions that [extract_question_data] accepts among the four of
    the form. *)
Definition example_questions : list QuestionData.t :=
  flat_map (fun q_num =>
              match extract_question_data example_form q_num with
              | Some question_data => [question_data]
              | None => []
              end)
           ["1"; "2"; "3"; "4"].

(** * Properties *)

(** ** Grade buckets *)

Lemma members_nil (i : nat) : members i [] = 0.
Proof. reflexivity. Qed.

Lemma members_cons (i : nat) (p : option number) (ps : list (option number)) :
  members i (p :: ps) = (if falls_in i p then 1 else 0) + members i ps.
Proof.
  unfold members. cbn [filter].
  destruct (falls_in i p); cbn [List.length]; lia.
Qed.

Lemma members_null (i : nat) (ps : list (option number)) :
  members i (None :: ps) = members i ps.
Proof. rewrite members_cons. reflexivity. Qed.

(** The loops of the three helpers, started from any counts, add to each
    range the number of percentages that the specification puts there. *)
Ltac count_loop IH :=
  repeat
    match goal with
    | |- context [between ?lo ?p ?hi] =>
        let E := fresh "E" in destruct (between lo p hi) eqn:E
    end;
  unfold GradeRange.bump;
  cbn [GradeRange.label GradeRange.count GradeRange.min GradeRange.max];
  rewrite IH; rewrite !members_cons;
  unfold falls_in, bucket_index;
  repeat match goal with E : between _ _ _ = _ |- _ => rewrite E; clear E end;
  cbn [Nat.eqb];
  repeat (f_equal; try lia).

Lemma teacher_loop_counts (ps : list (option number)) :
  forall c0 c1 c2 c3 c4 c5,
    map GradeRange.summary
      (fold_left
         (fun grade_ranges percentage =>
            match percentage with
            | None => grade_ranges
            | Some percentage =>
                teacher_count_percentage percentage grade_ranges
            end)
         ps
         [ GradeRange.mk "90-100" c0 90 100; GradeRange.mk "80-89" c1 80 89;
           GradeRange.mk "70-79" c2 70 79; GradeRange.mk "60-69" c3 60 69;
           GradeRange.mk "50-59" c4 50 59; GradeRange.mk "0-49" c5 0 49 ])
    = [ ("90-100", c0 + members 0 ps); ("80-89", c1 + members 1 ps);
        ("70-79", c2 + members 2 ps); ("60-69", c3 + members 3 ps);
        ("50-59", c4 + members 4 ps); ("0-49", c5 + members 5 ps) ].
Proof.
  induction ps as [|[p|] ps IH]; intros.
  - cbn. rewrite !Z.add_0_r. reflexivity.
  - cbn [fold_left teacher_count_percentage GradeRange.min GradeRange.max
           GradeRange.bump GradeRange.label GradeRange.count].
    count_loop IH.
  - cbn [fold_left]. rewrite IH, !members_null. reflexivity.
Qed.

Lemma student_loop_counts (ps : list (option number)) :
  forall c0 c1 c2 c3 c4 c5,
    map GradeRange.summary
      (fold_left
         (fun grade_ranges percentage =>
            match percentage with
            | None => grade_ranges
            | Some percentage =>
                student_count_percentage percentage grade_ranges
            end)
         ps
         [ GradeRange.mk "90-100" c0 90 100; GradeRange.mk "80-89" c1 80 89;
           GradeRange.mk "70-79" c2 70 79; GradeRange.mk "60-69" c3 60 69;
           GradeRange.mk "50-59" c4 50 59; GradeRange.mk "0-49" c5 0 49 ])
    = [ ("90-100", c0 + members 0 ps); ("80-89", c1 + members 1 ps);
        ("70-79", c2 + members 2 ps); ("60-69", c3 + members 3 ps);
        ("50-59", c4 + members 4 ps); ("0-49", c5 + members 5 ps) ].
Proof.
  induction ps as [|[p|] ps IH]; intros.
  - cbn. rewrite !Z.add_0_r. reflexivity.
  - cbn [fold_left student_count_percentage GradeRange.min GradeRange.max
           GradeRange.bump GradeRange.label GradeRange.count].
    count_loop IH.
  - cbn [fold_left]. rewrite IH, !members_null. reflexivity.
Qed.

Lemma quiz_loop_counts (ps : list (option number)) :
  forall c0 c1 c2 c3 c4 c5,
    map GradeRange.summary
      (fold_left
         (fun grade_ranges percentage =>
            match percentage with
            | None => grade_ranges
            | Some percentage =>
                quiz_count_percentage percentage grade_ranges
            end)
         ps
         [ GradeRange.mk "90-100" c0 90 100; GradeRange.mk "80-89" c1 80 89;
           GradeRange.mk "70-79" c2 70 79; GradeRange.mk "60-69" c3 60 69;
           GradeRange.mk "50-59" c4 50 59; GradeRange.mk "0-49" c5 0 49 ])
    = [ ("90-100", c0 + members 0 ps); ("80-89", c1 + members 1 ps);
        ("70-79", c2 + members 2 ps); ("60-69", c3 + members 3 ps);
        ("50-59", c4 + members 4 ps); ("0-49", c5 + members 5 ps) ].
Proof.
  induction ps as [|[p|] ps IH]; intros.
  - cbn. rewrite !Z.add_0_r. reflexivity.
  - cbn [fold_left quiz_count_percentage GradeRange.min GradeRange.max
           GradeRange.bump GradeRange.label GradeRange.count].
    count_loop IH.
  - cbn [fold_left]. rewrite IH, !members_null. reflexivity.
Qed.

Lemma calculate_grade_distribution_counts (db : database) (teacher : Z) :
  calculate_grade_distribution db teacher
  = bucket_counts (teacher_percentages db teacher).
Proof.
  unfold calculate_grade_distribution. rewrite teacher_loop_counts.
  reflexivity.
Qed.

Lemma calculate_student_grade_distribution_counts (db : database) (user : Z) :
  calculate_student_grade_distribution db user
  = bucket_counts (student_percentages db user).
Proof.
  unfold calculate_student_grade_distribution. rewrite student_loop_counts.
  reflexivity.
Qed.

Lemma calculate_quiz_specific_grade_distribution_counts
  (attempts : list QuizAttempt.t) :
  calculate_quiz_specific_grade_distribution attempts
  = bucket_counts (map QuizAttempt.percentage attempts).
Proof.
  unfold calculate_quiz_specific_grade_distribution.
  rewrite quiz_loop_counts. reflexivity.
Qed.

(** C9. The teacher-wide, the student-wide and the quiz-specific grade
    distribution apply the same bucket logic: whenever they are given the
    same collection of percentages they return the same list, and that list
    always has the six labels in the same order. *)
Theorem grade_distributions_agree :
  forall (db : database) (teacher user : Z) (attempts : list QuizAttempt.t),
    teacher_percentages db teacher = map QuizAttempt.percentage attempts ->
    student_percentages db user = map QuizAttempt.percentage attempts ->
    calculate_grade_distribution db teacher
    = calculate_quiz_specific_grade_distribution attempts
    /\ calculate_student_grade_distribution db user
       = calculate_quiz_specific_grade_distribution attempts
    /\ map fst (calculate_quiz_specific_grade_distribution attempts)
       = ["90-100"; "80-89"; "70-79"; "60-69"; "50-59"; "0-49"].
Proof.
  intros db teacher user attempts Ht Hs.
  rewrite calculate_grade_distribution_counts,
    calculate_student_grade_distribution_counts,
    calculate_quiz_specific_grade_distribution_counts, Ht, Hs.
  repeat split.
Qed.

Lemma grade_distributions_agree_witness :
  calculate_grade_distribution School.db_half 7
  = calculate_quiz_specific_grade_distribution
      (quiz_completed_attempts School.db_half School.quiz1)
  /\ calculate_student_grade_distribution School.db_half 42
     = calculate_quiz_specific_grade_distribution
         (quiz_completed_attempts School.db_half School.quiz1)
  /\ map fst (calculate_quiz_specific_grade_distribution
                (quiz_completed_attempts School.db_half School.quiz1))
     = ["90-100"; "80-89"; "70-79"; "60-69"; "50-59"; "0-49"].
Proof.
  apply (grade_distributions_agree School.db_half 7 42
           (quiz_completed_attempts School.db_half School.quiz1));
    reflexivity.
Defined.

(** On that database the attempt at 50.0 is counted in "50-59". *)
Example half_marks_distribution :
  calculate_grade_distribution School.db_half 7
  = [("90-100", 0); ("80-89", 0); ("70-79", 0); ("60-69", 0); ("50-59", 1);
     ("0-49", 0)].
Proof. reflexivity. Qed.

(** A percentage falls in at most one bucket, and a null percentage in
    none. *)
Lemma falls_in_unique (i j : nat) (p : option number) :
  falls_in i p = true -> falls_in j p = true -> i = j.
Proof.
  unfold falls_in. destruct p as [p|]; [|discriminate].
  destruct (bucket_index p); [|discriminate].
  intros Hi Hj. apply Nat.eqb_eq in Hi, Hj. congruence.
Qed.

Lemma null_percentage_not_counted (ps : list (option number)) :
  bucket_counts (None :: ps) = bucket_counts ps.
Proof. unfold bucket_counts. rewrite !members_null. reflexivity. Qed.

(** A whole percentage between 0 and 100, stored as an integer or as a
    float, falls in the bucket whose range contains it. *)

Lemma int_percentage_bucket (n : Z) :
  0 <= n <= 100 -> bucket_index (Int n) = Some (bucket_of_whole n).
Proof.
  intros H. unfold bucket_index, bucket_of_whole, between.
  repeat match goal with
         | |- context [?a <=? ?b] => destruct (Z.leb_spec a b)
         end; cbn [andb]; try reflexivity; lia.
Qed.

Lemma whole_percentage_bucket (n : Z) :
  0 <= n <= 100 -> bucket_index (whole n) = Some (bucket_of_whole n).
Proof.
  intros H.
  assert (E : exists k, n = Z.of_nat k /\ (k <= 100)%nat).
  { exists (Z.to_nat n). lia. }
  destruct E as (k & -> & Hk). clear H.
  do 101 (destruct k as [|k]; [vm_compute; reflexivity|]).
  lia.
Qed.

(** The boundary values land in the higher-labelled bucket. *)
Example boundary_values :
  map (fun n => bucket_index (whole n)) [100; 90; 89; 80; 79; 70; 69; 60; 59; 50; 49; 0]
  = map Some [0; 0; 1; 1; 2; 2; 3; 3; 4; 4; 5; 5]%nat.
Proof. vm_compute. reflexivity. Qed.

(** One percentage raises one count by one when some range contains it,
    and no count otherwise; an attempt without a percentage raises none. *)
Lemma one_percentage_one_bucket (a : QuizAttempt.t) (p : number) :
  QuizAttempt.percentage a = Some p ->
  sum (map snd (calculate_quiz_specific_grade_distribution [a]))
  = match bucket_index p with Some _ => 1 | None => 0 end.
Proof.
  intros H. rewrite calculate_quiz_specific_grade_distribution_counts.
  cbn [map]. rewrite H.
  unfold bucket_counts, members, falls_in, bucket_index. cbn [filter].
  repeat match goal with
         | |- context [between ?lo p ?hi] => destruct (between lo p hi)
         end; reflexivity.
Qed.

Lemma attempt_without_percentage_not_counted (a : QuizAttempt.t)
  (attempts : list QuizAttempt.t) :
  QuizAttempt.percentage a = None ->
  calculate_quiz_specific_grade_distribution (a :: attempts)
  = calculate_quiz_specific_grade_distribution attempts.
Proof.
  intros H. rewrite !calculate_quiz_specific_grade_distribution_counts.
  cbn [map]. rewrite H. apply null_percentage_not_counted.
Qed.

(** C3. A percentage strictly between two buckets is counted nowhere.
    Nine marks out of thirteen finalise as 69.23076923076923; the attempt is
    completed, and each of the three distributions that selects it returns
    six zero counts. *)
Theorem fractional_percentage_in_no_bucket :
  fst (submit_quiz 1000 School.nine_of_thirteen 2 School.db0)
  = mkresp (Submitted 101 9 13 (py_round2 (Float School.f69_23)) true
              "Quiz submitted successfully!") 200
  /\ snd (submit_quiz 1000 School.nine_of_thirteen 2 School.db0)
     = School.db_gap
  /\ option_map QuizAttempt.percentage (attempt_row School.db_gap 101)
     = Some (Some (Float School.f69_23))
  /\ between 60 (Float School.f69_23) 69 = false
  /\ between 70 (Float School.f69_23) 79 = false
  /\ bucket_index (Float School.f69_23) = None
  /\ calculate_grade_distribution School.db_gap 7
     = [("90-100", 0); ("80-89", 0); ("70-79", 0); ("60-69", 0);
        ("50-59", 0); ("0-49", 0)]
  /\ calculate_student_grade_distribution School.db_gap 42
     = [("90-100", 0); ("80-89", 0); ("70-79", 0); ("60-69", 0);
        ("50-59", 0); ("0-49", 0)]
  /\ calculate_quiz_specific_grade_distribution
       (quiz_completed_attempts School.db_gap School.quiz2)
     = [("90-100", 0); ("80-89", 0); ("70-79", 0); ("60-69", 0);
        ("50-59", 0); ("0-49", 0)].
Proof. repeat split; vm_compute; reflexivity. Qed.

(** ** Reasoning about computations *)

Lemma bind_Ok {A B} (m : M A) (k : A -> M B) db b db' :
  bind m k db = Ok b db' ->
  exists a db1, m db = Ok a db1 /\ k a db1 = Ok b db'.
Proof.
  unfold bind. destruct (m db) as [a db1|e db1]; [|discriminate].
  intros H. exists a, db1. split; [reflexivity|exact H].
Qed.

Lemma bind_Raise {A B} (m : M A) (k : A -> M B) db e db' :
  bind m k db = Raise e db' ->
  m db = Raise e db'
  \/ exists a db1, m db = Ok a db1 /\ k a db1 = Raise e db'.
Proof.
  unfold bind. destruct (m db) as [a db1|e1 db1]; intros H.
  - right. exists a, db1. split; [reflexivity|exact H].
  - left. inversion H; subst. reflexivity.
Qed.

Lemma lift_Ok {A} (r : pyresult A) db a db' :
  lift r db = Ok a db' -> r = Return a /\ db' = db.
Proof.
  destruct r as [x|e]; cbn; intros H; inversion H; subst; auto.
Qed.

Lemma lift_Raise {A} (r : pyresult A) db e db' :
  @lift A r db = Raise e db' -> r = Throw e /\ db' = db.
Proof.
  destruct r as [x|e1]; cbn; intros H; inversion H; subst; auto.
Qed.

Lemma ret_Ok {A} (x : A) db a db' :
  ret x db = Ok a db' -> a = x /\ db' = db.
Proof. cbn. intros H. inversion H; subst; auto. Qed.

(** [inv_ok H] takes a successful run apart, step by step. *)
Ltac inv_ok H :=
  repeat
    match type of H with
    | bind _ _ _ = Ok _ _ =>
        let a := fresh "a" in
        let d := fresh "db" in
        let H1 := fresh "Hstep" in
        apply bind_Ok in H; destruct H as (a & d & H1 & H);
        try (apply lift_Ok in H1; destruct H1 as [H1 ->])
    | ret _ _ = Ok _ _ =>
        apply ret_Ok in H; destruct H as [-> ->]
    end.

(** *** Saving an attempt *)

Lemma find_overwritten (a : QuizAttempt.t) (rows : list QuizAttempt.t) :
  existsb (fun r => QuizAttempt.id r =? QuizAttempt.id a) rows = true ->
  find (fun r => QuizAttempt.id r =? QuizAttempt.id a)
    (map (fun r => if QuizAttempt.id r =? QuizAttempt.id a then a else r) rows)
  = Some a.
Proof.
  induction rows as [|r rows IH]; cbn [existsb map find]; [discriminate|].
  destruct (QuizAttempt.id r =? QuizAttempt.id a) eqn:E; cbn [orb].
  - intros _. rewrite Z.eqb_refl. reflexivity.
  - intros H. rewrite E. auto.
Qed.

Lemma find_inserted (a : QuizAttempt.t) (rows : list QuizAttempt.t) :
  existsb (fun r => QuizAttempt.id r =? QuizAttempt.id a) rows = false ->
  find (fun r => QuizAttempt.id r =? QuizAttempt.id a) (rows ++ [a]) = Some a.
Proof.
  induction rows as [|r rows IH]; cbn [existsb app find].
  - intros _. rewrite Z.eqb_refl. reflexivity.
  - destruct (QuizAttempt.id r =? QuizAttempt.id a); cbn [orb];
      [discriminate|auto].
Qed.

Lemma QuizAttempt_save_row (a : QuizAttempt.t) db u db' :
  QuizAttempt_save a db = Ok u db' ->
  attempt_row db' (QuizAttempt.id a) = Some a
  /\ student_answers db' = student_answers db
  /\ quizzes db' = quizzes db
  /\ questions db' = questions db
  /\ options db' = options db.
Proof.
  unfold QuizAttempt_save, attempt_row.
  destruct (forallb fits_column (integer_columns a)); cbn [negb];
    [|discriminate].
  destruct (existsb _ (attempts db)) eqn:E; intros H; inversion H; subst;
    cbn [attempts set_attempts student_answers quizzes questions options].
  - rewrite find_overwritten by exact E. auto.
  - rewrite find_inserted by exact E. auto.
Qed.

(** What a successful [finalize_attempt] leaves in the attempt's row. *)
Lemma finalize_attempt_row now attempt quiz total max correct incorrect
  time_spent db result db' :
  finalize_attempt now attempt quiz total max correct incorrect time_spent db
  = Ok result db' ->
  exists seconds percentage passed finalized,
    py_int time_spent = Return seconds
    /\ (if max >? 0
        then exists q, PyFloat.truediv total max = Return q
                       /\ percentage = float_mul_int q 100
                       /\ passed = (total >=? Quiz.passing_marks quiz)
        else percentage = Int 0 /\ passed = false)
    /\ attempt_row db' (QuizAttempt.id attempt) = Some finalized
    /\ finalized
       = QuizAttempt.mk (QuizAttempt.id attempt) (QuizAttempt.student attempt)
           (QuizAttempt.quiz attempt) ATTEMPT_STATUS_COMPLETED (Some total)
           max max correct incorrect (Some now) seconds (Some percentage)
           passed
    /\ result = Submitted (QuizAttempt.id attempt) total max
                  (py_round2 percentage) passed "Quiz submitted successfully!"
    /\ student_answers db' = student_answers db.
Proof.
  intros H. unfold finalize_attempt in H. inv_ok H.
  apply QuizAttempt_save_row in Hstep1. cbn [QuizAttempt.id] in Hstep1.
  destruct Hstep1 as (Hrow & Hsa & _).
  exists a, (fst a0), (snd a0). eexists. split; [exact Hstep|].
  split; [|split; [exact Hrow|split; [reflexivity|split; [reflexivity|]]]].
  - destruct (max >? 0).
    + inv_ok Hstep0. exists a2. cbn. auto.
    + apply ret_Ok in Hstep0. destruct Hstep0 as [-> _]. cbn. auto.
  - destruct (max >? 0).
    + inv_ok Hstep0. exact Hsa.
    + apply ret_Ok in Hstep0. destruct Hstep0 as [_ ->]. exact Hsa.
Qed.

(** ** The attempt finaliser *)

(** C1. After [finalize_attempt] has run, the attempt's row holds: for a
    positive maximum, the percentage [(total_score / max_score) * 100] as
    Python computes it, and [passed = (total_score >= quiz.passing_marks)];
    for a zero maximum, the percentage 0 and [passed = False]. *)
Theorem finalize_attempt_percentage_passed :
  forall (now : Z) (attempt : QuizAttempt.t) (quiz : Quiz.t)
         (total_score max_score correct_count incorrect_count : Z)
         (time_spent : pyobj) (db : database) (result : response_data)
         (db' : database),
    finalize_attempt now attempt quiz total_score max_score correct_count
      incorrect_count time_spent db = Ok result db' ->
    exists finalized,
      attempt_row db' (QuizAttempt.id attempt) = Some finalized
      /\ (max_score > 0 ->
          exists q,
            PyFloat.truediv total_score max_score = Return q
            /\ QuizAttempt.percentage finalized
               = Some (Float (PyFloat.mul q (PyFloat.of_int 100)))
            /\ QuizAttempt.passed finalized
               = (total_score >=? Quiz.passing_marks quiz))
      /\ (max_score = 0 ->
          QuizAttempt.percentage finalized = Some (Int 0)
          /\ QuizAttempt.passed finalized = false).
Proof.
  intros now attempt quiz total max correct incorrect ts db result db' H.
  apply finalize_attempt_row in H.
  destruct H as (seconds & p & passed & finalized & _ & Hv & Hrow & -> & _).
  eexists. split; [exact Hrow|]. cbn [QuizAttempt.percentage QuizAttempt.passed].
  rewrite Z.gtb_ltb in Hv. destruct (Z.ltb_spec 0 max) as [Hpos|Hle].
  - destruct Hv as (q & Hq & -> & ->). split.
    + intros _. exists q. auto.
    + intros ->. lia.
  - destruct Hv as [-> ->]. split.
    + intros Hgt. lia.
    + auto.
Qed.

Lemma finalize_attempt_percentage_passed_witness :
  exists finalized,
    attempt_row School.db_half 100 = Some finalized
    /\ (10 > 0 ->
        exists q,
          PyFloat.truediv 5 10 = Return q
          /\ QuizAttempt.percentage finalized
             = Some (Float (PyFloat.mul q (PyFloat.of_int 100)))
          /\ QuizAttempt.passed finalized = (5 >=? 6))
    /\ (10 = 0 ->
        QuizAttempt.percentage finalized = Some (Int 0)
        /\ QuizAttempt.passed finalized = false).
Proof.
  apply (finalize_attempt_percentage_passed 1000 School.attempt1 School.quiz1
           5 10 1 1 (PInt 30)
           (set_student_answers School.db0 (student_answers School.db_half))
           (Submitted 100 5 10 (Float School.f50) false
              "Quiz submitted successfully!")
           School.db_half).
  vm_compute. reflexivity.
Defined.

(** The two scenarios of the specification on quiz 1 (two questions of five
    marks, six marks to pass): one answer right and one wrong give score 5,
    max_score 10, percentage 50.0, not passed; both right give score 10,
    percentage 100.0, passed. *)
Example scenario_one_right_one_wrong :
  fst (submit_quiz 1000 School.one_right_one_wrong 1 School.db0)
  = mkresp (Submitted 100 5 10 (Float School.f50) false
              "Quiz submitted successfully!") 200
  /\ option_map QuizAttempt.percentage (attempt_row School.db_half 100)
     = Some (Some (Float School.f50)).
Proof. split; vm_compute; reflexivity. Qed.

Example scenario_both_right :
  fst (submit_quiz 1000 School.both_right 1 School.db0)
  = mkresp (Submitted 100 10 10 (Float School.f100) true
              "Quiz submitted successfully!") 200.
Proof. vm_compute. reflexivity. Qed.

(** C8, as the code has it.  [finalize_attempt] marks the attempt
    completed, stamps [end_time] with the current time, and stores
    [int(time_spent)]: the integer that Python's [int] makes of the
    client-reported value, with its sign.  An integer from the client is
    stored as it is. *)
Theorem finalize_attempt_time_spent :
  forall (now : Z) (attempt : QuizAttempt.t) (quiz : Quiz.t)
         (total_score max_score correct_count incorrect_count : Z)
         (time_spent : pyobj) (db : database) (result : response_data)
         (db' : database),
    finalize_attempt now attempt quiz total_score max_score correct_count
      incorrect_count time_spent db = Ok result db' ->
    exists finalized seconds,
      attempt_row db' (QuizAttempt.id attempt) = Some finalized
      /\ QuizAttempt.status finalized = ATTEMPT_STATUS_COMPLETED
      /\ QuizAttempt.end_time finalized = Some now
      /\ py_int time_spent = Return seconds
      /\ QuizAttempt.time_spent finalized = seconds
      /\ (forall n, time_spent = PInt n -> QuizAttempt.time_spent finalized = n).
Proof.
  intros now attempt quiz total max correct incorrect ts db result db' H.
  apply finalize_attempt_row in H.
  destruct H as (seconds & p & passed & finalized & Hint & _ & Hrow & -> & _).
  eexists. exists seconds. split; [exact Hrow|].
  cbn [QuizAttempt.status QuizAttempt.end_time QuizAttempt.time_spent].
  repeat split; try assumption.
  intros n ->. cbn in Hint. congruence.
Qed.

Lemma finalize_attempt_time_spent_witness :
  exists finalized seconds,
    attempt_row School.db_half 100 = Some finalized
    /\ QuizAttempt.status finalized = ATTEMPT_STATUS_COMPLETED
    /\ QuizAttempt.end_time finalized = Some 1000
    /\ py_int (PInt 30) = Return seconds
    /\ QuizAttempt.time_spent finalized = seconds
    /\ (forall n, PInt 30 = PInt n -> QuizAttempt.time_spent finalized = n).
Proof.
  apply (finalize_attempt_time_spent 1000 School.attempt1 School.quiz1
           5 10 1 1 (PInt 30)
           (set_student_answers School.db0 (student_answers School.db_half))
           (Submitted 100 5 10 (Float School.f50) false
              "Quiz submitted successfully!")
           School.db_half).
  vm_compute. reflexivity.
Defined.

(** C8, as the specification states it, fails: a negative elapsed time is
    accepted and stored as it is. *)
Lemma negative_time_spent_is_stored :
  success (data (fst (submit_quiz 1000 School.negative_time 1 School.db0)))
  = true
  /\ option_map QuizAttempt.status
       (attempt_row (snd (submit_quiz 1000 School.negative_time 1 School.db0))
          100)
     = Some ATTEMPT_STATUS_COMPLETED
  /\ option_map QuizAttempt.time_spent
       (attempt_row (snd (submit_quiz 1000 School.negative_time 1 School.db0))
          100)
     = Some (-5)
  /\ -5 < 0.
Proof. repeat split; vm_compute; reflexivity. Qed.

(** ** Requests that are refused *)

Lemma parse_submission_data_mapping request items db :
  json_loads_body request = Return (PDict items) ->
  parse_submission_data request db
  = Ok (Some (mkdata (dict_get items "answers" (PDict []))
                     (dict_get items "time_spent" (PInt 0)))) db.
Proof.
  intros H. unfold parse_submission_data, try_except, bind. rewrite H.
  reflexivity.
Qed.

(** C4. When the body does not decode to a mapping, [submit_quiz] answers
    with a failure ([success] false and an error text) and the database is
    the one it started from: nothing is graded and no attempt changes.  The
    failure is "Invalid request" with status 400 when the decoder raised
    JSONDecodeError, and "An error occurred: ..." with status 500
    otherwise. *)
Theorem malformed_payload_is_refused :
  forall (now : Z) (request : HttpRequest) (quiz_id : Z) (db : database),
    is_mapping (json_loads_body request) = false ->
    exists error status,
      submit_quiz now request quiz_id db = (mkresp (Failed error) status, db)
      /\ success (Failed error) = false
      /\ ((error = Invalid_request /\ status = 400)
          \/ (exists e, error = An_error_occurred e /\ status = 500)).
Proof.
  intros now request quiz_id db H.
  unfold submit_quiz, submit_quiz_try, parse_submission_data, try_except, bind.
  destruct (json_loads_body request) as [body|e].
  - assert (E : py_get body "answers" (PDict []) = Throw AttributeError).
    { destruct body; try reflexivity. discriminate H. }
    cbn [lift ret]. rewrite E. cbn.
    exists (An_error_occurred AttributeError), 500. eauto 6.
  - cbn [lift raise select_clause].
    destruct (is_JSONDecodeError e); cbn.
    + exists Invalid_request, 400. auto.
    + exists (An_error_occurred e), 500. eauto 6.
Qed.

Lemma malformed_payload_is_refused_witness :
  exists error status,
    submit_quiz 1000 (School.post (PList [PInt 1; PInt 2])) 1 School.db0
    = (mkresp (Failed error) status, School.db0)
    /\ success (Failed error) = false
    /\ ((error = Invalid_request /\ status = 400)
        \/ (exists e, error = An_error_occurred e /\ status = 500)).
Proof.
  apply (malformed_payload_is_refused 1000
           (School.post (PList [PInt 1; PInt 2])) 1 School.db0).
  reflexivity.
Defined.

(** The two kinds of refusal, on a body that is not JSON and on a JSON
    array. *)
Example undecodable_body :
  submit_quiz 1000 (mkreq 42 (Throw JSONDecodeError)) 1 School.db0
  = (mkresp (Failed Invalid_request) 400, School.db0).
Proof. reflexivity. Qed.

Example array_body :
  submit_quiz 1000 (School.post (PList [PInt 1; PInt 2])) 1 School.db0
  = (mkresp (Failed (An_error_occurred AttributeError)) 500, School.db0).
Proof. reflexivity. Qed.

(** ** Atomicity of a submission *)

Lemma first_by_pk_In (rows : list QuizAttempt.t) (a : QuizAttempt.t) :
  first_by_pk rows = Some a -> In a rows.
Proof.
  revert a. induction rows as [|r rows IH]; cbn [first_by_pk]; [discriminate|].
  intros a. destruct (first_by_pk rows) as [r'|].
  - destruct (QuizAttempt.id r <=? QuizAttempt.id r'); intros H;
      inversion H; subst; [left; reflexivity|right; auto].
  - intros H. inversion H. left. reflexivity.
Qed.

Lemma get_quiz_attempt_in_progress user quiz db attempt db' :
  get_quiz_attempt user quiz db = Ok (Some attempt) db' ->
  In attempt (attempts db)
  /\ QuizAttempt.status attempt = ATTEMPT_STATUS_IN_PROGRESS
  /\ QuizAttempt.student attempt = user
  /\ QuizAttempt.quiz attempt = Quiz.id quiz.
Proof.
  unfold get_quiz_attempt. intros H. inversion H as [[Hf Hdb]].
  apply first_by_pk_In in Hf. apply filter_In in Hf.
  destruct Hf as [Hin Hf]. apply andb_prop in Hf. destruct Hf as [Hf Hs].
  apply andb_prop in Hf. destruct Hf as [Hu Hq].
  apply Z.eqb_eq in Hu, Hq.
  destruct (QuizAttempt.status attempt); cbn in Hs;
    [subst; repeat split; auto|discriminate].
Qed.

(** C7. The grading loop and the finalisation run as one transaction.  When
    anything under [transaction.atomic()] raises (an error of one entry
    that the loop does not tolerate, or an error of the finalisation), then
    whatever had been written by then, the database after the request is the
    database before it: no StudentAnswer of the submission is kept, the
    attempt found for the request is still in progress, and the response is
    the failure "An error occurred: ..." with the error, under status 500. *)
Theorem submission_is_all_or_nothing :
  forall (now : Z) (request : HttpRequest) (quiz_id : Z) (db : database)
         (data : submission_data) (quiz : Quiz.t) (attempt : QuizAttempt.t)
         (entries : list (string * pyobj)) (e : exn) (db_then : database),
    parse_submission_data request db = Ok (Some data) db ->
    answers data = PDict entries ->
    get_object_or_404_Quiz quiz_id db = Ok quiz db ->
    get_quiz_attempt (user request) quiz db = Ok (Some attempt) db ->
    process_quiz_submission_block now attempt quiz (answers data)
      (time_spent data) db = Raise e db_then ->
    submit_quiz now request quiz_id db
    = (mkresp (Failed (An_error_occurred e)) 500, db)
    /\ In attempt (attempts db)
    /\ QuizAttempt.status attempt = ATTEMPT_STATUS_IN_PROGRESS.
Proof.
  intros now request quiz_id db data quiz attempt entries e db_then
    Hparse Hanswers Hquiz Hattempt Hblock.
  split.
  - unfold submit_quiz, submit_quiz_try, bind.
    rewrite Hparse, Hquiz, Hattempt.
    unfold process_quiz_submission, bind.
    rewrite Hanswers in *. cbn [py_len lift ret].
    unfold atomic. rewrite Hblock. reflexivity.
  - apply get_quiz_attempt_in_progress in Hattempt. tauto.
Qed.

Lemma submission_is_all_or_nothing_witness :
  submit_quiz 1000 School.infinite_option 1 School.db0
  = (mkresp (Failed (An_error_occurred OverflowError)) 500, School.db0)
  /\ In School.attempt1 (attempts School.db0)
  /\ QuizAttempt.status School.attempt1 = ATTEMPT_STATUS_IN_PROGRESS.
Proof.
  apply (submission_is_all_or_nothing 1000 School.infinite_option 1 School.db0
           (mkdata (PDict [("1", PStr "10"); ("2", PFloat School.inf)])
                   (PInt 30))
           School.quiz1 School.attempt1
           [("1", PStr "10"); ("2", PFloat School.inf)]
           OverflowError
           (set_student_answers School.db0
              [StudentAnswer.mk 100 1 10 true]));
    reflexivity.
Defined.

(** In that request the first answer had been written when the second entry
    raised. *)
Example written_then_rolled_back :
  grade_entries School.attempt1 School.quiz1 (mktot 0 0 0 0)
    [("1", PStr "10"); ("2", PFloat School.inf)] School.db0
  = Raise OverflowError
      (set_student_answers School.db0 [StudentAnswer.mk 100 1 10 true]).
Proof. reflexivity. Qed.

(** The same holds when the finalisation raises after every answer was
    written. *)
Example finalisation_error_rolls_back :
  submit_quiz 1000
    (School.post (PDict [("answers", PDict [("1", PStr "10")]);
                         ("time_spent", PNone)]))
    1 School.db0
  = (mkresp (Failed (An_error_occurred TypeError)) 500, School.db0).
Proof. reflexivity. Qed.

(** ** Empty submissions *)

(** C10, as the code has it.  A body that decodes to a mapping with no
    "answers" key, or with an empty answers mapping, and whose "time_spent"
    is absent or is read by [int] as an integer that its column can hold,
    is graded like any other: given the quiz and the student's attempt in
    progress, the response is a success with score 0, max_score 0,
    percentage 0 and passed false, and the attempt's row becomes completed
    with those values and with [int(time_spent)] (0 when the key is
    absent); no StudentAnswer is written. *)
Theorem empty_submission_completes_attempt :
  forall (now : Z) (request : HttpRequest) (quiz_id : Z) (db : database)
         (items : list (string * pyobj)) (quiz : Quiz.t)
         (attempt : QuizAttempt.t) (seconds : Z),
    json_loads_body request = Return (PDict items) ->
    dict_get items "answers" (PDict []) = PDict [] ->
    py_int (dict_get items "time_spent" (PInt 0)) = Return seconds ->
    fits_column seconds = true ->
    get_object_or_404_Quiz quiz_id db = Ok quiz db ->
    get_quiz_attempt (user request) quiz db = Ok (Some attempt) db ->
    exists db' finalized,
      submit_quiz now request quiz_id db
      = (mkresp (Submitted (QuizAttempt.id attempt) 0 0 (Int 0) false
                   "Quiz submitted successfully!") 200, db')
      /\ attempt_row db' (QuizAttempt.id attempt) = Some finalized
      /\ QuizAttempt.status finalized = ATTEMPT_STATUS_COMPLETED
      /\ QuizAttempt.score finalized = Some 0
      /\ QuizAttempt.max_score finalized = 0
      /\ QuizAttempt.percentage finalized = Some (Int 0)
      /\ QuizAttempt.passed finalized = false
      /\ QuizAttempt.time_spent finalized = seconds
      /\ student_answers db' = student_answers db.
Proof.
  intros now request quiz_id db items quiz attempt seconds
    Hbody Hanswers Htime Hfits Hquiz Hattempt.
  destruct (finalize_attempt now attempt quiz 0 0 0 0
              (dict_get items "time_spent" (PInt 0)) db)
    as [result db'|e db'] eqn:Hfin.
  - pose proof (finalize_attempt_row _ _ _ _ _ _ _ _ _ _ _ Hfin) as Hrow.
    destruct Hrow as (s & p & passed & finalized & Hs & Hv & Hrow & Hf & Hr & Hsa).
    cbn in Hv. destruct Hv as [-> ->].
    assert (s = seconds) by congruence. subst s.
    exists db', finalized. split.
    + unfold submit_quiz, submit_quiz_try, bind.
      rewrite (parse_submission_data_mapping _ _ _ Hbody), Hquiz, Hattempt.
      unfold process_quiz_submission, bind.
      cbn [answers time_spent]. rewrite Hanswers. cbn [py_len lift ret].
      unfold atomic, process_quiz_submission_block, bind.
      cbn [py_items lift ret grade_entries total_score max_score
             correct_count incorrect_count].
      rewrite Hfin, Hr. reflexivity.
    + subst finalized. cbn. auto 10.
  - exfalso. unfold finalize_attempt, bind in Hfin. rewrite Htime in Hfin.
    cbn [lift ret Z.gtb Z.compare] in Hfin. unfold QuizAttempt_save in Hfin.
    cbn [integer_columns QuizAttempt.score QuizAttempt.max_score
           QuizAttempt.total_marks QuizAttempt.correct_answers
           QuizAttempt.incorrect_answers QuizAttempt.time_spent app forallb]
      in Hfin.
    rewrite Hfits in Hfin. change (fits_column 0) with true in Hfin.
    cbn [andb negb] in Hfin.
    destruct (existsb _ (attempts db)); discriminate Hfin.
Qed.

Lemma empty_submission_completes_attempt_witness :
  exists db' finalized,
    submit_quiz 1000 School.empty_object 1 School.db0
    = (mkresp (Submitted (QuizAttempt.id School.attempt1) 0 0 (Int 0) false
                 "Quiz submitted successfully!") 200, db')
    /\ attempt_row db' (QuizAttempt.id School.attempt1) = Some finalized
    /\ QuizAttempt.status finalized = ATTEMPT_STATUS_COMPLETED
    /\ QuizAttempt.score finalized = Some 0
    /\ QuizAttempt.max_score finalized = 0
    /\ QuizAttempt.percentage finalized = Some (Int 0)
    /\ QuizAttempt.passed finalized = false
    /\ QuizAttempt.time_spent finalized = 0
    /\ student_answers db' = student_answers School.db0.
Proof.
  apply (empty_submission_completes_attempt 1000 School.empty_object 1
           School.db0 [] School.quiz1 School.attempt1 0);
    reflexivity.
Defined.

(** The column bounds what [int] may read: with [{"time_spent": 2 ** 63}]
    the save raises OverflowError, the response is a failure, and the
    attempt stays in progress; one less is stored. *)
Example empty_submission_with_huge_time_is_refused :
  submit_quiz 1000 (School.post (PDict [("time_spent", PInt (2 ^ 63))])) 1
    School.db0
  = (mkresp (Failed (An_error_occurred OverflowError)) 500, School.db0)
  /\ fst (submit_quiz 1000
            (School.post (PDict [("time_spent", PInt (2 ^ 63 - 1))])) 1
            School.db0)
     = mkresp (Submitted 100 0 0 (Int 0) false "Quiz submitted successfully!")
         200.
Proof. split; vm_compute; reflexivity. Qed.

(** C10, as stated for every body without answers, fails: with
    [{"time_spent": "abc"}] the finalisation raises ValueError, the response
    is a failure, and the attempt stays in progress. *)
Lemma empty_submission_with_bad_time_is_refused :
  json_loads_body School.no_answers_bad_time
  = Return (PDict [("time_spent", PStr "abc")])
  /\ dict_get [("time_spent", PStr "abc")] "answers" (PDict []) = PDict []
  /\ submit_quiz 1000 School.no_answers_bad_time 1 School.db0
     = (mkresp (Failed (An_error_occurred ValueError)) 500, School.db0)
  /\ option_map QuizAttempt.status (attempt_row School.db0 100)
     = Some ATTEMPT_STATUS_IN_PROGRESS.
Proof. repeat split. Qed.

(** ** Recording answers *)

Lemma answers_to_spec (a q : Z) (r : StudentAnswer.t) :
  answers_to a q r = true
  <-> StudentAnswer.attempt r = a /\ StudentAnswer.question r = q.
Proof.
  unfold answers_to. rewrite andb_true_iff, !Z.eqb_eq. reflexivity.
Qed.

Lemma answers_to_other (a q a' q' : Z) (r : StudentAnswer.t) :
  (a', q') <> (a, q) -> answers_to a q r = true -> answers_to a' q' r = false.
Proof.
  intros Hne H. apply answers_to_spec in H. destruct H as [<- <-].
  destruct (answers_to a' q' r) eqn:E; [|reflexivity].
  apply answers_to_spec in E. destruct E as [E1 E2]. congruence.
Qed.

Section Overwrite.

Variables (a q : Z) (row : StudentAnswer.t).
Hypothesis row_key : answers_to a q row = true.

Lemma filter_overwrite_same (rows : list StudentAnswer.t) :
  filter (answers_to a q)
    (map (fun r => if answers_to a q r then row else r) rows)
  = map (fun _ => row) (filter (answers_to a q) rows).
Proof.
  induction rows as [|r rows IH]; [reflexivity|]. cbn [map filter].
  destruct (answers_to a q r) eqn:E.
  - rewrite row_key. cbn [map]. f_equal. exact IH.
  - rewrite E. exact IH.
Qed.

Lemma filter_overwrite_other (a' q' : Z) (rows : list StudentAnswer.t) :
  (a', q') <> (a, q) ->
  filter (answers_to a' q')
    (map (fun r => if answers_to a q r then row else r) rows)
  = filter (answers_to a' q') rows.
Proof.
  intros Hne. induction rows as [|r rows IH]; [reflexivity|]. cbn [map filter].
  destruct (answers_to a q r) eqn:E.
  - rewrite (answers_to_other a q a' q' row Hne row_key),
      (answers_to_other a q a' q' r Hne E). exact IH.
  - rewrite IH. reflexivity.
Qed.

Lemma filter_insert_other (a' q' : Z) (rows : list StudentAnswer.t) :
  (a', q') <> (a, q) ->
  filter (answers_to a' q') (rows ++ [row]) = filter (answers_to a' q') rows.
Proof.
  intros Hne. rewrite filter_app. cbn [filter].
  rewrite (answers_to_other a q a' q' row Hne row_key). apply app_nil_r.
Qed.

End Overwrite.

(** An upsert leaves exactly one row under its key, the new one, and does
    not touch the rows under other keys. *)
Lemma update_or_create_recorded attempt question option db u db' :
  StudentAnswer_objects_update_or_create attempt question option
    (Option.is_correct option) db = Ok u db' ->
  recorded_answers db' (QuizAttempt.id attempt) (Question.id question)
  = [answer_row attempt question option]
  /\ (forall a' q',
        (a', q') <> (QuizAttempt.id attempt, Question.id question) ->
        recorded_answers db' a' q' = recorded_answers db a' q')
  /\ quizzes db' = quizzes db /\ questions db' = questions db
  /\ options db' = options db /\ attempts db' = attempts db.
Proof.
  unfold StudentAnswer_objects_update_or_create, recorded_answers.
  fold (answer_row attempt question option).
  assert (Hkey : answers_to (QuizAttempt.id attempt) (Question.id question)
                   (answer_row attempt question option) = true).
  { apply answers_to_spec. split; reflexivity. }
  destruct (filter _ (student_answers db)) as [|r [|r' rest]] eqn:E;
    intros H; inversion H; subst; clear H;
    cbn [student_answers set_student_answers quizzes questions options
           attempts].
  - split; [|split; [|auto]].
    + rewrite filter_app, E. cbn [filter app]. rewrite Hkey. reflexivity.
    + intros a' q' Hne. eapply filter_insert_other; eauto.
  - split; [|split; [|auto]].
    + rewrite filter_overwrite_same by exact Hkey. rewrite E. reflexivity.
    + intros a' q' Hne. eapply filter_overwrite_other; eauto.
Qed.

Lemma update_or_create_unique attempt question option db u db' :
  unique_answers db ->
  StudentAnswer_objects_update_or_create attempt question option
    (Option.is_correct option) db = Ok u db' ->
  unique_answers db'.
Proof.
  intros Hu H. apply update_or_create_recorded in H.
  destruct H as (Hsame & Hother & _).
  intros a' q'.
  destruct (Z.eq_dec a' (QuizAttempt.id attempt)) as [->|Ha];
    [destruct (Z.eq_dec q' (Question.id question)) as [->|Hq]|].
  - rewrite Hsame. cbn. lia.
  - rewrite Hother by congruence. apply Hu.
  - rewrite Hother by congruence. apply Hu.
Qed.

(** Under the invariant the upsert cannot fail. *)
Lemma update_or_create_succeeds attempt question option c db :
  unique_answers db ->
  exists db',
    StudentAnswer_objects_update_or_create attempt question option c db
    = Ok tt db'.
Proof.
  intros Hu. unfold StudentAnswer_objects_update_or_create.
  specialize (Hu (QuizAttempt.id attempt) (Question.id question)).
  unfold recorded_answers in Hu.
  destruct (filter _ (student_answers db)) as [|r [|r' rest]];
    cbn [List.length] in Hu; eauto; lia.
Qed.

(** ** The grading loop, entry by entry *)

Lemma process_single_answer_resolves attempt quiz question_id_str option_id db :
  process_single_answer attempt quiz question_id_str option_id db
  = match resolve_entry db quiz (question_id_str, option_id) with
    | Throw e => Raise e db
    | Return (question, option) =>
        match StudentAnswer_objects_update_or_create attempt question option
                (Option.is_correct option) db with
        | Ok _ db' =>
            Ok {| ans_score := if Option.is_correct option
                               then Question.marks question else 0;
                  ans_max_score := Question.marks question;
                  ans_correct := Option.is_correct option |} db'
        | Raise e db' => Raise e db'
        end
    end.
Proof.
  unfold process_single_answer, resolve_entry, bind, Question_objects_get,
    Option_objects_get.
  cbn [fst snd].
  destruct (py_int (PStr question_id_str)) as [qid|e]; cbn [lift ret raise];
    [|reflexivity].
  destruct (find _ (questions db)) as [question|]; [|reflexivity].
  destruct (py_int option_id) as [oid|e]; cbn [lift ret raise]; [|reflexivity].
  destruct (find _ (options db)) as [option|]; [|reflexivity].
  destruct (StudentAnswer_objects_update_or_create _ _ _ _ db); reflexivity.
Qed.

(** One iteration: an entry that resolves is recorded and credited; an
    entry whose resolution raises a tolerated exception changes nothing;
    any other exception leaves the loop. *)
Lemma grade_entry_resolves attempt quiz acc entry db :
  grade_entry attempt quiz acc entry db
  = match resolve_entry db quiz entry with
    | Throw e => if tolerated e then Ok acc db else Raise e db
    | Return (question, option) =>
        match StudentAnswer_objects_update_or_create attempt question option
                (Option.is_correct option) db with
        | Ok _ db' => Ok (credit acc question option) db'
        | Raise e db' => Raise e db'
        end
    end.
Proof.
  unfold grade_entry, try_except, bind.
  rewrite process_single_answer_resolves. destruct entry as [k v].
  cbn [fst snd].
  destruct (resolve_entry db quiz (k, v)) as [[question option]|e].
  - unfold StudentAnswer_objects_update_or_create.
    destruct (filter _ (student_answers db)) as [|r [|r' rest]];
      try reflexivity;
      unfold credit; cbn [ret ans_score ans_max_score ans_correct];
      destruct (Option.is_correct option); reflexivity.
  - destruct e; reflexivity.
Qed.

Lemma resolve_entry_catalog db db' quiz entry :
  questions db' = questions db -> options db' = options db ->
  resolve_entry db' quiz entry = resolve_entry db quiz entry.
Proof. unfold resolve_entry. intros -> ->. reflexivity. Qed.

(** What one successful iteration does. *)
Lemma grade_entry_Ok attempt quiz acc entry db acc' db' :
  grade_entry attempt quiz acc entry db = Ok acc' db' ->
  (exists e, resolve_entry db quiz entry = Throw e /\ tolerated e = true
             /\ acc' = acc /\ db' = db)
  \/ (exists question option,
        resolve_entry db quiz entry = Return (question, option)
        /\ StudentAnswer_objects_update_or_create attempt question option
             (Option.is_correct option) db = Ok tt db'
        /\ acc' = credit acc question option).
Proof.
  rewrite grade_entry_resolves.
  destruct (resolve_entry db quiz entry) as [[question option]|e].
  - destruct (StudentAnswer_objects_update_or_create _ _ _ _ db)
      as [[] db1|e db1] eqn:E; intros H; inversion H; subst.
    right. exists question, option. auto.
  - destruct (tolerated e) eqn:E; intros H; inversion H; subst.
    left. exists e. auto.
Qed.

Lemma grade_entry_catalog attempt quiz acc entry db acc' db' :
  grade_entry attempt quiz acc entry db = Ok acc' db' ->
  quizzes db' = quizzes db /\ questions db' = questions db
  /\ options db' = options db /\ attempts db' = attempts db.
Proof.
  intros H. apply grade_entry_Ok in H.
  destruct H as [(e & _ & _ & _ & ->)|(question & option & _ & H & _)]; [auto|].
  apply update_or_create_recorded in H. tauto.
Qed.

Lemma grade_entry_unique attempt quiz acc entry db acc' db' :
  unique_answers db ->
  grade_entry attempt quiz acc entry db = Ok acc' db' ->
  unique_answers db'.
Proof.
  intros Hu H. apply grade_entry_Ok in H.
  destruct H as [(e & _ & _ & _ & ->)|(question & option & _ & H & _)];
    [exact Hu|].
  eapply update_or_create_unique; eauto.
Qed.

Lemma grade_entries_catalog attempt quiz entries :
  forall acc db t db',
    grade_entries attempt quiz acc entries db = Ok t db' ->
    quizzes db' = quizzes db /\ questions db' = questions db
    /\ options db' = options db /\ attempts db' = attempts db.
Proof.
  induction entries as [|entry rest IH]; intros acc db t db' H;
    cbn [grade_entries] in H.
  - apply ret_Ok in H. destruct H as [_ ->]. auto.
  - apply bind_Ok in H. destruct H as (acc1 & db1 & H1 & H2).
    apply grade_entry_catalog in H1. apply IH in H2.
    destruct H1 as (? & ? & ? & ?), H2 as (? & ? & ? & ?).
    repeat split; congruence.
Qed.

Lemma grade_entries_unique attempt quiz entries :
  forall acc db t db',
    unique_answers db ->
    grade_entries attempt quiz acc entries db = Ok t db' ->
    unique_answers db'.
Proof.
  induction entries as [|entry rest IH]; intros acc db t db' Hu H;
    cbn [grade_entries] in H.
  - apply ret_Ok in H. destruct H as [_ ->]. exact Hu.
  - apply bind_Ok in H. destruct H as (acc1 & db1 & H1 & H2).
    eapply IH; [|exact H2]. eapply grade_entry_unique; eauto.
Qed.

(** The totals are the sums, over the entries, of what each entry resolves
    to: nothing for an entry that does not resolve. *)
Lemma grade_entries_totals attempt quiz entries :
  forall acc db t db',
    grade_entries attempt quiz acc entries db = Ok t db' ->
    max_score t = max_score acc + sum (map (entry_max_score db quiz) entries)
    /\ total_score t
       = total_score acc + sum (map (entry_score db quiz) entries).
Proof.
  induction entries as [|entry rest IH]; intros acc db t db' H;
    cbn [grade_entries] in H.
  - apply ret_Ok in H. destruct H as [-> _]. cbn. lia.
  - apply bind_Ok in H. destruct H as (acc1 & db1 & H1 & H2).
    pose proof (grade_entry_catalog _ _ _ _ _ _ _ H1) as (_ & Hq & Ho & _).
    apply IH in H2. destruct H2 as [Hm Hs].
    assert (E : forall x, resolve_entry db1 quiz x = resolve_entry db quiz x)
      by (intros x; apply resolve_entry_catalog; assumption).
    assert (Em : map (entry_max_score db1 quiz) rest
                 = map (entry_max_score db quiz) rest).
    { apply map_ext. intros x. unfold entry_max_score. rewrite E. reflexivity. }
    assert (Es : map (entry_score db1 quiz) rest
                 = map (entry_score db quiz) rest).
    { apply map_ext. intros x. unfold entry_score. rewrite E. reflexivity. }
    rewrite Em in Hm. rewrite Es in Hs. rewrite Hm, Hs.
    cbn [map sum fold_right]. fold (sum (map (entry_max_score db quiz) rest)).
    fold (sum (map (entry_score db quiz) rest)).
    unfold entry_max_score at 2, entry_score at 2.
    apply grade_entry_Ok in H1.
    destruct H1 as [(e & -> & _ & -> & _)|(question & option & -> & _ & ->)];
      cbn [credit max_score total_score]; lia.
Qed.

Lemma last_choice_catalog db db' quiz entries question :
  questions db' = questions db -> options db' = options db ->
  last_choice db' quiz entries question = last_choice db quiz entries question.
Proof.
  intros Hq Ho. induction entries as [|entry rest IH]; [reflexivity|].
  cbn [last_choice]. rewrite IH, (resolve_entry_catalog db db') by assumption.
  reflexivity.
Qed.

(** After the loop, the answer recorded for a question is the choice of the
    last entry that resolved to it; a question that no entry resolved to
    keeps what was recorded before. *)
Lemma grade_entries_recorded attempt quiz entries :
  forall acc db t db',
    grade_entries attempt quiz acc entries db = Ok t db' ->
    forall question,
      recorded_answers db' (QuizAttempt.id attempt) question
      = match last_choice db quiz entries question with
        | Some (q, o) => [answer_row attempt q o]
        | None => recorded_answers db (QuizAttempt.id attempt) question
        end.
Proof.
  induction entries as [|entry rest IH]; intros acc db t db' H question;
    cbn [grade_entries] in H.
  - apply ret_Ok in H. destruct H as [_ ->]. reflexivity.
  - apply bind_Ok in H. destruct H as (acc1 & db1 & H1 & H2).
    pose proof (grade_entry_catalog _ _ _ _ _ _ _ H1) as (_ & Hq & Ho & _).
    rewrite (IH _ _ _ _ H2 question), (last_choice_catalog db db1) by assumption.
    cbn [last_choice].
    destruct (last_choice db quiz rest question) as [[q o]|]; [reflexivity|].
    apply grade_entry_Ok in H1.
    destruct H1 as [(e & -> & _ & _ & ->)|(q & o & -> & Hup & _)];
      [reflexivity|].
    apply update_or_create_recorded in Hup.
    destruct Hup as (Hsame & Hother & _).
    destruct (Z.eqb_spec (Question.id q) question) as [<-|Hne].
    + exact Hsame.
    + apply Hother. congruence.
Qed.

(** ** The endpoint as a whole *)

Lemma parse_submission_data_pure request db :
  match parse_submission_data request db with
  | Ok _ db' | Raise _ db' => db' = db
  end.
Proof.
  unfold parse_submission_data, try_except, bind.
  destruct (json_loads_body request) as [[]|e]; cbn; try reflexivity.
  destruct (is_JSONDecodeError e); reflexivity.
Qed.

Lemma get_object_or_404_Quiz_pure quiz_id db :
  match get_object_or_404_Quiz quiz_id db with
  | Ok _ db' | Raise _ db' => db' = db
  end.
Proof.
  unfold get_object_or_404_Quiz. destruct (find _ (quizzes db)); reflexivity.
Qed.

Lemma process_quiz_submission_cases now attempt quiz data db :
  match process_quiz_submission now attempt quiz data db with
  | Raise _ db' => db' = db
  | Ok result db' =>
      exists entries t db1,
        answers data = PDict entries
        /\ grade_entries attempt quiz (mktot 0 0 0 0) entries db = Ok t db1
        /\ finalize_attempt now attempt quiz (total_score t) (max_score t)
             (correct_count t) (incorrect_count t) (time_spent data) db1
           = Ok result db'
  end.
Proof.
  unfold process_quiz_submission, bind.
  destruct (py_len (answers data)) as [n|e] eqn:Hlen; cbn [lift ret raise];
    [|reflexivity].
  unfold atomic.
  destruct (process_quiz_submission_block _ _ _ _ _ db)
    as [result db'|e db'] eqn:Hblock; [|reflexivity].
  unfold process_quiz_submission_block in Hblock. inv_ok Hblock.
  destruct (answers data); try discriminate Hstep.
  cbn in Hstep. inversion Hstep; subst. eauto 6.
Qed.

(** A request either leaves the database as it was, or grades a mapping
    and finalises the attempt it found in progress. *)
Lemma submit_quiz_cases now request quiz_id db :
  snd (submit_quiz now request quiz_id db) = db
  \/ exists data quiz attempt entries t db1 result,
       get_quiz_attempt (user request) quiz db = Ok (Some attempt) db
       /\ answers data = PDict entries
       /\ grade_entries attempt quiz (mktot 0 0 0 0) entries db = Ok t db1
       /\ finalize_attempt now attempt quiz (total_score t) (max_score t)
            (correct_count t) (incorrect_count t) (time_spent data) db1
          = Ok result (snd (submit_quiz now request quiz_id db))
       /\ fst (submit_quiz now request quiz_id db) = mkresp result 200.
Proof.
  unfold submit_quiz, submit_quiz_try, bind.
  pose proof (parse_submission_data_pure request db) as Hp.
  destruct (parse_submission_data request db) as [[data|] d|e d]; subst d;
    try (left; reflexivity).
  pose proof (get_object_or_404_Quiz_pure quiz_id db) as Hq.
  destruct (get_object_or_404_Quiz quiz_id db) as [quiz d|e d]; subst d;
    try (left; reflexivity).
  destruct (get_quiz_attempt (user request) quiz db) as [[attempt|] d|e d]
    eqn:Ha; try discriminate Ha.
  - assert (d = db) by (unfold get_quiz_attempt in Ha; congruence). subst d.
    pose proof (process_quiz_submission_cases now attempt quiz data db) as Hs.
    destruct (process_quiz_submission now attempt quiz data db)
      as [result d|e d].
    + right. destruct Hs as (entries & t & db1 & He & Hg & Hf).
      exists data, quiz, attempt, entries, t, db1, result. cbn [fst snd ret].
      auto.
    + left. exact Hs.
  - left. unfold get_quiz_attempt in Ha. cbn. congruence.
Qed.

Lemma submit_quiz_unique now request quiz_id db :
  unique_answers db -> unique_answers (snd (submit_quiz now request quiz_id db)).
Proof.
  intros Hu.
  destruct (submit_quiz_cases now request quiz_id db)
    as [->|(data & quiz & attempt & entries & t & db1 & result
            & _ & _ & Hg & Hf & _)]; [exact Hu|].
  apply grade_entries_unique in Hg; [|exact Hu].
  apply finalize_attempt_row in Hf.
  destruct Hf as (? & ? & ? & ? & _ & _ & _ & _ & _ & Hsa).
  unfold unique_answers, recorded_answers in *. rewrite Hsa. exact Hg.
Qed.

Lemma run_submissions_unique requests :
  forall db, unique_answers db -> unique_answers (run_submissions requests db).
Proof.
  induction requests as [|[[now request] quiz_id] rest IH]; intros db Hu.
  - exact Hu.
  - cbn [run_submissions fold_left]. apply IH. apply submit_quiz_unique.
    exact Hu.
Qed.

Lemma update_or_create_length attempt question option c db u db' :
  StudentAnswer_objects_update_or_create attempt question option c db
  = Ok u db' ->
  List.length (student_answers db')
  = match recorded_answers db (QuizAttempt.id attempt) (Question.id question)
    with
    | [] => S (List.length (student_answers db))
    | _ :: _ => List.length (student_answers db)
    end.
Proof.
  unfold StudentAnswer_objects_update_or_create, recorded_answers.
  destruct (filter _ (student_answers db)) as [|r [|r' rest]];
    intros H; inversion H; subst; cbn [student_answers set_student_answers].
  - rewrite length_app. cbn. lia.
  - apply length_map.
Qed.

(** ** Entries that are not graded *)

(** The only exception of resolving an entry that the loop does not
    tolerate is the OverflowError of [int] on an infinite float. *)
Lemma py_int_throws (obj : pyobj) (e : exn) :
  py_int obj = Throw e ->
  e = ValueError \/ e = TypeError
  \/ (e = OverflowError /\ exists s, obj = PFloat (S754_infinity s)).
Proof.
  destruct obj as [|b|n|x|s|l|items]; cbn [py_int];
    try (intros H; inversion H; auto; fail).
  - destruct x as [s|s| |s m ex]; cbn [PyFloat.trunc]; intros H; inversion H;
      eauto 6.
  - unfold int_of_str. destruct (parse_int _); [destruct (_ <=? _)|];
      intros H; inversion H; auto.
Qed.

(** [int] reads the digits and the spaces of other scripts: the
    ARABIC-INDIC DIGIT ONE (U+0661, here in UTF-8) is 1, also between
    no-break spaces (U+00A0), and a key made of it names question 1. *)
Example int_of_other_scripts :
  int_of_str (string_of_list_ascii (map ascii_of_nat [217; 161]%nat))
  = Return 1
  /\ int_of_str
       (string_of_list_ascii
          (map ascii_of_nat [194; 160; 45; 217; 161; 48; 194; 160]%nat))
     = Return (-10)
  /\ int_of_str (string_of_list_ascii (map ascii_of_nat [195; 169]%nat))
     = Throw ValueError
  /\ option_map fst
       (match resolve_entry School.db0 School.quiz1
                (string_of_list_ascii (map ascii_of_nat [217; 161]%nat),
                 PStr "10") with
        | Return choice => Some choice
        | Throw _ => None
        end)
     = Some School.question1.
Proof. repeat split; vm_compute; reflexivity. Qed.

Lemma resolve_entry_throws db quiz entry e :
  resolve_entry db quiz entry = Throw e ->
  tolerated e = true
  \/ (e = OverflowError /\ exists s, snd entry = PFloat (S754_infinity s)).
Proof.
  unfold resolve_entry.
  destruct (py_int (PStr (fst entry))) as [qid|e1] eqn:E1.
  - destruct (find _ (questions db)) as [question|];
      [|intros H; inversion H; auto].
    destruct (py_int (snd entry)) as [oid|e2] eqn:E2.
    + destruct (find _ (options db)); intros H; inversion H; auto.
    + intros H. inversion H; subst.
      destruct (py_int_throws _ _ E2) as [->|[->|Hinf]]; auto.
  - intros H. inversion H; subst.
    destruct (py_int_throws _ _ E1) as [->|[->|(_ & s & Hs)]]; auto.
    discriminate Hs.
Qed.

(** An entry whose identifiers are rejected with ValueError or TypeError,
    or that names a question or an option that is not there, is skipped:
    the totals and the database are as before the entry. *)
Lemma tolerated_entry_is_skipped attempt quiz acc entry db e :
  resolve_entry db quiz entry = Throw e ->
  tolerated e = true ->
  grade_entry attempt quiz acc entry db = Ok acc db.
Proof.
  intros H Ht. rewrite grade_entry_resolves, H, Ht. reflexivity.
Qed.

Example skipped_entries :
  fst (submit_quiz 1000
         (School.post
            (School.body_of
               [("1", PStr "10"); ("9", PStr "10"); ("x", PStr "10");
                ("2", PNone); ("3", PStr "30"); ("02", PStr "99")]))
         1 School.db0)
  = mkresp (Submitted 100 5 5 (Float School.f100) false
              "Quiz submitted successfully!") 200.
Proof. vm_compute. reflexivity. Qed.

(** The loop runs to its end whenever no option identifier is an infinite
    float: every other entry is either graded or skipped. *)
Lemma grade_entries_completes attempt quiz entries :
  forall acc db,
    unique_answers db ->
    (forall entry s, In entry entries -> snd entry <> PFloat (S754_infinity s)) ->
    exists t db', grade_entries attempt quiz acc entries db = Ok t db'.
Proof.
  induction entries as [|entry rest IH]; intros acc db Hu Hfinite.
  - exists acc, db. reflexivity.
  - cbn [grade_entries]. unfold bind.
    assert (Hstep : exists acc1 db1,
               grade_entry attempt quiz acc entry db = Ok acc1 db1).
    { rewrite grade_entry_resolves.
      destruct (resolve_entry db quiz entry) as [[question option]|e] eqn:E.
      - destruct (update_or_create_succeeds attempt question option
                    (Option.is_correct option) db Hu) as [db1 ->].
        eauto.
      - destruct (resolve_entry_throws _ _ _ _ E) as [->|[_ [s Hs]]]; [eauto|].
        exfalso. apply (Hfinite entry s); [left; reflexivity|exact Hs]. }
    destruct Hstep as (acc1 & db1 & Hstep). rewrite Hstep.
    apply IH.
    + eapply grade_entry_unique; eauto.
    + intros x s Hin. apply Hfinite. right. exact Hin.
Qed.


(** C5. An option identifier that is the float infinity does not parse as
    an integer, but the entry is not skipped: [int] raises OverflowError,
    which neither [except] clause of the loop catches.  The submission
    fails with status 500, the valid answer to question 1 is not kept, and
    the attempt stays in progress. *)
Theorem infinite_identifier_aborts_submission :
  py_int (PFloat School.inf) = Throw OverflowError
  /\ tolerated OverflowError = false
  /\ grade_entry School.attempt1 School.quiz1 (mktot 5 5 1 0)
       ("2", PFloat School.inf)
       (set_student_answers School.db0 [StudentAnswer.mk 100 1 10 true])
     = Raise OverflowError
         (set_student_answers School.db0 [StudentAnswer.mk 100 1 10 true])
  /\ submit_quiz 1000 School.infinite_option 1 School.db0
     = (mkresp (Failed (An_error_occurred OverflowError)) 500, School.db0)
  /\ student_answers School.db0 = []
  /\ option_map QuizAttempt.status (attempt_row School.db0 100)
     = Some ATTEMPT_STATUS_IN_PROGRESS.
Proof. repeat split. Qed.

(** ** Answers are upserted *)

(** C6. Recording an answer is an upsert keyed on (attempt, question).
    From a database with at most one StudentAnswer per (attempt, question):
    - any sequence of requests to the submit endpoint leaves at most one
      StudentAnswer per (attempt, question);
    - [process_single_answer] returns for every entry that resolves to a
      question of the quiz and an option of that question, be the question
      answered already or not: it leaves exactly one row for the attempt
      and the question, holding the submitted option, and adds a row to
      the table only when there was none for that key; for an entry that
      does not resolve it raises and writes nothing;
    - after the grading loop, the row of each question holds the option of
      the last entry of the mapping that resolved to that question;
    - the grading loop runs to its end whenever no option identifier is an
      infinite float. *)
Theorem answers_are_upserted :
  forall (requests : list (Z * HttpRequest * Z)) (db : database),
    unique_answers db ->
    unique_answers (run_submissions requests db)
    /\ (forall attempt quiz question_id_str option_id,
          match resolve_entry db quiz (question_id_str, option_id) with
          | Return (question, option) =>
              exists db',
                process_single_answer attempt quiz question_id_str option_id db
                = Ok {| ans_score := if Option.is_correct option
                                     then Question.marks question else 0;
                        ans_max_score := Question.marks question;
                        ans_correct := Option.is_correct option |} db'
                /\ recorded_answers db' (QuizAttempt.id attempt)
                     (Question.id question)
                   = [answer_row attempt question option]
                /\ (forall a' q',
                      (a', q') <> (QuizAttempt.id attempt, Question.id question) ->
                      recorded_answers db' a' q' = recorded_answers db a' q')
                /\ List.length (student_answers db')
                   = match recorded_answers db (QuizAttempt.id attempt)
                             (Question.id question) with
                     | [] => S (List.length (student_answers db))
                     | _ :: _ => List.length (student_answers db)
                     end
                /\ unique_answers db'
          | Throw e =>
              process_single_answer attempt quiz question_id_str option_id db
              = Raise e db
          end)
    /\ (forall attempt quiz entries acc t db',
          grade_entries attempt quiz acc entries db = Ok t db' ->
          forall question,
            recorded_answers db' (QuizAttempt.id attempt) question
            = match last_choice db quiz entries question with
              | Some (q, o) => [answer_row attempt q o]
              | None => recorded_answers db (QuizAttempt.id attempt) question
              end)
    /\ (forall attempt quiz entries acc,
          (forall entry s,
              In entry entries -> snd entry <> PFloat (S754_infinity s)) ->
          exists t db', grade_entries attempt quiz acc entries db = Ok t db').
Proof.
  intros requests db Hu. split; [|split; [|split]].
  - apply run_submissions_unique. exact Hu.
  - intros attempt quiz k v.
    rewrite process_single_answer_resolves.
    destruct (resolve_entry db quiz (k, v)) as [[question option]|e];
      [|reflexivity].
    destruct (update_or_create_succeeds attempt question option
                (Option.is_correct option) db Hu) as [db1 E].
    exists db1. rewrite E. split; [reflexivity|].
    pose proof (update_or_create_recorded _ _ _ _ _ _ E) as (Hsame & Hother & _).
    split; [exact Hsame|]. split; [exact Hother|].
    split; [apply (update_or_create_length _ _ _ _ _ _ _ E)|].
    eapply update_or_create_unique; eauto.
  - intros attempt quiz entries acc t db' H.
    apply (grade_entries_recorded _ _ _ _ _ _ _ H).
  - intros attempt quiz entries acc Hfinite.
    apply grade_entries_completes; assumption.
Qed.

Lemma answers_are_upserted_witness :
  unique_answers
    (run_submissions
       [(1000, School.infinite_option, 1); (1001, School.answered_twice, 1)]
       School.db_answered)
  /\ (exists db',
        process_single_answer School.attempt1 School.quiz1 "1" (PStr "10")
          School.db_answered
        = Ok (mkans 5 5 true) db'
        /\ recorded_answers School.db_answered 100 1
           = [StudentAnswer.mk 100 1 11 false]
        /\ recorded_answers db' 100 1 = [StudentAnswer.mk 100 1 10 true]
        /\ List.length (student_answers db')
           = List.length (student_answers School.db_answered))
  /\ (exists t db',
        grade_entries School.attempt1 School.quiz1 (mktot 0 0 0 0)
          [("1", PStr "10"); ("1", PStr "11")] School.db_answered
        = Ok t db').
Proof.
  assert (Hu : unique_answers School.db_answered).
  { intros attempt question. unfold recorded_answers. cbn.
    destruct (answers_to attempt question _); cbn; lia. }
  destruct (answers_are_upserted
              [(1000, School.infinite_option, 1);
               (1001, School.answered_twice, 1)]
              School.db_answered Hu) as (Hrun & Hsingle & _ & Hloop).
  split; [exact Hrun|]. split.
  - destruct (Hsingle School.attempt1 School.quiz1 "1" (PStr "10"))
      as (db' & Hok & Hrow & _ & Hlen & _).
    exists db'. split; [exact Hok|]. split; [reflexivity|].
    split; [exact Hrow|exact Hlen].
  - apply (Hloop School.attempt1 School.quiz1
             [("1", PStr "10"); ("1", PStr "11")] (mktot 0 0 0 0)).
    intros entry s [<-|[<-|[]]]; discriminate.
Defined.

(** On that database the earlier answer to question 1 (option 11) is
    overwritten by option 10, and then, within the same mapping, by option
    11 again; the table never holds more than the one row. *)
Example overwritten_not_duplicated :
  process_single_answer School.attempt1 School.quiz1 "1" (PStr "10")
    School.db_answered
  = Ok (mkans 5 5 true)
       (set_student_answers School.db0 [StudentAnswer.mk 100 1 10 true])
  /\ student_answers
       (run_submissions
          [(1000, School.infinite_option, 1); (1001, School.answered_twice, 1)]
          School.db_answered)
     = [StudentAnswer.mk 100 1 11 false].
Proof. split; reflexivity. Qed.

(** ** Answered questions and the maximum *)

Lemma resolve_entry_Return db quiz entry question option :
  resolve_entry db quiz entry = Return (question, option) ->
  In question (questions db)
  /\ Question.quiz question = Quiz.id quiz
  /\ In option (options db)
  /\ Option.question option = Question.id question.
Proof.
  unfold resolve_entry.
  destruct (py_int (PStr (fst entry))) as [qid|e]; [|discriminate].
  destruct (find _ (questions db)) as [q|] eqn:Eq; [|discriminate].
  destruct (py_int (snd entry)) as [oid|e]; [|discriminate].
  destruct (find _ (options db)) as [o|] eqn:Eo; [|discriminate].
  intros H. inversion H; subst.
  apply find_some in Eq, Eo. destruct Eq as [Hq Eq], Eo as [Ho Eo].
  apply andb_prop in Eq, Eo. destruct Eq as [_ Eq], Eo as [_ Eo].
  apply Z.eqb_eq in Eq, Eo. auto.
Qed.

Lemma sum_app (l l' : list Z) : sum (l ++ l') = sum l + sum l'.
Proof. unfold sum. induction l as [|x l IH]; cbn in *; lia. Qed.

Lemma sum_Permutation (f : Question.t -> Z) (l l' : list Question.t) :
  Permutation l l' -> sum (map f l) = sum (map f l').
Proof. unfold sum. induction 1; cbn in *; lia. Qed.

Lemma entry_max_score_resolved db quiz entries :
  sum (map (entry_max_score db quiz) entries)
  = sum (map Question.marks (resolved_questions db quiz entries)).
Proof.
  induction entries as [|entry rest IH]; [reflexivity|].
  cbn [map sum fold_right resolved_questions flat_map].
  fold (sum (map (entry_max_score db quiz) rest)).
  fold (resolved_questions db quiz rest).
  rewrite map_app, sum_app, IH. unfold entry_max_score.
  destruct (resolve_entry db quiz entry) as [[q o]|e]; cbn; lia.
Qed.

Lemma In_resolved_questions db quiz entries question :
  In question (resolved_questions db quiz entries)
  <-> exists entry option,
        In entry entries
        /\ resolve_entry db quiz entry = Return (question, option).
Proof.
  unfold resolved_questions. rewrite in_flat_map. split.
  - intros (entry & Hin & H).
    destruct (resolve_entry db quiz entry) as [[q o]|e] eqn:E; [|contradiction].
    destruct H as [->|[]]. eauto.
  - intros (entry & option & Hin & E). exists entry. rewrite E.
    split; [exact Hin|left; reflexivity].
Qed.

Lemma same_primary_key (rows : list Question.t) (x y : Question.t) :
  NoDup (map Question.id rows) -> In x rows -> In y rows ->
  Question.id x = Question.id y -> x = y.
Proof.
  induction rows as [|r rows IH]; cbn [map In]; [contradiction|].
  intros Hnd Hx Hy E. inversion Hnd as [|? ? Hnotin Hnd']; subst.
  destruct Hx as [->|Hx], Hy as [->|Hy]; auto.
  - exfalso. apply Hnotin. rewrite E. apply in_map. exact Hy.
  - exfalso. apply Hnotin. rewrite <- E. apply in_map. exact Hx.
Qed.

(** When the primary keys of the questions are distinct and no two entries
    resolve to the same question, the maximum that the loop accumulates is
    the sum of the marks of the answered questions. *)
Lemma max_score_of_distinct_questions attempt quiz entries db t db' :
  NoDup (map Question.id (questions db)) ->
  NoDup (map Question.id (resolved_questions db quiz entries)) ->
  grade_entries attempt quiz (mktot 0 0 0 0) entries db = Ok t db' ->
  max_score t = answered_marks db quiz entries.
Proof.
  intros Hpk Hdistinct H. apply grade_entries_totals in H.
  destruct H as [-> _]. cbn [max_score]. rewrite entry_max_score_resolved.
  unfold answered_marks. rewrite Z.add_0_l. apply sum_Permutation.
  apply NoDup_Permutation.
  - apply NoDup_map_inv in Hdistinct. exact Hdistinct.
  - unfold answered_questions. apply NoDup_filter.
    apply NoDup_map_inv in Hpk. exact Hpk.
  - intros x. unfold answered_questions. rewrite filter_In, In_resolved_questions.
    split.
    + intros (entry & option & Hin & E).
      pose proof (resolve_entry_Return _ _ _ _ _ E) as (Hq & Hquiz & _).
      split; [exact Hq|]. apply andb_true_intro. split.
      * apply Z.eqb_eq. exact Hquiz.
      * apply existsb_exists. exists entry. split; [exact Hin|].
        rewrite E. apply Z.eqb_refl.
    + intros (Hx & Hb). apply andb_prop in Hb. destruct Hb as [_ Hb].
      apply existsb_exists in Hb. destruct Hb as (entry & Hin & Hb).
      destruct (resolve_entry db quiz entry) as [[q o]|e] eqn:E;
        [|discriminate Hb].
      apply Z.eqb_eq in Hb.
      pose proof (resolve_entry_Return _ _ _ _ _ E) as (Hq & _).
      assert (q = x) by (apply (same_primary_key (questions db)); assumption).
      subst q.
      eauto.
Qed.

(** C2. Two keys of the mapping that read as the same question make the
    loop count that question twice.  With ["1"] and ["01"] both answering
    question 1 (five marks) of quiz 1, the attempt is finalised with
    max_score 10 and score 10, and passes the six marks required, although
    the only question answered is worth five marks and a single
    StudentAnswer is recorded. *)
Theorem alias_keys_count_a_question_twice :
  map (fun entry => py_int (PStr (fst entry))) School.alias_entries
  = [Return 1; Return 1]
  /\ submit_quiz 1000 School.alias_keys 1 School.db0
     = (mkresp (Submitted 100 10 10 (Float School.f100) true
                  "Quiz submitted successfully!") 200,
        snd (submit_quiz 1000 School.alias_keys 1 School.db0))
  /\ option_map QuizAttempt.max_score
       (attempt_row (snd (submit_quiz 1000 School.alias_keys 1 School.db0))
          100)
     = Some 10
  /\ answered_questions School.db0 School.quiz1 School.alias_entries
     = [School.question1]
  /\ answered_marks School.db0 School.quiz1 School.alias_entries = 5
  /\ student_answers (snd (submit_quiz 1000 School.alias_keys 1 School.db0))
     = [StudentAnswer.mk 100 1 10 true].
Proof. repeat split; vm_compute; reflexivity. Qed.

(** * Further properties of the endpoint *)

Lemma finalize_attempt_saves now attempt quiz total max correct incorrect
  time_spent db result db' :
  finalize_attempt now attempt quiz total max correct incorrect time_spent db
  = Ok result db' ->
  exists seconds percentage passed,
    QuizAttempt_save
      (QuizAttempt.mk (QuizAttempt.id attempt) (QuizAttempt.student attempt)
         (QuizAttempt.quiz attempt) ATTEMPT_STATUS_COMPLETED (Some total)
         max max correct incorrect (Some now) seconds (Some percentage) passed)
      db = Ok tt db'
    /\ result = Submitted (QuizAttempt.id attempt) total max
                  (py_round2 percentage) passed "Quiz submitted successfully!"
    /\ (passed = true -> 0 < max).
Proof.
  intros H. unfold finalize_attempt in H. inv_ok H.
  assert (Hdb : db0 = db /\ (snd a0 = true -> 0 < max)).
  { rewrite Z.gtb_ltb in Hstep0. destruct (Z.ltb_spec 0 max).
    - inv_ok Hstep0. auto.
    - apply ret_Ok in Hstep0. destruct Hstep0 as [-> ->]. cbn.
      split; [reflexivity|discriminate]. }
  destruct Hdb as [-> Hpassed].
  exists a, (fst a0), (snd a0). destruct a1. auto.
Qed.

(** What a request does, in full: it is refused and changes nothing, or it
    parses, finds the quiz and the attempt in progress, grades the entries
    and finalises the attempt. *)
Lemma submit_quiz_outcome now request quiz_id db :
  (exists error status,
      submit_quiz now request quiz_id db = (mkresp (Failed error) status, db))
  \/ exists data quiz attempt entries t db1 result db',
       parse_submission_data request db = Ok (Some data) db
       /\ get_object_or_404_Quiz quiz_id db = Ok quiz db
       /\ get_quiz_attempt (user request) quiz db = Ok (Some attempt) db
       /\ answers data = PDict entries
       /\ grade_entries attempt quiz (mktot 0 0 0 0) entries db = Ok t db1
       /\ finalize_attempt now attempt quiz (total_score t) (max_score t)
            (correct_count t) (incorrect_count t) (time_spent data) db1
          = Ok result db'
       /\ submit_quiz now request quiz_id db = (mkresp result 200, db').
Proof.
  unfold submit_quiz, submit_quiz_try, bind.
  pose proof (parse_submission_data_pure request db) as Hp.
  destruct (parse_submission_data request db) as [[data|] d|e d] eqn:Eparse;
    subst d; try (left; cbn; eauto; fail).
  pose proof (get_object_or_404_Quiz_pure quiz_id db) as Hq.
  destruct (get_object_or_404_Quiz quiz_id db) as [quiz d|e d] eqn:Equiz;
    subst d; try (left; cbn; eauto; fail).
  destruct (get_quiz_attempt (user request) quiz db) as [[attempt|] d|e d]
    eqn:Ha; try discriminate Ha;
    assert (d = db) by (unfold get_quiz_attempt in Ha; congruence); subst d.
  - pose proof (process_quiz_submission_cases now attempt quiz data db) as Hs.
    destruct (process_quiz_submission now attempt quiz data db)
      as [result d|e d].
    + right. destruct Hs as (entries & t & db1 & He & Hg & Hf).
      exists data, quiz, attempt, entries, t, db1, result, d. cbn [ret].
      auto 10.
    + left. subst d. cbn. eauto.
  - left. cbn. eauto.
Qed.

Lemma find_none_of_existsb {A} (f : A -> bool) (l : list A) :
  existsb f l = false -> find f l = None.
Proof.
  induction l as [|x l IH]; cbn; [reflexivity|].
  destruct (f x); cbn; [discriminate|exact IH].
Qed.

Lemma get_object_or_404_Quiz_id quiz_id db quiz db' :
  get_object_or_404_Quiz quiz_id db = Ok quiz db' -> Quiz.id quiz = quiz_id.
Proof.
  unfold get_object_or_404_Quiz.
  destruct (find _ (quizzes db)) as [q|] eqn:E; [|discriminate].
  intros H. inversion H; subst. apply find_some in E.
  apply Z.eqb_eq. tauto.
Qed.

Lemma get_quiz_attempt_first user quiz db :
  get_quiz_attempt user quiz db
  = Ok (first_by_pk (in_progress_attempts db user (Quiz.id quiz))) db.
Proof. reflexivity. Qed.

(** X1. A submission for a quiz that does not exist is not answered with
    "not found": the Http404 of [get_object_or_404] is raised inside the
    [try] of [submit_quiz], so the response is the failure "An error
    occurred: ..." with status 500; nothing is written. *)
Theorem unknown_quiz_is_an_internal_error :
  forall (now : Z) (request : HttpRequest) (quiz_id : Z) (db : database),
    is_mapping (json_loads_body request) = true ->
    existsb (fun q => Quiz.id q =? quiz_id) (quizzes db) = false ->
    submit_quiz now request quiz_id db
    = (mkresp (Failed (An_error_occurred Http404)) 500, db).
Proof.
  intros now request quiz_id db Hmap Hquiz.
  destruct (json_loads_body request) as [[| | | | | |items]|] eqn:E;
    try discriminate Hmap.
  unfold submit_quiz, submit_quiz_try, bind.
  rewrite (parse_submission_data_mapping _ _ _ E).
  unfold get_object_or_404_Quiz. rewrite (find_none_of_existsb _ _ Hquiz).
  reflexivity.
Qed.

Lemma unknown_quiz_is_an_internal_error_witness :
  submit_quiz 1000 School.one_right_one_wrong 9 School.db0
  = (mkresp (Failed (An_error_occurred Http404)) 500, School.db0).
Proof.
  apply (unknown_quiz_is_an_internal_error 1000 School.one_right_one_wrong 9
           School.db0); reflexivity.
Defined.

Lemma submit_quiz_without_attempt now request quiz_id db :
  is_mapping (json_loads_body request) = true ->
  existsb (fun q => Quiz.id q =? quiz_id) (quizzes db) = true ->
  in_progress_attempts db (user request) quiz_id = [] ->
  submit_quiz now request quiz_id db
  = (mkresp (Failed Quiz_attempt_not_found) 400, db).
Proof.
  intros Hmap Hquiz Hnone.
  destruct (json_loads_body request) as [[| | | | | |items]|] eqn:E;
    try discriminate Hmap.
  unfold submit_quiz, submit_quiz_try, bind.
  rewrite (parse_submission_data_mapping _ _ _ E).
  destruct (get_object_or_404_Quiz quiz_id db) as [quiz d|e d] eqn:Eq.
  - pose proof (get_object_or_404_Quiz_pure quiz_id db) as Hp.
    rewrite Eq in Hp. subst d.
    rewrite get_quiz_attempt_first,
      (get_object_or_404_Quiz_id _ _ _ _ Eq), Hnone.
    reflexivity.
  - exfalso. unfold get_object_or_404_Quiz in Eq.
    destruct (find _ (quizzes db)) eqn:Ef; [discriminate|].
    apply existsb_exists in Hquiz. destruct Hquiz as (q & Hin & Hq).
    rewrite (find_none _ _ Ef q Hin) in Hq. discriminate Hq.
Qed.


(** X2. When the user has no attempt in progress on the quiz, a
    well-formed submission is refused with "Quiz attempt not found" under
    status 400, whatever it contains, and nothing is written. *)
Theorem no_attempt_in_progress_is_refused :
  forall (now : Z) (request : HttpRequest) (quiz_id : Z) (db : database),
    is_mapping (json_loads_body request) = true ->
    existsb (fun q => Quiz.id q =? quiz_id) (quizzes db) = true ->
    in_progress_attempts db (user request) quiz_id = [] ->
    submit_quiz now request quiz_id db
    = (mkresp (Failed Quiz_attempt_not_found) 400, db).
Proof. intros. apply submit_quiz_without_attempt; assumption. Qed.

Lemma no_attempt_in_progress_is_refused_witness :
  submit_quiz 1001 School.both_right 1 School.db_half
  = (mkresp (Failed Quiz_attempt_not_found) 400, School.db_half).
Proof.
  apply (no_attempt_in_progress_is_refused 1001 School.both_right 1
           School.db_half); reflexivity.
Defined.

Lemma filter_nothing {A} (f : A -> bool) (l : list A) :
  (forall x, In x l -> f x = false) -> filter f l = [].
Proof.
  induction l as [|x l IH]; intros H; [reflexivity|]. cbn [filter].
  rewrite (H x) by (left; reflexivity). apply IH.
  intros y Hy. apply H. right. exact Hy.
Qed.

Lemma first_by_pk_single (rows : list QuizAttempt.t) (a : QuizAttempt.t) :
  first_by_pk rows = Some a -> (List.length rows <= 1)%nat -> rows = [a].
Proof.
  destruct rows as [|r [|r' rest]]; cbn [List.length first_by_pk];
    intros H Hlen; [discriminate|congruence|lia].
Qed.

Lemma QuizAttempt_save_attempts (a : QuizAttempt.t) db u db' :
  QuizAttempt_save a db = Ok u db' ->
  In a (attempts db') 
  /\ (existsb (fun r => QuizAttempt.id r =? QuizAttempt.id a) (attempts db)
      = true ->
      attempts db'
      = map (fun r => if QuizAttempt.id r =? QuizAttempt.id a then a else r)
            (attempts db))
  /\ forall id, id <> QuizAttempt.id a ->
                attempt_row db' id = attempt_row db id.
Proof.
  unfold QuizAttempt_save, attempt_row.
  destruct (forallb fits_column (integer_columns a)); cbn [negb];
    [|discriminate].
  destruct (existsb _ (attempts db)) eqn:E; intros H; inversion H; subst;
    cbn [attempts set_attempts].
  - split; [|split; [reflexivity|]].
    + apply existsb_exists in E. destruct E as (r & Hin & Hr).
      apply in_map_iff. exists r. rewrite Hr. auto.
    + intros id Hne. clear - Hne.
      induction (attempts db) as [|r rows IH]; [reflexivity|].
      cbn [map find].
      destruct (QuizAttempt.id r =? QuizAttempt.id a) eqn:Er.
      * apply Z.eqb_eq in Er.
        destruct (Z.eqb_spec (QuizAttempt.id a) id);
          destruct (Z.eqb_spec (QuizAttempt.id r) id); try congruence; auto.
      * destruct (QuizAttempt.id r =? id); auto.
  - split; [apply in_or_app; right; left; reflexivity|].
    split; [discriminate|].
    intros id Hne. clear - Hne.
    induction (attempts db) as [|r rows IH]; cbn [app find].
    + destruct (Z.eqb_spec (QuizAttempt.id a) id); congruence.
    + destruct (QuizAttempt.id r =? id); auto.
Qed.

(** X3. Grading consumes the attempt.  When the user had at most one
    attempt in progress on the quiz and a submission succeeds, every later
    well-formed submission of that user for that quiz is refused with "Quiz
    attempt not found" and changes nothing: a completed attempt is never
    graded again. *)
Theorem graded_attempt_is_consumed :
  forall (now : Z) (request : HttpRequest) (quiz_id : Z) (db : database)
         (now' : Z) (request' : HttpRequest),
    success (data (fst (submit_quiz now request quiz_id db))) = true ->
    (List.length (in_progress_attempts db (user request) quiz_id) <= 1)%nat ->
    user request' = user request ->
    is_mapping (json_loads_body request') = true ->
    submit_quiz now' request' quiz_id (snd (submit_quiz now request quiz_id db))
    = (mkresp (Failed Quiz_attempt_not_found) 400,
       snd (submit_quiz now request quiz_id db)).
Proof.
  intros now request quiz_id db now' request' Hok Hone Huser Hmap.
  destruct (submit_quiz_outcome now request quiz_id db)
    as [(error & status & E)
       |(parsed & quiz & attempt & entries & t & db1 & result & db'
         & _ & Hquiz & Hattempt & _ & Hgrade & Hfin & E)];
    rewrite E in *; cbn [fst snd data] in *; [discriminate Hok|].
  pose proof (get_object_or_404_Quiz_id _ _ _ _ Hquiz) as Hid.
  rewrite get_quiz_attempt_first, Hid in Hattempt.
  inversion Hattempt as [Hfirst]. clear Hattempt.
  pose proof (first_by_pk_single _ _ Hfirst Hone) as Hsingle.
  assert (Hin : In attempt (attempts db)).
  { apply first_by_pk_In in Hfirst. apply filter_In in Hfirst. tauto. }
  apply grade_entries_catalog in Hgrade.
  destruct Hgrade as (Hqz & _ & _ & Hat).
  apply finalize_attempt_saves in Hfin.
  destruct Hfin as (seconds & p & passed & Hsave & _ & _).
  pose proof (QuizAttempt_save_row _ _ _ _ Hsave) as (_ & _ & Hqz' & _).
  apply QuizAttempt_save_attempts in Hsave. destruct Hsave as (_ & Hmapped & _).
  cbn [QuizAttempt.id] in Hmapped.
  rewrite Hat in Hmapped.
  assert (Hex : existsb (fun r => QuizAttempt.id r =? QuizAttempt.id attempt)
                  (attempts db) = true).
  { apply existsb_exists. exists attempt. split; [exact Hin|apply Z.eqb_refl]. }
  specialize (Hmapped Hex).
  apply submit_quiz_without_attempt.
  - exact Hmap.
  - rewrite Hqz', Hqz. unfold get_object_or_404_Quiz in Hquiz.
    destruct (find _ (quizzes db)) as [q|] eqn:Ef; [|discriminate].
    apply find_some in Ef. apply existsb_exists. exists q. exact Ef.
  - rewrite Huser. unfold in_progress_attempts. rewrite Hmapped.
    apply filter_nothing. intros x Hx. apply in_map_iff in Hx.
    destruct Hx as (r & <- & Hr).
    destruct (QuizAttempt.id r =? QuizAttempt.id attempt) eqn:Er.
    + cbn. rewrite andb_false_r. reflexivity.
    + match goal with |- ?P = false => destruct P eqn:EP end; [|reflexivity].
      exfalso.
      assert (Hr' : In r (in_progress_attempts db (user request) quiz_id)).
      { apply filter_In. split; assumption. }
      rewrite Hsingle in Hr'. destruct Hr' as [->|[]].
      rewrite Z.eqb_refl in Er. discriminate.
Qed.

Lemma graded_attempt_is_consumed_witness :
  submit_quiz 2000 School.both_right 1
    (snd (submit_quiz 1000 School.one_right_one_wrong 1 School.db0))
  = (mkresp (Failed Quiz_attempt_not_found) 400,
     snd (submit_quiz 1000 School.one_right_one_wrong 1 School.db0)).
Proof.
  apply (graded_attempt_is_consumed 1000 School.one_right_one_wrong 1
           School.db0 2000 School.both_right);
    reflexivity.
Defined.

(** ** What a submission leaves alone *)

Lemma update_or_create_other_attempt attempt question option c db u db' a' :
  StudentAnswer_objects_update_or_create attempt question option c db
  = Ok u db' ->
  a' <> QuizAttempt.id attempt ->
  attempt_answers db' a' = attempt_answers db a'.
Proof.
  unfold StudentAnswer_objects_update_or_create, attempt_answers.
  intros H Hne.
  assert (Hrow : (QuizAttempt.id attempt =? a') = false)
    by (apply Z.eqb_neq; congruence).
  destruct (filter _ (student_answers db)) as [|r [|r' rest]];
    inversion H; subst; clear H; cbn [student_answers set_student_answers].
  - rewrite filter_app. cbn [filter StudentAnswer.attempt].
    rewrite Hrow. apply app_nil_r.
  - induction (student_answers db) as [|x rows IH]; [reflexivity|].
    cbn [map filter].
    destruct (answers_to (QuizAttempt.id attempt) (Question.id question) x)
      eqn:Ex.
    + cbn [StudentAnswer.attempt]. rewrite Hrow.
      apply answers_to_spec in Ex. destruct Ex as [Ex _]. rewrite Ex, Hrow.
      exact IH.
    + rewrite IH. reflexivity.
Qed.

Lemma grade_entries_other_attempt attempt quiz entries a' :
  a' <> QuizAttempt.id attempt ->
  forall acc db t db',
    grade_entries attempt quiz acc entries db = Ok t db' ->
    attempt_answers db' a' = attempt_answers db a'.
Proof.
  intros Hne. induction entries as [|entry rest IH]; intros acc db t db' H;
    cbn [grade_entries] in H.
  - apply ret_Ok in H. destruct H as [_ ->]. reflexivity.
  - apply bind_Ok in H. destruct H as (acc1 & db1 & H1 & H2).
    rewrite (IH _ _ _ _ H2). apply grade_entry_Ok in H1.
    destruct H1 as [(e & _ & _ & _ & ->)|(q & o & _ & Hup & _)];
      [reflexivity|].
    eapply update_or_create_other_attempt; eauto.
Qed.

(** X4. A submission touches nothing but the attempt it grades.  The
    quizzes, the questions and the options are never written; the row and
    the recorded answers of every attempt other than the one that the
    response reports as graded are what they were. *)
Theorem submission_leaves_the_rest_alone :
  forall (now : Z) (request : HttpRequest) (quiz_id : Z) (db : database)
         (id : Z),
    submitted_for id (data (fst (submit_quiz now request quiz_id db))) = false ->
    quizzes (snd (submit_quiz now request quiz_id db)) = quizzes db
    /\ questions (snd (submit_quiz now request quiz_id db)) = questions db
    /\ options (snd (submit_quiz now request quiz_id db)) = options db
    /\ attempt_row (snd (submit_quiz now request quiz_id db)) id
       = attempt_row db id
    /\ attempt_answers (snd (submit_quiz now request quiz_id db)) id
       = attempt_answers db id.
Proof.
  intros now request quiz_id db id Hid.
  destruct (submit_quiz_outcome now request quiz_id db)
    as [(error & status & E)
       |(parsed & quiz & attempt & entries & t & db1 & result & db'
         & _ & _ & _ & _ & Hgrade & Hfin & E)];
    rewrite E in *; cbn [fst snd data] in *; [auto|].
  apply finalize_attempt_saves in Hfin.
  destruct Hfin as (seconds & p & passed & Hsave & -> & _).
  cbn [submitted_for] in Hid. apply Z.eqb_neq in Hid.
  pose proof (grade_entries_catalog _ _ _ _ _ _ _ Hgrade)
    as (Hqz & Hqs & Hos & Hat).
  pose proof (QuizAttempt_save_row _ _ _ _ Hsave) as (_ & Hsa & Hqz' & Hqs' & Hos').
  apply QuizAttempt_save_attempts in Hsave. destruct Hsave as (_ & _ & Hother).
  cbn [QuizAttempt.id] in Hother.
  repeat split; try congruence.
  - rewrite Hother by congruence. unfold attempt_row. rewrite Hat. reflexivity.
  - unfold attempt_answers at 1. rewrite Hsa.
    apply (grade_entries_other_attempt _ _ _ id) in Hgrade; [exact Hgrade|].
    congruence.
Qed.

Lemma submission_leaves_the_rest_alone_witness :
  quizzes (snd (submit_quiz 1000 School.one_right_one_wrong 2 School.db_answered))
  = quizzes School.db_answered
  /\ questions (snd (submit_quiz 1000 School.one_right_one_wrong 2
                       School.db_answered))
     = questions School.db_answered
  /\ options (snd (submit_quiz 1000 School.one_right_one_wrong 2
                     School.db_answered))
     = options School.db_answered
  /\ attempt_row (snd (submit_quiz 1000 School.one_right_one_wrong 2
                         School.db_answered)) 100
     = attempt_row School.db_answered 100
  /\ attempt_answers (snd (submit_quiz 1000 School.one_right_one_wrong 2
                             School.db_answered)) 100
     = attempt_answers School.db_answered 100.
Proof.
  apply (submission_leaves_the_rest_alone 1000 School.one_right_one_wrong 2
           School.db_answered 100).
  reflexivity.
Defined.

(** ** Scores *)

Lemma entry_score_bounds db quiz entry :
  marks_non_negative db = true ->
  0 <= entry_score db quiz entry <= entry_max_score db quiz entry.
Proof.
  intros Hm. unfold entry_score, entry_max_score.
  destruct (resolve_entry db quiz entry) as [[q o]|e] eqn:E; [|lia].
  apply resolve_entry_Return in E. destruct E as (Hq & _).
  unfold marks_non_negative in Hm. rewrite forallb_forall in Hm.
  specialize (Hm q Hq). apply Z.leb_le in Hm.
  destruct (Option.is_correct o); lia.
Qed.

Lemma sum_scores_bounds db quiz entries :
  marks_non_negative db = true ->
  0 <= sum (map (entry_score db quiz) entries)
    <= sum (map (entry_max_score db quiz) entries).
Proof.
  intros Hm. unfold sum.
  induction entries as [|entry rest IH]; cbn [map fold_right]; [lia|].
  pose proof (entry_score_bounds db quiz entry Hm). lia.
Qed.

(** X5. When no question has negative marks, a graded submission reports
    [0 <= score <= max_score], and it reports [passed] only with a positive
    max_score: a submission in which no entry is graded never passes. *)
Theorem score_is_within_max_score :
  forall (now : Z) (request : HttpRequest) (quiz_id : Z) (db : database)
         (attempt_id score max_score : Z) (percentage : number)
         (passed : bool) (message : string),
    marks_non_negative db = true ->
    data (fst (submit_quiz now request quiz_id db))
    = Submitted attempt_id score max_score percentage passed message ->
    0 <= score <= max_score /\ (passed = true -> 0 < max_score).
Proof.
  intros now request quiz_id db attempt_id score max p passed message Hm Hd.
  destruct (submit_quiz_outcome now request quiz_id db)
    as [(error & status & E)
       |(parsed & quiz & attempt & entries & t & db1 & result & db'
         & _ & _ & _ & _ & Hgrade & Hfin & E)];
    rewrite E in *; cbn [fst snd data] in *; [discriminate Hd|].
  apply finalize_attempt_saves in Hfin.
  destruct Hfin as (seconds & p' & passed' & _ & -> & Hpassed).
  inversion Hd; subst. split; [|exact Hpassed].
  apply grade_entries_totals in Hgrade. destruct Hgrade as [-> ->].
  cbn [total_score max_score].
  pose proof (sum_scores_bounds db quiz entries Hm). lia.
Qed.

Lemma score_is_within_max_score_witness :
  0 <= 5 <= 10 /\ (false = true -> 0 < 10).
Proof.
  apply (score_is_within_max_score 1000 School.one_right_one_wrong 1
           School.db0 100 5 10 (Float School.f50) false
           "Quiz submitted successfully!");
    reflexivity.
Defined.

(** ** What a submission records *)

Lemma update_or_create_rows attempt question option db u db' r :
  StudentAnswer_objects_update_or_create attempt question option
    (Option.is_correct option) db = Ok u db' ->
  In r (student_answers db') ->
  In r (student_answers db) \/ r = answer_row attempt question option.
Proof.
  unfold StudentAnswer_objects_update_or_create.
  fold (answer_row attempt question option).
  destruct (filter _ (student_answers db)) as [|x [|x' rest]];
    intros H; inversion H; subst; clear H;
    cbn [student_answers set_student_answers]; intros Hr.
  - apply in_app_or in Hr. destruct Hr as [Hr|[<-|[]]]; auto.
  - apply in_map_iff in Hr. destruct Hr as (y & <- & Hy).
    destruct (answers_to _ _ y); auto.
Qed.

Lemma resolved_pairs_catalog db db' quiz entries :
  questions db' = questions db -> options db' = options db ->
  resolved_pairs db' quiz entries = resolved_pairs db quiz entries.
Proof.
  intros Hq Ho. unfold resolved_pairs. apply flat_map_ext. intros entry.
  rewrite (resolve_entry_catalog db db') by assumption. reflexivity.
Qed.

Lemma grade_entries_rows attempt quiz entries r :
  forall acc db t db',
    grade_entries attempt quiz acc entries db = Ok t db' ->
    In r (student_answers db') ->
    In r (student_answers db)
    \/ exists question option,
         In (question, option) (resolved_pairs db quiz entries)
         /\ r = answer_row attempt question option.
Proof.
  induction entries as [|entry rest IH]; intros acc db t db' H Hr;
    cbn [grade_entries] in H.
  - apply ret_Ok in H. destruct H as [_ ->]. auto.
  - apply bind_Ok in H. destruct H as (acc1 & db1 & H1 & H2).
    pose proof (grade_entry_catalog _ _ _ _ _ _ _ H1) as (_ & Hq & Ho & _).
    destruct (IH _ _ _ _ H2 Hr) as [Hold|(q & o & Hin & ->)].
    + apply grade_entry_Ok in H1.
      destruct H1 as [(e & _ & _ & _ & ->)|(q & o & E & Hup & _)]; [auto|].
      destruct (update_or_create_rows _ _ _ _ _ _ _ Hup Hold) as [Hx|Hx];
        [auto|subst r].
      right. exists q, o. split; [|reflexivity].
      cbn [resolved_pairs flat_map]. rewrite E. left. reflexivity.
    + right. exists q, o. split; [|reflexivity].
      rewrite (resolved_pairs_catalog db db1) in Hin by assumption.
      cbn [resolved_pairs flat_map]. apply in_or_app. right. exact Hin.
Qed.

Lemma In_resolved_pairs db quiz entries question option :
  In (question, option) (resolved_pairs db quiz entries) ->
  exists entry,
    In entry entries
    /\ resolve_entry db quiz entry = Return (question, option).
Proof.
  unfold resolved_pairs. rewrite in_flat_map. intros (entry & Hin & H).
  exists entry. split; [exact Hin|].
  destruct (resolve_entry db quiz entry) as [[q o]|e]; [|contradiction].
  destruct H as [H|[]]. congruence.
Qed.

(** X6. Every StudentAnswer that a request adds or overwrites belongs to
    an attempt that the requesting user had in progress on the quiz of the
    request, answers a question of that quiz with an option of that very
    question, and caches the [is_correct] of that option.  A payload cannot
    record an answer under somebody else's attempt, to a question of another
    quiz, or with an option of another question. *)
Theorem recorded_answers_are_well_formed :
  forall (now : Z) (request : HttpRequest) (quiz_id : Z) (db : database)
         (r : StudentAnswer.t),
    In r (student_answers (snd (submit_quiz now request quiz_id db))) ->
    In r (student_answers db)
    \/ (well_formed_answer db quiz_id r
        /\ exists attempt,
             In attempt (in_progress_attempts db (user request) quiz_id)
             /\ StudentAnswer.attempt r = QuizAttempt.id attempt).
Proof.
  intros now request quiz_id db r Hr.
  destruct (submit_quiz_outcome now request quiz_id db)
    as [(error & status & E)
       |(parsed & quiz & attempt & entries & t & db1 & result & db'
         & _ & Hquiz & Hattempt & _ & Hgrade & Hfin & E)];
    rewrite E in *; cbn [fst snd] in *; [auto|].
  apply finalize_attempt_saves in Hfin.
  destruct Hfin as (seconds & p & passed & Hsave & _ & _).
  apply QuizAttempt_save_row in Hsave. destruct Hsave as (_ & Hsa & _).
  rewrite Hsa in Hr.
  destruct (grade_entries_rows _ _ _ _ _ _ _ _ Hgrade Hr)
    as [Hold|(q & o & Hin & ->)]; [auto|].
  right. apply In_resolved_pairs in Hin. destruct Hin as (entry & _ & Hres).
  apply resolve_entry_Return in Hres.
  destruct Hres as (Hq & Hqz & Ho & Hoq).
  pose proof (get_object_or_404_Quiz_id _ _ _ _ Hquiz) as Hid.
  split.
  - exists q, o. cbn. rewrite <- Hid. auto 10.
  - exists attempt. split; [|reflexivity].
    rewrite get_quiz_attempt_first, Hid in Hattempt.
    inversion Hattempt as [Hfirst]. apply first_by_pk_In in Hfirst.
    exact Hfirst.
Qed.

Lemma recorded_answers_are_well_formed_witness :
  In (StudentAnswer.mk 100 2 21 false) (student_answers School.db0)
  \/ (well_formed_answer School.db0 1 (StudentAnswer.mk 100 2 21 false)
      /\ exists attempt,
           In attempt (in_progress_attempts School.db0
                         (user School.one_right_one_wrong) 1)
           /\ StudentAnswer.attempt (StudentAnswer.mk 100 2 21 false)
              = QuizAttempt.id attempt).
Proof.
  apply (recorded_answers_are_well_formed 1000 School.one_right_one_wrong 1
           School.db0 (StudentAnswer.mk 100 2 21 false)).
  simpl. auto.
Defined.

(** ** The order of the entries *)

Lemma sum_map_Permutation {A} (f : A -> Z) (l l' : list A) :
  Permutation l l' -> sum (map f l) = sum (map f l').
Proof. unfold sum. induction 1; cbn in *; lia. Qed.

Lemma sum_cons (x : Z) (l : list Z) : sum (x :: l) = x + sum l.
Proof. reflexivity. Qed.

(** The four totals after the loop: what each resolved entry adds. *)
Lemma grade_entries_credits attempt quiz entries :
  forall acc db t db',
    grade_entries attempt quiz acc entries db = Ok t db' ->
    t = {| total_score :=
             total_score acc
             + sum (map choice_score (resolved_pairs db quiz entries));
           max_score :=
             max_score acc
             + sum (map choice_max_score (resolved_pairs db quiz entries));
           correct_count :=
             correct_count acc
             + sum (map choice_correct (resolved_pairs db quiz entries));
           incorrect_count :=
             incorrect_count acc
             + sum (map choice_incorrect (resolved_pairs db quiz entries)) |}.
Proof.
  induction entries as [|entry rest IH]; intros acc db t db' H;
    cbn [grade_entries] in H.
  - apply ret_Ok in H. destruct H as [-> _]. cbn. rewrite !Z.add_0_r.
    destruct acc; reflexivity.
  - apply bind_Ok in H. destruct H as (acc1 & db1 & H1 & H2).
    pose proof (grade_entry_catalog _ _ _ _ _ _ _ H1) as (_ & Hq & Ho & _).
    rewrite (IH _ _ _ _ H2), (resolved_pairs_catalog db db1) by assumption.
    cbn [resolved_pairs flat_map]. fold (resolved_pairs db quiz rest).
    apply grade_entry_Ok in H1.
    destruct H1 as [(e & -> & _ & -> & _)|(q & o & -> & _ & ->)].
    + reflexivity.
    + cbn [app map]. rewrite !sum_cons.
      unfold credit, choice_score, choice_max_score, choice_correct,
        choice_incorrect.
      cbn [fst snd total_score max_score correct_count incorrect_count].
      destruct (Option.is_correct o); f_equal; lia.
Qed.

Lemma forallb_same {A} (f g : A -> bool) (l : list A) :
  (forall x, f x = g x) -> forallb f l = forallb g l.
Proof.
  intros H. induction l as [|x l IH]; cbn; [reflexivity|].
  rewrite H, IH. reflexivity.
Qed.

Lemma grade_entries_gradable attempt quiz entries :
  forall acc db t db',
    grade_entries attempt quiz acc entries db = Ok t db' ->
    forallb (gradable db quiz) entries = true.
Proof.
  induction entries as [|entry rest IH]; intros acc db t db' H;
    cbn [grade_entries] in H; [reflexivity|].
  apply bind_Ok in H. destruct H as (acc1 & db1 & H1 & H2).
  pose proof (grade_entry_catalog _ _ _ _ _ _ _ H1) as (_ & Hq & Ho & _).
  cbn [forallb]. apply andb_true_intro. split.
  - unfold gradable. apply grade_entry_Ok in H1.
    destruct H1 as [(e & -> & He & _)|(q & o & -> & _)]; auto.
  - rewrite <- (IH _ _ _ _ H2). apply forallb_same. intros x.
    unfold gradable. rewrite (resolve_entry_catalog db db1) by assumption.
    reflexivity.
Qed.

(** Under the invariant the loop ends normally exactly when every entry is
    gradable, and otherwise raises OverflowError. *)
Lemma grade_entries_runs attempt quiz entries :
  forall acc db,
    unique_answers db ->
    if forallb (gradable db quiz) entries
    then exists t db', grade_entries attempt quiz acc entries db = Ok t db'
    else exists db',
           grade_entries attempt quiz acc entries db = Raise OverflowError db'.
Proof.
  induction entries as [|entry rest IH]; intros acc db Hu.
  - cbn. eauto.
  - cbn [forallb grade_entries]. unfold bind.
    rewrite grade_entry_resolves. unfold gradable at 1.
    destruct (resolve_entry db quiz entry) as [[q o]|e] eqn:E.
    + destruct (update_or_create_succeeds attempt q o (Option.is_correct o)
                  db Hu) as [db1 Hup].
      rewrite Hup. cbn [andb].
      pose proof (update_or_create_unique _ _ _ _ _ _ Hu Hup) as Hu1.
      pose proof (update_or_create_recorded _ _ _ _ _ _ Hup)
        as (_ & _ & _ & Hq & Ho & _).
      specialize (IH (credit acc q o) db1 Hu1).
      assert (Hg : forallb (gradable db1 quiz) rest
                   = forallb (gradable db quiz) rest).
      { apply forallb_same. intros x. unfold gradable.
        rewrite (resolve_entry_catalog db db1) by assumption. reflexivity. }
      rewrite Hg in IH. exact IH.
    + destruct (tolerated e) eqn:Et; cbn [andb].
      * apply IH. exact Hu.
      * destruct (resolve_entry_throws _ _ _ _ E) as [Ht|[-> _]];
          [congruence|eauto].
Qed.

Lemma forallb_Permutation {A} (f : A -> bool) (l l' : list A) :
  Permutation l l' -> forallb f l = forallb f l'.
Proof.
  induction 1; cbn; try congruence.
  destruct (f x), (f y); reflexivity.
Qed.

(** The response of [finalize_attempt] does not depend on the database. *)
Lemma finalize_attempt_response now attempt quiz total max correct incorrect
  time_spent db db' :
  match finalize_attempt now attempt quiz total max correct incorrect
          time_spent db,
        finalize_attempt now attempt quiz total max correct incorrect
          time_spent db' with
  | Ok r _, Ok r' _ => r = r'
  | Raise e _, Raise e' _ => e = e'
  | _, _ => False
  end.
Proof.
  unfold finalize_attempt, bind, QuizAttempt_save.
  destruct (py_int time_spent) as [seconds|e]; cbn [lift ret raise];
    [|reflexivity].
  destruct (max >? 0); cbn [ret].
  - destruct (PyFloat.truediv total max) as [q|e]; cbn [lift ret raise];
      [|reflexivity].
    destruct (forallb fits_column _); cbn [negb]; [|reflexivity].
    destruct (existsb _ (attempts db)), (existsb _ (attempts db'));
      reflexivity.
  - destruct (forallb fits_column _); cbn [negb]; [|reflexivity].
    destruct (existsb _ (attempts db)), (existsb _ (attempts db'));
      reflexivity.
Qed.

Lemma process_quiz_submission_order now attempt quiz entries entries' ts db :
  unique_answers db ->
  Permutation entries entries' ->
  match process_quiz_submission now attempt quiz
          (mkdata (PDict entries) ts) db,
        process_quiz_submission now attempt quiz
          (mkdata (PDict entries') ts) db with
  | Ok r _, Ok r' _ => r = r'
  | Raise e _, Raise e' _ => e = e'
  | _, _ => False
  end.
Proof.
  intros Hu Hperm.
  unfold process_quiz_submission, bind, atomic, process_quiz_submission_block.
  cbn [answers time_spent py_len py_items lift ret]. unfold bind.
  cbn [lift ret].
  pose proof (grade_entries_runs attempt quiz entries (mktot 0 0 0 0) db Hu)
    as H1.
  pose proof (grade_entries_runs attempt quiz entries' (mktot 0 0 0 0) db Hu)
    as H2.
  rewrite <- (forallb_Permutation _ _ _ Hperm) in H2.
  destruct (forallb (gradable db quiz) entries).
  - destruct H1 as (t & db1 & H1), H2 as (t' & db2 & H2).
    rewrite H1, H2.
    assert (t' = t).
    { rewrite (grade_entries_credits _ _ _ _ _ _ _ H1),
        (grade_entries_credits _ _ _ _ _ _ _ H2).
      assert (Hp : Permutation (resolved_pairs db quiz entries)
                     (resolved_pairs db quiz entries'))
        by (apply Permutation_flat_map; exact Hperm).
      rewrite !(sum_map_Permutation _ _ _ Hp). reflexivity. }
    subst t'.
    pose proof (finalize_attempt_response now attempt quiz (total_score t)
                  (max_score t) (correct_count t) (incorrect_count t)
                  ts db1 db2) as Hf.
    destruct (finalize_attempt _ _ _ _ _ _ _ _ db1),
      (finalize_attempt _ _ _ _ _ _ _ _ db2); exact Hf.
  - destruct H1 as (db1 & H1), H2 as (db2 & H2). rewrite H1, H2. reflexivity.
Qed.

(** X7. The response does not depend on the order of the keys of the
    answers object: from a database with at most one StudentAnswer per
    (attempt, question), two submissions that differ only in the order of
    their entries get the same response, be it the same score, max_score,
    percentage and verdict or the same failure. *)
Theorem response_ignores_entry_order :
  forall (now user quiz_id : Z) (db : database)
         (entries entries' : list (string * pyobj)) (time_spent : pyobj),
    unique_answers db ->
    Permutation entries entries' ->
    fst (submit_quiz now (submission user entries time_spent) quiz_id db)
    = fst (submit_quiz now (submission user entries' time_spent) quiz_id db).
Proof.
  intros now u quiz_id db entries entries' ts Hu Hperm.
  unfold submit_quiz, submit_quiz_try, bind.
  rewrite (parse_submission_data_mapping (submission u entries ts)
             [("answers", PDict entries); ("time_spent", ts)] db eq_refl),
    (parse_submission_data_mapping (submission u entries' ts)
       [("answers", PDict entries'); ("time_spent", ts)] db eq_refl).
  cbn [dict_get String.eqb Ascii.eqb Bool.eqb user submission].
  destruct (get_object_or_404_Quiz quiz_id db) as [quiz d|e d] eqn:Eq;
    [|reflexivity].
  pose proof (get_object_or_404_Quiz_pure quiz_id db) as Hp.
  rewrite Eq in Hp. subst d.
  rewrite get_quiz_attempt_first.
  destruct (first_by_pk _) as [attempt|]; [|reflexivity].
  pose proof (process_quiz_submission_order now attempt quiz entries entries'
                ts db Hu Hperm) as H.
  destruct (process_quiz_submission now attempt quiz
              (mkdata (PDict entries) ts) db),
    (process_quiz_submission now attempt quiz
       (mkdata (PDict entries') ts) db);
    try contradiction; subst; reflexivity.
Qed.

Lemma response_ignores_entry_order_witness :
  fst (submit_quiz 1000
         (submission 42 [("1", PStr "10"); ("2", PStr "21")] (PInt 30)) 1
         School.db_answered)
  = fst (submit_quiz 1000
           (submission 42 [("2", PStr "21"); ("1", PStr "10")] (PInt 30)) 1
           School.db_answered).
Proof.
  apply (response_ignores_entry_order 1000 42 1 School.db_answered
           [("1", PStr "10"); ("2", PStr "21")]
           [("2", PStr "21"); ("1", PStr "10")] (PInt 30)).
  - intros attempt question. unfold recorded_answers. cbn.
    destruct (answers_to attempt question _); cbn; lia.
  - apply perm_swap.
Defined.

(** ** The result page *)

Lemma resolved_questions_pairs db quiz entries :
  resolved_questions db quiz entries
  = map fst (resolved_pairs db quiz entries).
Proof.
  unfold resolved_questions, resolved_pairs.
  induction entries as [|entry rest IH]; [reflexivity|].
  cbn [flat_map]. rewrite map_app, IH.
  destruct (resolve_entry db quiz entry) as [[q o]|e]; reflexivity.
Qed.

Lemma update_or_create_appends attempt question option db u db' :
  recorded_answers db (QuizAttempt.id attempt) (Question.id question) = [] ->
  StudentAnswer_objects_update_or_create attempt question option
    (Option.is_correct option) db = Ok u db' ->
  student_answers db'
  = (student_answers db ++ [answer_row attempt question option])%list.
Proof.
  unfold StudentAnswer_objects_update_or_create, recorded_answers.
  intros ->. intros H. inversion H. reflexivity.
Qed.

(** When the entries resolve to distinct questions, none of them answered
    before, the loop appends one StudentAnswer per resolving entry. *)
Lemma grade_entries_appends attempt quiz entries :
  forall acc db t db',
    NoDup (map Question.id (resolved_questions db quiz entries)) ->
    (forall q, In q (resolved_questions db quiz entries) ->
               recorded_answers db (QuizAttempt.id attempt) (Question.id q)
               = []) ->
    grade_entries attempt quiz acc entries db = Ok t db' ->
    student_answers db'
    = (student_answers db
       ++ map (fun c => answer_row attempt (fst c) (snd c))
              (resolved_pairs db quiz entries))%list.
Proof.
  induction entries as [|entry rest IH]; intros acc db t db' Hnd Hnew H;
    cbn [grade_entries] in H.
  - apply ret_Ok in H. destruct H as [_ ->]. cbn. rewrite app_nil_r.
    reflexivity.
  - apply bind_Ok in H. destruct H as (acc1 & db1 & H1 & H2).
    pose proof (grade_entry_catalog _ _ _ _ _ _ _ H1) as (_ & Hq & Ho & _).
    cbn [resolved_questions resolved_pairs flat_map] in *.
    fold (resolved_questions db quiz rest) in *.
    fold (resolved_pairs db quiz rest).
    assert (Hrq : resolved_questions db1 quiz rest
                  = resolved_questions db quiz rest).
    { rewrite !resolved_questions_pairs,
        (resolved_pairs_catalog db db1) by assumption. reflexivity. }
    apply grade_entry_Ok in H1.
    destruct H1 as [(e & E & _ & _ & ->)|(q & o & E & Hup & _)];
      rewrite E in *; cbn [app map] in *.
    + apply (IH _ _ _ _ Hnd Hnew H2).
    + inversion Hnd as [|? ? Hnotin Hnd']; subst.
      pose proof (update_or_create_recorded _ _ _ _ _ _ Hup)
        as (_ & Hother & _).
      assert (Hnew1 : forall q', In q' (resolved_questions db1 quiz rest) ->
                recorded_answers db1 (QuizAttempt.id attempt) (Question.id q')
                = []).
      { intros q' Hq'. rewrite Hrq in Hq'. rewrite Hother.
        - apply Hnew. right. exact Hq'.
        - intros Heq. apply Hnotin.
          replace (Question.id q) with (Question.id q') by congruence.
          apply in_map. exact Hq'. }
      rewrite <- Hrq in Hnd'.
      rewrite (IH _ _ _ _ Hnd' Hnew1 H2).
      rewrite (update_or_create_appends _ _ _ _ _ _
                 (Hnew q (or_introl eq_refl)) Hup),
        (resolved_pairs_catalog db db1) by assumption.
      rewrite <- app_assoc. reflexivity.
Qed.

Lemma recorded_of_attempt_answers db a q :
  attempt_answers db a = [] -> recorded_answers db a q = [].
Proof.
  unfold attempt_answers, recorded_answers. intros H.
  apply filter_nothing. intros x Hx.
  destruct (answers_to a q x) eqn:E; [|reflexivity].
  apply answers_to_spec in E. destruct E as [Ea _].
  assert (Hin : In x (filter (fun r => StudentAnswer.attempt r =? a)
                        (student_answers db))).
  { apply filter_In. split; [exact Hx|apply Z.eqb_eq; exact Ea]. }
  rewrite H in Hin. contradiction.
Qed.

Lemma find_finalized (attempt fin : QuizAttempt.t) (u : Z)
  (rows : list QuizAttempt.t) :
  In attempt rows ->
  QuizAttempt.id fin = QuizAttempt.id attempt ->
  QuizAttempt.student fin = u ->
  find (fun a => (QuizAttempt.id a =? QuizAttempt.id attempt)
                 && (QuizAttempt.student a =? u))
    (map (fun r => if QuizAttempt.id r =? QuizAttempt.id fin then fin else r)
         rows)
  = Some fin.
Proof.
  intros Hin Hid Hu. rewrite Hid.
  induction rows as [|r rows IH]; [contradiction|]. cbn [map find].
  destruct (QuizAttempt.id r =? QuizAttempt.id attempt) eqn:E.
  - rewrite Hid, Hu, !Z.eqb_refl. reflexivity.
  - rewrite E. cbn [andb]. apply IH. destruct Hin as [->|Hin]; [|exact Hin].
    rewrite Z.eqb_refl in E. discriminate.
Qed.

Lemma rows_of_attempt attempt (pairs : list (Question.t * Option.t)) :
  filter (fun r => StudentAnswer.attempt r =? QuizAttempt.id attempt)
    (map (fun c => answer_row attempt (fst c) (snd c)) pairs)
  = map (fun c => answer_row attempt (fst c) (snd c)) pairs.
Proof.
  induction pairs as [|c pairs IH]; [reflexivity|]. cbn [map filter].
  cbn [answer_row StudentAnswer.attempt]. rewrite Z.eqb_refl, IH.
  reflexivity.
Qed.

Lemma count_of_pairs attempt (pairs : list (Question.t * Option.t)) :
  count (map (fun c => answer_row attempt (fst c) (snd c)) pairs)
  = sum (map choice_correct pairs) + sum (map choice_incorrect pairs)
  /\ count (filter (fun r => Bool.eqb (StudentAnswer.is_correct r) true)
              (map (fun c => answer_row attempt (fst c) (snd c)) pairs))
     = sum (map choice_correct pairs).
Proof.
  unfold count, sum.
  induction pairs as [|[q o] pairs [IH1 IH2]]; [split; reflexivity|].
  cbn [map filter fold_right answer_row StudentAnswer.is_correct fst snd].
  unfold choice_correct at 1 3, choice_incorrect at 1. cbn [snd].
  destruct (Option.is_correct o); cbn [Bool.eqb List.length];
    rewrite ?Nat2Z.inj_succ; split; lia.
Qed.

(** X8. The result page agrees with the grading.  When the attempt had no
    recorded answer and the entries of a submission resolve to pairwise
    distinct questions, then after the submission is graded, [quiz_result]
    shows the user the completed attempt with the reported score, and its
    [total_questions] and [correct_answers], counted from the StudentAnswer
    rows, are the numbers of graded and of correct entries that
    [finalize_attempt] stored in the attempt. *)
Theorem result_page_matches_the_grading :
  forall (now : Z) (request : HttpRequest) (quiz_id : Z) (db : database)
         (parsed : submission_data) (quiz : Quiz.t)
         (entries : list (string * pyobj))
         (attempt_id score max_score : Z) (percentage : number)
         (passed : bool) (message : string) (request' : HttpRequest),
    parse_submission_data request db = Ok (Some parsed) db ->
    answers parsed = PDict entries ->
    get_object_or_404_Quiz quiz_id db = Ok quiz db ->
    NoDup (map Question.id (resolved_questions db quiz entries)) ->
    attempt_answers db attempt_id = [] ->
    data (fst (submit_quiz now request quiz_id db))
    = Submitted attempt_id score max_score percentage passed message ->
    user request' = user request ->
    exists ctx,
      quiz_result request' attempt_id (snd (submit_quiz now request quiz_id db))
      = Ok ctx (snd (submit_quiz now request quiz_id db))
      /\ QuizAttempt.status (ResultContext.attempt ctx)
         = ATTEMPT_STATUS_COMPLETED
      /\ QuizAttempt.score (ResultContext.attempt ctx) = Some score
      /\ ResultContext.total_questions ctx
         = QuizAttempt.correct_answers (ResultContext.attempt ctx)
           + QuizAttempt.incorrect_answers (ResultContext.attempt ctx)
      /\ ResultContext.correct_answers ctx
         = QuizAttempt.correct_answers (ResultContext.attempt ctx)
      /\ ResultContext.total_questions ctx
         = count (resolved_pairs db quiz entries).
Proof.
  intros now request quiz_id db parsed quiz entries attempt_id score max p
    passed message request' Hparse Hanswers Hquiz Hnd Hfresh Hd Huser.
  destruct (submit_quiz_outcome now request quiz_id db)
    as [(error & status & E)
       |(parsed' & quiz' & attempt & entries' & t & db1 & result & db'
         & Hparse' & Hquiz' & Hattempt & Hanswers' & Hgrade & Hfin & E)];
    rewrite E in *; cbn [fst snd data] in *; [discriminate Hd|].
  assert (parsed' = parsed) by congruence. subst parsed'.
  assert (entries' = entries) by congruence. subst entries'.
  assert (quiz' = quiz) by congruence. subst quiz'.
  apply get_quiz_attempt_in_progress in Hattempt.
  destruct Hattempt as (Hin & _ & Hstudent & _).
  apply finalize_attempt_saves in Hfin.
  destruct Hfin as (seconds & p' & passed' & Hsave & -> & _).
  inversion Hd; subst. clear Hd.
  pose proof (grade_entries_catalog _ _ _ _ _ _ _ Hgrade)
    as (_ & _ & _ & Hat).
  pose proof (grade_entries_credits _ _ _ _ _ _ _ Hgrade) as Ht.
  assert (Hrows : student_answers db1
                  = (student_answers db
                     ++ map (fun c => answer_row attempt (fst c) (snd c))
                            (resolved_pairs db quiz entries))%list).
  { apply (grade_entries_appends attempt quiz entries (mktot 0 0 0 0) db t db1
             Hnd); [|exact Hgrade].
    intros q _. apply recorded_of_attempt_answers. exact Hfresh. }
  pose proof (QuizAttempt_save_row _ _ _ _ Hsave) as (_ & Hsa & _).
  apply QuizAttempt_save_attempts in Hsave. destruct Hsave as (_ & Hmapped & _).
  rewrite Hat in Hmapped.
  assert (Hex : existsb (fun r => QuizAttempt.id r =? QuizAttempt.id attempt)
                  (attempts db) = true).
  { apply existsb_exists. exists attempt. split; [exact Hin|apply Z.eqb_refl]. }
  specialize (Hmapped Hex).
  unfold quiz_result. rewrite Hmapped, Huser.
  match goal with
  | |- context [map (fun r => if _ then ?fin else r) _] =>
      rewrite (find_finalized attempt fin (user request) (attempts db) Hin
                 eq_refl Hstudent)
  end.
  eexists. split; [reflexivity|].
  cbn [ResultContext.attempt ResultContext.total_questions
         ResultContext.correct_answers QuizAttempt.status QuizAttempt.score
         QuizAttempt.correct_answers QuizAttempt.incorrect_answers
         QuizAttempt.id].
  rewrite Hsa, Hrows, filter_app.
  unfold attempt_answers in Hfresh. rewrite Hfresh, rows_of_attempt.
  cbn [app].
  destruct (count_of_pairs attempt (resolved_pairs db quiz entries))
    as [Hc1 Hc2].
  rewrite Hc1, Hc2, Ht.
  cbn [total_score correct_count incorrect_count].
  repeat split; try lia.
  rewrite <- Hc1. unfold count. rewrite length_map. reflexivity.
Qed.

Lemma result_page_matches_the_grading_witness :
  exists ctx,
    quiz_result School.both_right 100
      (snd (submit_quiz 1000 School.one_right_one_wrong 1 School.db0))
    = Ok ctx (snd (submit_quiz 1000 School.one_right_one_wrong 1 School.db0))
    /\ QuizAttempt.status (ResultContext.attempt ctx)
       = ATTEMPT_STATUS_COMPLETED
    /\ QuizAttempt.score (ResultContext.attempt ctx) = Some 5
    /\ ResultContext.total_questions ctx
       = QuizAttempt.correct_answers (ResultContext.attempt ctx)
         + QuizAttempt.incorrect_answers (ResultContext.attempt ctx)
    /\ ResultContext.correct_answers ctx
       = QuizAttempt.correct_answers (ResultContext.attempt ctx)
    /\ ResultContext.total_questions ctx
       = count (resolved_pairs School.db0 School.quiz1
                  [("1", PStr "10"); ("2", PStr "21")]).
Proof.
  apply (result_page_matches_the_grading 1000 School.one_right_one_wrong 1
           School.db0
           (mkdata (PDict [("1", PStr "10"); ("2", PStr "21")]) (PInt 30))
           School.quiz1 [("1", PStr "10"); ("2", PStr "21")]
           100 5 10 (Float School.f50) false "Quiz submitted successfully!"
           School.both_right);
    try reflexivity.
  vm_compute. repeat constructor; simpl; intuition discriminate.
Defined.

(** With alias keys the page and the attempt disagree: one StudentAnswer,
    two correct answers counted. *)
Example result_page_after_alias_keys :
  match quiz_result School.alias_keys 100
          (snd (submit_quiz 1000 School.alias_keys 1 School.db0)) with
  | Ok ctx _ =>
      (ResultContext.total_questions ctx, ResultContext.correct_answers ctx,
       QuizAttempt.correct_answers (ResultContext.attempt ctx))
  | Raise _ _ => (0, 0, 0)
  end = (1, 1, 2).
Proof. vm_compute. reflexivity. Qed.

(** * Further properties of the statistics *)

Lemma counted_cons (p : option number) (ps : list (option number)) :
  counted (p :: ps)
  = (match p with
     | Some p => match bucket_index p with Some _ => 1 | None => 0 end
     | None => 0
     end) + counted ps.
Proof.
  unfold counted, count. cbn [filter].
  destruct p as [p|]; [destruct (bucket_index p)|]; cbn [List.length]; lia.
Qed.

Lemma members_add_up (ps : list (option number)) :
  members 0 ps + members 1 ps + members 2 ps + members 3 ps + members 4 ps
  + members 5 ps = counted ps.
Proof.
  induction ps as [|p ps IH]; [reflexivity|].
  rewrite !members_cons, counted_cons, <- IH.
  destruct p as [p|]; [|cbn; lia].
  unfold falls_in, bucket_index.
  repeat match goal with
         | |- context [between ?lo p ?hi] => destruct (between lo p hi)
         end; cbn [Nat.eqb]; lia.
Qed.

Lemma counted_le (ps : list (option number)) : counted ps <= count ps.
Proof.
  unfold counted, count. apply Nat2Z.inj_le. apply filter_length_le.
Qed.

(** X9. The six counts of a grade distribution add up to the number of
    attempts whose percentage lies in one of the six ranges: no attempt is
    counted twice, and the total never exceeds the number of attempts
    given. *)
Theorem distribution_counts_each_attempt_once :
  forall (attempts : list QuizAttempt.t),
    sum (map snd (calculate_quiz_specific_grade_distribution attempts))
    = counted (map QuizAttempt.percentage attempts)
    /\ sum (map snd (calculate_quiz_specific_grade_distribution attempts))
       <= count attempts.
Proof.
  intros attempts.
  rewrite calculate_quiz_specific_grade_distribution_counts.
  assert (E : sum (map snd (bucket_counts (map QuizAttempt.percentage attempts)))
              = counted (map QuizAttempt.percentage attempts)).
  { rewrite <- members_add_up. unfold bucket_counts, sum. cbn. lia. }
  split; [exact E|]. rewrite E.
  pose proof (counted_le (map QuizAttempt.percentage attempts)) as H.
  unfold count in *. rewrite length_map in H. exact H.
Qed.

Lemma filter_Permutation {A} (f : A -> bool) (l l' : list A) :
  Permutation l l' -> Permutation (filter f l) (filter f l').
Proof.
  induction 1; cbn [filter].
  - constructor.
  - destruct (f x); [constructor|]; assumption.
  - destruct (f x), (f y); try apply perm_swap; apply Permutation_refl.
  - eapply Permutation_trans; eassumption.
Qed.

Lemma members_Permutation (i : nat) (ps ps' : list (option number)) :
  Permutation ps ps' -> members i ps = members i ps'.
Proof.
  intros H. unfold members. f_equal. apply Permutation_length.
  apply filter_Permutation. exact H.
Qed.

(** X10. A grade distribution does not depend on the order in which the
    queryset yields the attempts. *)
Theorem distribution_ignores_order :
  forall (attempts attempts' : list QuizAttempt.t),
    Permutation attempts attempts' ->
    calculate_quiz_specific_grade_distribution attempts
    = calculate_quiz_specific_grade_distribution attempts'.
Proof.
  intros attempts attempts' H.
  rewrite !calculate_quiz_specific_grade_distribution_counts.
  assert (Hp : Permutation (map QuizAttempt.percentage attempts)
                 (map QuizAttempt.percentage attempts'))
    by (apply Permutation_map; exact H).
  unfold bucket_counts. rewrite !(members_Permutation _ _ _ Hp). reflexivity.
Qed.

Lemma distribution_ignores_order_witness :
  Permutation (attempts db_graded) (rev (attempts db_graded))
  /\ calculate_quiz_specific_grade_distribution (attempts db_graded)
     = calculate_quiz_specific_grade_distribution (rev (attempts db_graded)).
Proof.
  split; [apply perm_swap|].
  apply (distribution_ignores_order (attempts db_graded)
           (rev (attempts db_graded))).
  apply perm_swap.
Defined.

(** X11. The triple of [validate_quiz_data] is coherent: an accepted form
    comes with the two numbers that [int] reads from the fields, both
    positive, with all five fields filled in and no error message; a
    refused form comes with an error message and no numbers. *)
Theorem validate_quiz_data_triple :
  forall (title category difficulty total_marks time_limit : string),
    match validate_quiz_data title category difficulty total_marks time_limit
    with
    | (true, validated, error) =>
        exists total limit,
          validated = Some (mkvalid total limit)
          /\ error = None
          /\ int_of_str total_marks = Return total
          /\ int_of_str time_limit = Return limit
          /\ 0 < total /\ 0 < limit
          /\ forallb truthy
               [title; category; difficulty; total_marks; time_limit] = true
    | (false, validated, error) => validated = None /\ error <> None
    end.
Proof.
  intros title category difficulty total_marks time_limit.
  unfold validate_quiz_data.
  destruct (forallb truthy
              [title; category; difficulty; total_marks; time_limit]) eqn:Hall;
    cbn [negb]; [|split; [reflexivity|discriminate]].
  destruct (int_of_str total_marks) as [total|e]; cbn [pybind];
    [|split; [reflexivity|discriminate]].
  destruct (int_of_str time_limit) as [limit|e]; cbn [pybind];
    [|split; [reflexivity|discriminate]].
  destruct ((total <=? 0) || (limit <=? 0)) eqn:Hpos;
    [split; [reflexivity|discriminate]|].
  apply orb_false_iff in Hpos. destruct Hpos as [Ht Hl].
  exists total, limit. repeat split; try reflexivity; lia.
Qed.

(** The field [" 12"] is read as 12 although it is not a plain numeral,
    and ["0"] is a filled-in field that is refused for its value. *)
Example validate_quiz_data_examples :
  validate_quiz_data "Algebra" "Maths" "easy" "1_0" "30"
  = (true, Some (mkvalid 10 30), None)
  /\ validate_quiz_data "Algebra" "Maths" "easy" "0" "30"
     = (false, None,
        Some "Total marks and time limit must be positive numbers.")
  /\ validate_quiz_data "Algebra" "Maths" "easy" "ten" "0"
     = (false, None, Some "Total marks and time limit must be valid numbers.")
  /\ validate_quiz_data "Algebra" "" "easy" "ten" "0"
     = (false, None, Some "Please fill in all required fields.").
Proof. repeat split; vm_compute; reflexivity. Qed.

Lemma fold_left_max_spec (l : list Z) (x : Z) :
  (forall y, In y (x :: l) -> y <= fold_left Z.max l x)
  /\ In (fold_left Z.max l x) (x :: l).
Proof.
  revert x. induction l as [|z l IH]; intros x; cbn [fold_left].
  - split; [intros y [->|[]]; lia | left; reflexivity].
  - destruct (IH (Z.max x z)) as [Hle Hin]. split.
    + intros y [->|[->|Hy]].
      * specialize (Hle (Z.max y z) (or_introl eq_refl)). lia.
      * specialize (Hle (Z.max x y) (or_introl eq_refl)). lia.
      * apply Hle. right. exact Hy.
    + destruct Hin as [Hm|Hm].
      * rewrite <- Hm. destruct (Z.max_spec x z) as [[_ ->]|[_ ->]];
          [right; left|left]; reflexivity.
      * right. right. exact Hm.
Qed.

Lemma fold_left_min_spec (l : list Z) (x : Z) :
  (forall y, In y (x :: l) -> fold_left Z.min l x <= y)
  /\ In (fold_left Z.min l x) (x :: l).
Proof.
  revert x. induction l as [|z l IH]; intros x; cbn [fold_left].
  - split; [intros y [->|[]]; lia | left; reflexivity].
  - destruct (IH (Z.min x z)) as [Hle Hin]. split.
    + intros y [->|[->|Hy]].
      * specialize (Hle (Z.min y z) (or_introl eq_refl)). lia.
      * specialize (Hle (Z.min x y) (or_introl eq_refl)). lia.
      * apply Hle. right. exact Hy.
    + destruct Hin as [Hm|Hm].
      * rewrite <- Hm. destruct (Z.min_spec x z) as [[_ ->]|[_ ->]];
          [left|right; left]; reflexivity.
      * right. right. exact Hm.
Qed.

Lemma best_of_spec (scores : list Z) (best : Z) :
  best_of scores = Return best ->
  match scores with
  | [] => best = 0
  | _ :: _ => (forall s, In s scores -> s <= best) /\ In best scores
  end.
Proof.
  destruct scores as [|x l]; cbn [best_of py_max]; intros H;
    inversion H; subst; [reflexivity|].
  apply fold_left_max_spec.
Qed.

Lemma worst_of_spec (scores : list Z) (worst : Z) :
  worst_of scores = Return worst ->
  match scores with
  | [] => worst = 0
  | _ :: _ => (forall s, In s scores -> worst <= s) /\ In worst scores
  end.
Proof.
  destruct scores as [|x l]; cbn [worst_of py_min]; intros H;
    inversion H; subst; [reflexivity|].
  apply fold_left_min_spec.
Qed.

Lemma In_scores_of (attempts : list QuizAttempt.t) (s : Z) :
  In s (scores_of attempts)
  <-> exists a, In a attempts /\ QuizAttempt.score a = Some s.
Proof.
  unfold scores_of. rewrite in_flat_map. split.
  - intros [a [Ha Hs]]. exists a. split; [exact Ha|].
    destruct (QuizAttempt.score a) as [s'|]; [|destruct Hs].
    destruct Hs as [->|[]]. reflexivity.
  - intros [a [Ha Hs]]. exists a. split; [exact Ha|].
    rewrite Hs. left. reflexivity.
Qed.

Lemma pybind_Return {A B} (r : pyresult A) (k : A -> pyresult B) (b : B) :
  pybind r k = Return b -> exists a, r = Return a /\ k a = Return b.
Proof.
  destruct r as [a|e]; cbn [pybind]; intros H; [|discriminate].
  exists a. split; [reflexivity|exact H].
Qed.

(** X12. The statistics of a result page bound every score: no attempt of
    the queryset scored less than [min_score] or more than [max_score],
    and when some attempt has a score both are the scores of attempts of
    the queryset; when none has, the three statistics are zero. *)
Theorem attempt_stats_bound_the_scores :
  forall (attempts : list QuizAttempt.t) (stats : AttemptStats.t),
    calculate_attempt_stats attempts = Return stats ->
    (forall a s, In a attempts -> QuizAttempt.score a = Some s ->
                 AttemptStats.min_score stats <= s <= AttemptStats.max_score stats)
    /\ (scores_of attempts <> [] ->
        (exists a, In a attempts
                   /\ QuizAttempt.score a = Some (AttemptStats.min_score stats))
        /\ (exists a, In a attempts
                      /\ QuizAttempt.score a
                         = Some (AttemptStats.max_score stats)))
    /\ (scores_of attempts = [] -> stats = AttemptStats.mk (Int 0) 0 0).
Proof.
  intros attempts stats H.
  assert (Hs : exists avg best worst,
             stats = AttemptStats.mk avg best worst
             /\ (scores_of attempts = [] -> avg = Int 0)
             /\ best_of (scores_of attempts) = Return best
             /\ worst_of (scores_of attempts) = Return worst).
  { destruct attempts as [|a0 rest].
    - inversion H; subst. exists (Int 0), 0, 0. repeat split; reflexivity.
    - unfold calculate_attempt_stats in H.
      apply pybind_Return in H. destruct H as [avg [Havg H]].
      apply pybind_Return in H. destruct H as [best [Hbest H]].
      apply pybind_Return in H. destruct H as [worst [Hworst H]].
      inversion H; subst. exists avg, best, worst.
      repeat split; try assumption.
      intros Hnil. rewrite Hnil in Havg. inversion Havg. reflexivity. }
  destruct Hs as [avg [best [worst [-> [Havg [Hbest Hworst]]]]]].
  apply best_of_spec in Hbest. apply worst_of_spec in Hworst.
  cbn [AttemptStats.min_score AttemptStats.max_score].
  split; [|split].
  - intros a s Ha Hscore.
    assert (Hin : In s (scores_of attempts))
      by (apply In_scores_of; exists a; split; assumption).
    destruct (scores_of attempts) as [|x l]; [destruct Hin|].
    destruct Hbest as [Hb _]. destruct Hworst as [Hw _].
    split; [apply Hw|apply Hb]; exact Hin.
  - intros Hne. destruct (scores_of attempts) as [|x l] eqn:E;
      [contradiction|].
    destruct Hbest as [_ Hb]. destruct Hworst as [_ Hw].
    rewrite <- E in Hb, Hw. apply In_scores_of in Hb, Hw. split; assumption.
  - intros Hnil. rewrite Hnil in Hbest, Hworst. subst.
    rewrite (Havg Hnil). reflexivity.
Qed.

Lemma attempt_stats_bound_the_scores_witness :
  exists stats,
    calculate_attempt_stats (attempts db_graded) = Return stats
    /\ (forall a s, In a (attempts db_graded) -> QuizAttempt.score a = Some s ->
                    AttemptStats.min_score stats <= s
                    <= AttemptStats.max_score stats).
Proof.
  eexists. split; [vm_compute; reflexivity|].
  apply (attempt_stats_bound_the_scores (attempts db_graded)).
  vm_compute. reflexivity.
Defined.

Lemma passed_and_failed (l : list QuizAttempt.t) :
  count l
  = count (filter (fun a => Bool.eqb (QuizAttempt.passed a) true) l)
    + count (filter (fun a => Bool.eqb (QuizAttempt.passed a) false) l).
Proof.
  unfold count. induction l as [|a l IH]; [reflexivity|].
  cbn [filter]. destruct (QuizAttempt.passed a); cbn [Bool.eqb List.length];
    lia.
Qed.

(** X13. The statistics of a student are taken from the completed attempts
    of that student alone: [worst_score] and [best_score] bound the score
    of each of them, both are scores of such attempts when one has a
    score, the passed and failed attempts together are all of them, and a
    student without a completed attempt has zeros throughout. *)
Theorem student_stats_cover_completed_attempts :
  forall (db : database) (u : Z) (stats : PerformanceStats.t),
    calculate_student_performance_stats db u = Return stats ->
    (forall a s, In a (attempts db) -> QuizAttempt.student a = u ->
                 is_completed a = true -> QuizAttempt.score a = Some s ->
                 PerformanceStats.worst_score stats <= s
                 <= PerformanceStats.best_score stats)
    /\ (scores_of (student_completed_attempts db u) <> [] ->
        exists worst best,
          In worst (attempts db) /\ In best (attempts db)
          /\ QuizAttempt.student worst = u /\ QuizAttempt.student best = u
          /\ is_completed worst = true /\ is_completed best = true
          /\ QuizAttempt.score worst
             = Some (PerformanceStats.worst_score stats)
          /\ QuizAttempt.score best
             = Some (PerformanceStats.best_score stats))
    /\ PerformanceStats.total_quizzes stats
       = PerformanceStats.passed_quizzes stats
         + PerformanceStats.failed_quizzes stats
    /\ (student_completed_attempts db u = [] ->
        stats = PerformanceStats.mk 0 0 0 (Int 0) 0 0 (Int 0)).
Proof.
  intros db u stats H.
  assert (Hcompleted : forall a,
             In a (student_completed_attempts db u)
             <-> In a (attempts db) /\ QuizAttempt.student a = u
                 /\ is_completed a = true).
  { intros a. unfold student_completed_attempts. rewrite filter_In.
    rewrite andb_true_iff, Z.eqb_eq. tauto. }
  assert (Hs : exists avg best worst rate,
             stats = PerformanceStats.mk
                       (count (student_completed_attempts db u))
                       (count (filter (fun a => Bool.eqb (QuizAttempt.passed a) true)
                                 (student_completed_attempts db u)))
                       (count (filter (fun a => Bool.eqb (QuizAttempt.passed a) false)
                                 (student_completed_attempts db u)))
                       avg best worst rate
             /\ (student_completed_attempts db u = [] ->
                 avg = Int 0 /\ rate = Int 0)
             /\ best_of (scores_of (student_completed_attempts db u))
                = Return best
             /\ worst_of (scores_of (student_completed_attempts db u))
                = Return worst).
  { unfold calculate_student_performance_stats in H.
    destruct (student_completed_attempts db u) as [|a0 rest] eqn:E.
    - inversion H; subst. exists (Int 0), 0, 0, (Int 0).
      repeat split; reflexivity.
    - apply pybind_Return in H. destruct H as [avg [Havg H]].
      apply pybind_Return in H. destruct H as [best [Hbest H]].
      apply pybind_Return in H. destruct H as [worst [Hworst H]].
      apply pybind_Return in H. destruct H as [rate [Hrate H]].
      inversion H; subst. exists avg, best, worst, rate.
      repeat split; try assumption; discriminate. }
  destruct Hs as [avg [best [worst [rate [-> [Hzero [Hbest Hworst]]]]]]].
  apply best_of_spec in Hbest. apply worst_of_spec in Hworst.
  cbn [PerformanceStats.worst_score PerformanceStats.best_score
       PerformanceStats.total_quizzes PerformanceStats.passed_quizzes
       PerformanceStats.failed_quizzes].
  split; [|split; [|split]].
  - intros a s Ha Hu Hc Hscore.
    assert (Hin : In s (scores_of (student_completed_attempts db u))).
    { apply In_scores_of. exists a. split; [|exact Hscore].
      apply Hcompleted. auto. }
    destruct (scores_of (student_completed_attempts db u)) as [|x l];
      [destruct Hin|].
    destruct Hbest as [Hb _]. destruct Hworst as [Hw _].
    split; [apply Hw|apply Hb]; exact Hin.
  - intros Hne.
    destruct (scores_of (student_completed_attempts db u)) as [|x l] eqn:E;
      [contradiction|].
    destruct Hbest as [_ Hb]. destruct Hworst as [_ Hw].
    rewrite <- E in Hb, Hw. apply In_scores_of in Hb, Hw.
    destruct Hw as [w [Hw1 Hw2]]. destruct Hb as [b [Hb1 Hb2]].
    apply Hcompleted in Hw1, Hb1. exists w, b. tauto.
  - apply passed_and_failed.
  - intros Hnil. destruct (Hzero Hnil) as [-> ->].
    rewrite Hnil in Hbest, Hworst. cbn [scores_of flat_map] in Hbest, Hworst.
    subst. rewrite Hnil. reflexivity.
Qed.

Lemma student_stats_cover_completed_attempts_witness :
  exists stats,
    calculate_student_performance_stats db_graded 42 = Return stats
    /\ PerformanceStats.total_quizzes stats
       = PerformanceStats.passed_quizzes stats
         + PerformanceStats.failed_quizzes stats.
Proof.
  eexists. split; [vm_compute; reflexivity|].
  apply (student_stats_cover_completed_attempts db_graded 42).
  vm_compute. reflexivity.
Defined.

(** * Further properties of the creation of questions *)

Lemma set_options_same (db : database) : set_options db (options db) = db.
Proof. destruct db; reflexivity. Qed.

Lemma create_options_spec (question : Question.t) (correct_index : Z)
  (opts : list string) :
  forall (idx : Z) (db : database),
  exists new,
    create_options question correct_index idx opts db
    = Ok tt (set_options db (options db ++ new)%list)
    /\ Forall (fun o => Option.question o = Question.id question) new
    /\ count new = count (filter (fun opt => truthy (py_strip opt)) opts)
    /\ count (filter Option.is_correct new)
       = if (0 <=? correct_index - idx)
            && truthy (py_strip (nth (Z.to_nat (correct_index - idx)) opts ""))
         then 1 else 0.
Proof.
  induction opts as [|option_text rest IH]; intros idx db.
  - exists []. cbn [create_options]. rewrite app_nil_r, set_options_same.
    repeat split; [constructor|].
    destruct (Z.to_nat (correct_index - idx)); cbn [nth];
      rewrite andb_false_r; reflexivity.
  - cbn [create_options filter].
    assert (Hnth : correct_index - idx <> 0 ->
                   (0 <=? correct_index - idx)
                   && truthy (py_strip (nth (Z.to_nat (correct_index - idx))
                                          (option_text :: rest) ""))
                   = (0 <=? correct_index - (idx + 1))
                     && truthy (py_strip (nth (Z.to_nat (correct_index - (idx + 1)))
                                            rest ""))).
    { intros Hne. destruct (Z.leb_spec 0 (correct_index - idx)) as [Hle|Hlt].
      - replace (Z.to_nat (correct_index - idx))
          with (S (Z.to_nat (correct_index - (idx + 1)))) by lia.
        cbn [nth]. destruct (Z.leb_spec 0 (correct_index - (idx + 1))); [|lia].
        reflexivity.
      - destruct (Z.leb_spec 0 (correct_index - (idx + 1))); [lia|].
        reflexivity. }
    destruct (truthy (py_strip option_text)) eqn:Hkept.
    + set (o := Option.mk (next_pk (map Option.id (options db)))
                  (Question.id question) (idx =? correct_index)).
      destruct (IH (idx + 1) (set_options db (options db ++ [o])%list))
        as [new [Hrun [Hfk [Hcount Hcorrect]]]].
      exists (o :: new). split; [|split; [|split]].
      * unfold bind at 1. unfold bind at 1. unfold Option_objects_create.
        fold o. cbn [ret]. rewrite Hrun. cbn [set_options options].
        rewrite <- app_assoc. reflexivity.
      * constructor; [reflexivity|exact Hfk].
      * unfold count in *. cbn [List.length]. lia.
      * cbn [filter]. subst o. cbn [Option.is_correct].
        destruct (Z.eqb_spec idx correct_index) as [Heq|Hne].
        -- subst idx. rewrite Z.sub_diag. cbn [Z.to_nat nth Z.leb andb].
           change (0 <=? 0) with true. cbn [andb]. rewrite Hkept.
           replace (correct_index - (correct_index + 1)) with (-1) in Hcorrect
             by lia.
           cbn [Z.leb andb] in Hcorrect. change (0 <=? -1) with false in Hcorrect.
           cbn [andb] in Hcorrect. unfold count in *. cbn [List.length]. lia.
        -- rewrite Hnth by lia. exact Hcorrect.
    + destruct (IH (idx + 1) db) as [new [Hrun [Hfk [Hcount Hcorrect]]]].
      exists new. split; [exact Hrun|]. split; [exact Hfk|].
      split; [exact Hcount|].
      destruct (Z.eq_dec (correct_index - idx) 0) as [Heq|Hne].
      * rewrite Heq. cbn [Z.to_nat nth]. rewrite Hkept, andb_false_r.
        replace (correct_index - (idx + 1)) with (-1) in Hcorrect by lia.
        change (0 <=? -1) with false in Hcorrect. exact Hcorrect.
      * rewrite Hnth by exact Hne. exact Hcorrect.
Qed.

Lemma next_pk_fresh (pks : list Z) (x : Z) : In x pks -> x < next_pk pks.
Proof.
  unfold next_pk. induction pks as [|y pks IH]; [intros []|].
  cbn [fold_right]. intros [->|H]; [lia|]. specialize (IH H). lia.
Qed.

Lemma referenced_question (db : database) (o : Option.t) :
  options_reference_questions db = true ->
  In o (options db) ->
  In (Option.question o) (map Question.id (questions db)).
Proof.
  unfold options_reference_questions. rewrite forallb_forall.
  intros Href Ho. specialize (Href o Ho). apply existsb_exists in Href.
  destruct Href as [q [Hq Heq]]. apply Z.eqb_eq in Heq. rewrite <- Heq.
  apply in_map. exact Hq.
Qed.

Lemma filter_none {A} (f : A -> bool) (l : list A) :
  (forall x, In x l -> f x = false) -> filter f l = [].
Proof.
  induction l as [|x l IH]; intros H; [reflexivity|]. cbn [filter].
  rewrite (H x (or_introl eq_refl)). apply IH. intros y Hy. apply H.
  right. exact Hy.
Qed.

Lemma filter_all {A} (f : A -> bool) (l : list A) :
  (forall x, In x l -> f x = true) -> filter f l = l.
Proof.
  induction l as [|x l IH]; intros H; [reflexivity|]. cbn [filter].
  rewrite (H x (or_introl eq_refl)). f_equal. apply IH. intros y Hy.
  apply H. right. exact Hy.
Qed.

Lemma create_questions_from_spec (quiz : Quiz.t)
  (questions_data : list QuestionData.t) :
  forall (order : Z) (db db' : database),
    create_questions_from quiz order questions_data db = Ok tt db' ->
    options_reference_questions db = true ->
    exists new_questions,
      questions db' = (questions db ++ new_questions)%list
      /\ Forall2 (created_from db' quiz) new_questions questions_data
      /\ (forall id, In id (map Question.id (questions db)) ->
                     options_of db' id = options_of db id).
Proof.
  induction questions_data as [|q_data rest IH]; intros order db db' Hrun Href.
  - cbn [create_questions_from] in Hrun. apply ret_Ok in Hrun.
    destruct Hrun as [_ ->]. exists []. rewrite app_nil_r.
    repeat split. constructor.
  - cbn [create_questions_from] in Hrun.
    apply bind_Ok in Hrun. destruct Hrun as (marks & d1 & Hmarks & Hrun).
    apply lift_Ok in Hmarks. destruct Hmarks as [Hmarks ->].
    apply bind_Ok in Hrun. destruct Hrun as (q & d2 & Hq & Hrun).
    unfold Question_objects_create in Hq.
    destruct (fits_column marks); cbn [negb] in Hq; [|discriminate Hq].
    inversion Hq; subst q d2; clear Hq.
    set (q := Question.mk (next_pk (map Question.id (questions db)))
                (Quiz.id quiz) marks) in *.
    apply bind_Ok in Hrun. destruct Hrun as (ci & d3 & Hci & Hrun).
    apply lift_Ok in Hci. destruct Hci as [Hci ->].
    apply bind_Ok in Hrun. destruct Hrun as ([] & d4 & Hopts & Hrun).
    destruct (create_options_spec q ci (QuestionData.options q_data) 0
                (set_questions db (questions db ++ [q])%list))
      as [new [Hrun' [Hfk [Hcount Hcorrect]]]].
    rewrite Hrun' in Hopts. inversion Hopts; subst d4; clear Hopts Hrun'.
    cbn [set_questions options] in Hrun.
    set (db2 := set_options _ _) in Hrun.
    assert (Hold : forall o, In o (options db) ->
                             Option.question o < Question.id q).
    { intros o Ho. apply next_pk_fresh. apply referenced_question; assumption. }
    assert (Hnew : forall o, In o new -> Option.question o = Question.id q)
      by (apply Forall_forall; exact Hfk).
    assert (Href2 : options_reference_questions db2 = true).
    { unfold options_reference_questions. apply forallb_forall.
      intros o Ho. subst db2. cbn [set_options set_questions options questions]
        in Ho |- *.
      rewrite existsb_app. apply in_app_or in Ho. destruct Ho as [Ho|Ho].
      - unfold options_reference_questions in Href.
        rewrite forallb_forall in Href. rewrite (Href o Ho). reflexivity.
      - cbn [existsb]. rewrite (Hnew o Ho), Z.eqb_refl, orb_true_r.
        reflexivity. }
    destruct (IH (order + 1) db2 db' Hrun Href2)
      as [new_questions [Hquestions [Hcreated Hkeeps]]].
    assert (Hof : options_of db2 (Question.id q) = new).
    { unfold options_of. subst db2. cbn [set_options options].
      rewrite filter_app, filter_none, filter_all; [reflexivity| |].
      - intros o Ho. rewrite (Hnew o Ho). apply Z.eqb_refl.
      - intros o Ho. specialize (Hold o Ho). apply Z.eqb_neq. lia. }
    exists (q :: new_questions). split; [|split].
    + rewrite Hquestions. subst db2. cbn [set_options set_questions questions].
      rewrite <- app_assoc. reflexivity.
    + constructor; [|exact Hcreated].
      assert (Hq2 : In (Question.id q) (map Question.id (questions db2))).
      { subst db2. cbn [set_options set_questions questions].
        rewrite map_app. apply in_or_app. right. left. reflexivity. }
      unfold created_from, correct_options_of.
      rewrite (Hkeeps _ Hq2), Hof.
      split; [reflexivity|]. split; [exact Hmarks|]. split; [exact Hcount|].
      exists ci. split; [exact Hci|].
      rewrite Hcorrect, Z.sub_0_r. reflexivity.
    + intros id Hid.
      assert (Hid2 : In id (map Question.id (questions db2))).
      { subst db2. cbn [set_options set_questions questions].
        rewrite map_app. apply in_or_app. left. exact Hid. }
      rewrite (Hkeeps _ Hid2). unfold options_of. subst db2.
      cbn [set_options options]. rewrite filter_app.
      rewrite (filter_none _ new); [apply app_nil_r|].
      intros o Ho. rewrite (Hnew o Ho). apply Z.eqb_neq.
      apply next_pk_fresh in Hid. subst q. cbn [Question.id]. lia.
Qed.

(** X14. Creation adds one question for each question of the form, in the
    order of the form, and gives each what [created_from] describes: an
    option for every option text that is not blank and at most one
    correct option, none when the index marked correct is out of range or
    points at a blank text.  The options of the questions that were there
    before are left as they were. *)
Theorem creation_follows_the_form :
  forall (quiz : Quiz.t) (questions_data : list QuestionData.t)
         (db db' : database),
    create_questions_and_options quiz questions_data db = Ok tt db' ->
    options_reference_questions db = true ->
    exists new_questions,
      questions db' = (questions db ++ new_questions)%list
      /\ Forall2 (created_from db' quiz) new_questions questions_data
      /\ (forall id, In id (map Question.id (questions db)) ->
                     options_of db' id = options_of db id).
Proof.
  intros quiz questions_data db db' Hrun Href.
  exact (create_questions_from_spec quiz questions_data 1 db db' Hrun Href).
Qed.

Lemma creation_follows_the_form_witness :
  exists db',
    create_questions_and_options School.quiz1 example_questions School.db0
    = Ok tt db'
    /\ options_reference_questions School.db0 = true
    /\ exists new_questions,
         questions db' = (questions School.db0 ++ new_questions)%list
         /\ Forall2 (created_from db' School.quiz1) new_questions
              example_questions
         /\ (forall id, In id (map Question.id (questions School.db0)) ->
                        options_of db' id = options_of School.db0 id).
Proof.
  eexists. split; [vm_compute; reflexivity|].
  split; [vm_compute; reflexivity|].
  apply (creation_follows_the_form School.quiz1 example_questions School.db0);
    vm_compute; reflexivity.
Defined.

(** The second question of the example form marks a blank option as the
    correct one: it is created with two options, none of them correct. *)
Example question_without_correct_option :
  match create_questions_and_options School.quiz1 example_questions School.db0
  with
  | Ok _ db' =>
      map Question.id (questions db') = [1; 2; 3; 4; 5; 6]
      /\ count (options_of db' 5) = 3 /\ count (correct_options_of db' 5) = 1
      /\ count (options_of db' 6) = 2 /\ count (correct_options_of db' 6) = 0
  | Raise _ _ => False
  end.
Proof. vm_compute. repeat split. Qed.

Lemma extract_question_data_accepts (post_data : QueryDict) (q_num : string)
  (q_data : QuestionData.t) :
  extract_question_data post_data q_num = Some q_data ->
  truthy (QuestionData.text q_data) = true
  /\ 1 <= count (kept_options q_data).
Proof.
  unfold extract_question_data.
  destruct (truthy (py_strip (post_get post_data (question_key q_num "text") "")))
    eqn:Htext; cbn [negb]; [|discriminate].
  cbn [QuestionData.options].
  destruct (getlist post_data (question_key q_num "options" ++ "[]"))
    as [|o l] eqn:Hopts; [discriminate|].
  destruct (any_option_text (o :: l)) eqn:Hany; [|discriminate].
  intros H. inversion H; subst q_data; clear H.
  cbn [QuestionData.text]. split; [exact Htext|].
  unfold kept_options. cbn [QuestionData.options].
  unfold any_option_text in Hany. apply existsb_exists in Hany.
  destruct Hany as [opt [Hin Hkept]].
  assert (Hf : In opt (filter (fun opt => truthy (py_strip opt)) (o :: l)))
    by (apply filter_In; split; assumption).
  unfold count.
  destruct (filter (fun opt => truthy (py_strip opt)) (o :: l));
    [destruct Hf|]. cbn [List.length]. lia.
Qed.

(** X15. A question that [extract_question_data] accepts is never created
    without options: creation gives every such question at least one
    option. *)
Theorem accepted_questions_get_an_option :
  forall (post_data : QueryDict) (quiz : Quiz.t)
         (questions_data : list QuestionData.t) (db db' : database),
    Forall (fun q_data =>
              exists q_num, extract_question_data post_data q_num = Some q_data)
           questions_data ->
    create_questions_and_options quiz questions_data db = Ok tt db' ->
    options_reference_questions db = true ->
    exists new_questions,
      questions db' = (questions db ++ new_questions)%list
      /\ count new_questions = count questions_data
      /\ Forall (fun question =>
                   1 <= count (options_of db' (Question.id question)))
                new_questions.
Proof.
  intros post_data quiz questions_data db db' Hform Hrun Href.
  destruct (create_questions_from_spec quiz questions_data 1 db db' Hrun Href)
    as [new_questions [Hquestions [Hcreated _]]].
  exists new_questions. split; [exact Hquestions|].
  clear Hrun Hquestions. unfold count.
  induction Hcreated as [|q q_data new_questions questions_data Hq _ IH].
  - split; [reflexivity|constructor].
  - inversion Hform as [|? ? [q_num Hextract] Hrest]; subst.
    destruct (IH Hrest) as [Hlen Hall]. split.
    + cbn [List.length]. lia.
    + constructor; [|exact Hall].
      destruct Hq as [_ [_ [Hoptions _]]]. fold (count (options_of db' (Question.id q))).
      rewrite Hoptions.
      apply (extract_question_data_accepts post_data q_num q_data Hextract).
Qed.

Lemma accepted_questions_get_an_option_witness :
  exists db',
    create_questions_and_options School.quiz1 example_questions School.db0
    = Ok tt db'
    /\ exists new_questions,
         questions db' = (questions School.db0 ++ new_questions)%list
         /\ count new_questions = count example_questions
         /\ Forall (fun question =>
                      1 <= count (options_of db' (Question.id question)))
                   new_questions.
Proof.
  eexists. split; [vm_compute; reflexivity|].
  apply (accepted_questions_get_an_option example_form School.quiz1
           example_questions School.db0).
  - repeat constructor; [exists "1"|exists "2"]; vm_compute; reflexivity.
  - vm_compute. reflexivity.
  - vm_compute. reflexivity.
Defined.




(** Marks that [int] reads but the column cannot hold: creation raises
    OverflowError. *)
Example marks_beyond_the_column :
  exists db',
    create_questions_and_options School.quiz1
      [QuestionData.mk "2 + 2 = ?" "multiple_choice" "99999999999999999999"
         "" "0" ["4"; "5"]]
      School.db0
    = Raise OverflowError db'.
Proof. eexists. vm_compute. reflexivity. Qed.

